(** * Photo ingestion pipeline of the gallery backend

    A shallow embedding of [backend/file_handler.py],
    [backend/telegram_service.py], [backend/models.py], the handlers of
    [backend/routes_admin.py] and those of [backend/routes_public.py].

    Python [str] values are modelled as [string] (a sequence of one-byte
    characters, [lower] acting on the ASCII letters), [bytes] as
    [list byte], [os.environ] as a [gmap string string], the [categories]
    collection as the list of its documents in natural order.  Raising and
    catching exceptions, the document store and the calls made to the
    libraries and to the remote API are threaded through a state and error
    monad.  One request runs at a time; reading the uploaded file and the
    operations of the store themselves do not raise. *)

From Stdlib Require Import ZArith Ascii String List Bool Lia.
From Stdlib.Strings Require Import Byte.
From Stdlib Require Import DecimalString DecimalZ DecimalPos.
From stdpp Require Import base option list strings gmap.
Import ListNotations.

Local Open Scope Z_scope.

(** ** Python string operations *)

Module Py.

(** [c.lower()] on one character: the ASCII capitals move by 32. *)
Definition lower_char (c : ascii) : ascii :=
  let n := nat_of_ascii c in
  if (Nat.leb 65 n && Nat.leb n 90)%bool then ascii_of_nat (n + 32) else c.

(** [s.lower()] *)
Fixpoint lower (s : string) : string :=
  match s with
  | EmptyString => EmptyString
  | String c r => String (lower_char c) (lower r)
  end.

(** [c in s] for a one-character [c] *)
Fixpoint contains (c : ascii) (s : string) : bool :=
  match s with
  | EmptyString => false
  | String d r => if Ascii.eqb d c then true else contains c r
  end.

(** [s.split(sep)] for a one-character separator: never the empty list. *)
Fixpoint split (sep : ascii) (s : string) : list string :=
  match s with
  | EmptyString => [EmptyString]
  | String c r =>
      if Ascii.eqb c sep then EmptyString :: split sep r
      else match split sep r with
           | h :: t => String c h :: t
           | [] => [String c EmptyString]
           end
  end.

(** [l[-1]] on a list of strings ([IndexError] cannot happen after
    [split], whose result is never empty). *)
Definition last_item (l : list string) : string := List.last l EmptyString.

(** [s.startswith(p)] *)
Definition startswith (p s : string) : bool := String.prefix p s.

(** [x in xs] for a collection of strings *)
Definition mem (x : string) (xs : list string) : bool :=
  existsb (String.eqb x) xs.

(** [sep.join(xs)] *)
Definition join (sep : string) (xs : list string) : string :=
  String.concat sep xs.

(** Truth value of an [Optional[str]]: [None] and [''] are false. *)
Definition truthy (o : option string) : bool :=
  match o with
  | None => false
  | Some s => negb (String.eqb s "")
  end.

End Py.

(** ** Uploaded files (Starlette's [UploadFile]) *)

Definition bytes := list Byte.byte.

(** [len(b)] *)
Definition len (b : bytes) : Z := Z.of_nat (List.length b).

Record UploadFile := mkUploadFile {
  filename : option string;
  content_type : option string;
  payload : bytes                (* what [await file.read()] returns *)
}.

(** ** [models.py] *)

(** [datetime]: a point in time, in microseconds since the epoch. *)
Definition datetime := Z.

Module Photo.
Record t := mk {
  id : string;
  telegram_file_id : option string;
  telegram_file_unique_id : option string;
  file_url : string;
  file_size : option Z;
  mime_type : option string;
  uploaded_at : datetime
}.
End Photo.

Module Category.
(** A document of the [categories] collection, as [create_category]
    stores it ([created_at] in ISO format). *)
Record t := mk {
  id : string;
  name : string;
  photos_before : list Photo.t;
  photos_after : list Photo.t;
  sentences : list string;
  created_at : string
}.
End Category.

Module UploadResponse.
Record t := mk {
  success : bool;
  photo : option Photo.t;
  message : string
}.
End UploadResponse.

(** ** Exceptions, the document store and the log of outside calls *)

Inductive exn :=
| HTTPException (status_code : Z) (detail : string)
| Exception (msg : string).        (* any other exception [e], with [str(e)] *)

(** Update documents of [update_one], by array field name. *)
Inductive update :=
| Push (field : string) (p : Photo.t)          (* {"$push": {field: p}} *)
| Pull (field : string) (photo_id : string).   (* {"$pull": {field: {"id": photo_id}}} *)

Inductive db_op :=
| FindOne (category_id : string)
| UpdateOne (category_id : string) (u : update).

(** What a handler does outside of its own code. *)
Inductive event :=
| EvFileRead                                   (* [await file.read()] *)
| EvSniff (content : bytes)                    (* [filetype.guess] *)
| EvImageOpen (content : bytes)                (* [Image.open] *)
| EvImageSave                                  (* [image.save(buffer, format="PNG")] *)
| EvStorageUpload (content : bytes) (fname mime : string)
                                               (* [telegram_service.upload_photo] *)
| EvHttpPost (url chat_id : string) (content : bytes) (fname mime : string)
| EvHttpGet (url : string)
| EvDb (op : db_op).

Record World := mkWorld {
  categories : list Category.t;     (* [db.categories] *)
  trace : list event                (* the outside calls so far, latest first *)
}.

Definition M (A : Type) : Type := World -> (exn + A) * World.

Definition ret {A} (a : A) : M A := fun w => (inr a, w).

Definition bind {A B} (m : M A) (k : A -> M B) : M B :=
  fun w => match m w with
           | (inl e, w') => (inl e, w')
           | (inr a, w') => k a w'
           end.

Definition raise {A} (e : exn) : M A := fun w => (inl e, w).

(** [try: m except ...: h e] where [h] sees every exception. *)
Definition try_except {A} (m : M A) (h : exn -> M A) : M A :=
  fun w => match m w with
           | (inl e, w') => h e w'
           | (inr a, w') => (inr a, w')
           end.

Definition emit (ev : event) : M unit :=
  fun w => (inr tt, mkWorld (categories w) (ev :: trace w)).

Notation "x <- m ;; k" := (bind m (fun x => k))
  (at level 20, m at level 99, k at level 200, only parsing).
Notation "m ;;; k" := (bind m (fun _ => k))
  (at level 100, k at level 200, right associativity, only parsing).

(** The two clauses that close every handler:
    [except HTTPException: raise] and
    [except Exception as e: raise HTTPException(500, wrap(str(e)))]. *)
Definition reraise_http {A} (wrap : string -> string) (e : exn) : M A :=
  match e with
  | HTTPException _ _ => raise e
  | Exception msg => raise (HTTPException 500 (wrap msg))
  end.

(** *** The [categories] collection *)

Definition field_is (name field : string) : bool := String.eqb name field.

(** Effect of an update document on one category document.  The handlers
    below only name the two photo arrays. *)
Definition apply_update (u : update) (c : Category.t) : Category.t :=
  match u with
  | Push field p =>
      if field_is "photos_before" field then
        Category.mk (Category.id c) (Category.name c)
          (Category.photos_before c ++ [p]) (Category.photos_after c)
          (Category.sentences c) (Category.created_at c)
      else if field_is "photos_after" field then
        Category.mk (Category.id c) (Category.name c)
          (Category.photos_before c) (Category.photos_after c ++ [p])
          (Category.sentences c) (Category.created_at c)
      else c
  | Pull field pid =>
      let keep := fun p : Photo.t => negb (String.eqb (Photo.id p) pid) in
      if field_is "photos_before" field then
        Category.mk (Category.id c) (Category.name c)
          (List.filter keep (Category.photos_before c)) (Category.photos_after c)
          (Category.sentences c) (Category.created_at c)
      else if field_is "photos_after" field then
        Category.mk (Category.id c) (Category.name c)
          (Category.photos_before c) (List.filter keep (Category.photos_after c))
          (Category.sentences c) (Category.created_at c)
      else c
  end.

(** [update_one({"id": cid}, u)] on the documents: the first document whose
    [id] is [cid] is updated; the count of matched documents is returned. *)
Fixpoint update_first (cid : string) (u : update) (docs : list Category.t)
  : list Category.t * Z :=
  match docs with
  | [] => ([], 0)
  | d :: rest =>
      if String.eqb (Category.id d) cid then (apply_update u d :: rest, 1)
      else let '(rest', n) := update_first cid u rest in (d :: rest', n)
  end.

(** [find_one({"id": cid})] on the documents. *)
Definition find_first (cid : string) (docs : list Category.t) : option Category.t :=
  List.find (fun d => String.eqb (Category.id d) cid) docs.

(** [await db.categories.update_one(...)], returning [result.matched_count]. *)
Definition update_one (cid : string) (u : update) : M Z :=
  fun w =>
    let '(docs, n) := update_first cid u (categories w) in
    (inr n, mkWorld docs (EvDb (UpdateOne cid u) :: trace w)).

(** [await db.categories.find_one(...)] *)
Definition find_one (cid : string) : M (option Category.t) :=
  fun w =>
    (inr (find_first cid (categories w)),
     mkWorld (categories w) (EvDb (FindOne cid) :: trace w)).

(** ** Libraries and the remote API

    Pillow, [filetype] and the HTTP exchanges with the remote API are not
    part of the repository: the handlers are stated over any behaviour of
    theirs.  [hashlib.md5] and [base64] are given by their algorithms
    further down. *)

(** The body of a reply to [sendPhoto], as far as [upload_photo] reads it. *)
Record SendPhotoJson := mkSendPhotoJson {
  sp_ok : bool;                       (* truth value of [result.get('ok')] *)
  sp_sizes : string + list string     (* the [file_id]s of [result['result']['photo']],
                                         or the text of the exception reading them raises *)
}.

(** The body of a reply to [getFile]. *)
Record GetFileJson := mkGetFileJson {
  gf_ok : bool;
  gf_file_path : string + string      (* [result['result']['file_path']], or the exception *)
}.

Record HttpResponse (J : Type) := mkHttpResponse {
  status : Z;
  json : string + J;                  (* [await resp.json()], or the exception it raises *)
  text : string + string              (* [await resp.text()], or the exception it raises *)
}.
Arguments mkHttpResponse {J}.
Arguments status {J}.
Arguments json {J}.
Arguments text {J}.

Inductive HttpOutcome (J : Type) :=
| HttpRaised (msg : string)           (* timeout, connection failure *)
| HttpReplied (r : HttpResponse J).
Arguments HttpRaised {J}.
Arguments HttpReplied {J}.

Record Externals := mkExternals {
  Image : Type;
  Image_open : bytes -> string + Image;          (* [inl]: the text of the exception *)
  Image_save_PNG : Image -> string + bytes;
  filetype_guess : option (bytes -> option string);
                                                 (* [None]: [import filetype] fails *)
  post_sendPhoto : string -> string -> bytes -> string -> string
                   -> HttpOutcome SendPhotoJson;
  get_getFile : string -> HttpOutcome GetFileJson
}.

(** [str(n)] for an integer *)
Definition str_of_Z (n : Z) : string := NilZero.string_of_int (Z.to_int n).

(** ** Python numbers

    [format_file_size] starts from an [int] and goes on with [float]s.  A
    float is a binary64 value; all that the function meets are an integer
    [num] over a power of two [den], so that they are kept exactly: the
    comparison of an [int] with a float is exact, the conversion of an [int]
    rounds to 53 bits, ties to even, and fails from [2 ^ 1024] on, and the
    division by [1024.0] of a float that is at least [1024.0] is exact. *)

Module PyNum.

Inductive number :=
| PyInt (n : Z)
| PyFloat (num den : Z).

(** [float(n)], as an integer: the nearest binary64 value, or
    [OverflowError]. *)
Definition float_of_int (n : Z) : exn + Z :=
  let a := Z.abs n in
  let shift := Z.log2 a + 1 - 53 in
  let rounded :=
    if shift <=? 0 then a
    else
      let q := Z.shiftr a shift in
      let r := Z.land a (Z.ones shift) in
      let half := Z.shiftl 1 (shift - 1) in
      Z.shiftl (if (half <? r) || ((r =? half) && Z.odd q) then q + 1 else q) shift in
  if Z.shiftl 1 1024 <=? rounded
  then inl (Exception "int too large to convert to float")
  else inr (Z.sgn n * rounded).

(** [f"{x:.1f}"] for the float [num / den]: the decimal with one digit after
    the point that is nearest to the value, ties to even. *)
Definition format_1f (num den : Z) : string :=
  let t := Z.abs num * 10 in
  let q := t / den in
  let r := t mod den in
  let tenths := if (den <? 2 * r) || ((2 * r =? den) && Z.odd q) then q + 1 else q in
  (if num <? 0 then "-" else "") +:+ str_of_Z (tenths / 10) +:+ "."
    +:+ str_of_Z (tenths mod 10).

(** [f"{x:.1f}"]; an [int] is converted first. *)
Definition format (x : number) : exn + string :=
  match x with
  | PyInt n => match float_of_int n with
               | inl e => inl e
               | inr f => inr (format_1f f 1)
               end
  | PyFloat num den => inr (format_1f num den)
  end.

(** [x < 1024.0] *)
Definition lt_1024 (x : number) : bool :=
  match x with
  | PyInt n => n <? 1024
  | PyFloat num den => num <? 1024 * den
  end.

(** [x / 1024.0] *)
Definition div_1024 (x : number) : exn + number :=
  match x with
  | PyInt n => match float_of_int n with
               | inl e => inl e
               | inr f => inr (PyFloat f 1024)
               end
  | PyFloat num den => inr (PyFloat num (den * 1024))
  end.

End PyNum.

(** ** [file_handler.py] *)

Module FileHandler.

Definition ALLOWED_EXTENSIONS : list string := [".png"].
Definition ALLOWED_MIME_TYPES : list string := ["image/png"].
Definition MAX_FILE_SIZE : Z := 10 * 1024 * 1024.

(** [name.lower().split('.')[-1] if '.' in name else ''] *)
Definition file_ext (name : string) : string :=
  if Py.contains "." name
  then Py.last_item (Py.split "." (Py.lower name))
  else "".

Definition invalid_extension_msg : string :=
  "Invalid file extension. Allowed: " +:+ Py.join ", " ALLOWED_EXTENSIONS.

Definition invalid_type_msg : string :=
  "Invalid file type. Allowed: " +:+ Py.join ", " ALLOWED_MIME_TYPES.

(** [validate_file]: the error message, or [None] when the file passes.
    The argument is [None] for a missing file object ([not file]). *)
Definition validate_file (file : option UploadFile) : option string :=
  match file with
  | None => Some "No file provided"
  | Some f =>
      if negb (Py.truthy (filename f)) then Some "No file provided"
      else
        let name := default "" (filename f) in
        if negb (Py.mem ("." +:+ file_ext name) ALLOWED_EXTENSIONS)
        then Some invalid_extension_msg
        else
          if (Py.truthy (content_type f)
              && negb (Py.mem (default "" (content_type f)) ALLOWED_MIME_TYPES))%bool
          then Some invalid_type_msg
          else None
  end.

Definition too_large_msg : string :=
  "File too large. Maximum size is "
    +:+ str_of_Z (MAX_FILE_SIZE / (1024 * 1024)) +:+ "MB".

(** The fallback of [validate_and_read_upload] for a content type that
    is not allowed: detect the type from the content. *)
Definition detect_mime (X : Externals) (file_content : bytes)
    (mime_type : option string) : M (option string) :=
  match filetype_guess X with
  | Some guess =>
      emit (EvSniff file_content) ;;;
      match guess file_content with
      | Some kind_mime =>
          if Py.mem kind_mime ALLOWED_MIME_TYPES then ret (Some kind_mime)
          else raise (HTTPException 400 invalid_type_msg)
      | None => raise (HTTPException 400 invalid_type_msg)
      end
  | None => ret mime_type          (* ImportError: a warning is logged *)
  end.

(** [validate_and_read_upload]: [(file_content, mime_type, filename)]. *)
Definition validate_and_read_upload (X : Externals) (upload_file : UploadFile)
  : M (bytes * option string * string) :=
  try_except
    (emit EvFileRead ;;;
     let file_content := payload upload_file in
     let fname := if Py.truthy (filename upload_file)
                  then default "" (filename upload_file) else "unknown" in
     let file_size := len file_content in
     if file_size >? MAX_FILE_SIZE then raise (HTTPException 400 too_large_msg)
     else if file_size =? 0 then raise (HTTPException 400 "File is empty")
     else if negb (Py.mem ("." +:+ file_ext fname) ALLOWED_EXTENSIONS)
     then raise (HTTPException 400 invalid_extension_msg)
     else
       let mime_type := content_type upload_file in
       mime_type' <-
         (if negb (match mime_type with
                   | Some m => Py.mem m ALLOWED_MIME_TYPES
                   | None => false
                   end)
          then detect_mime X file_content mime_type
          else ret mime_type) ;;
       ret (file_content, mime_type', fname))
    (reraise_http (fun _ => "Error processing file upload")).

(** The loop of [format_file_size] over the units left, and what follows
    it. *)
Fixpoint format_units (units : list string) (size_bytes : PyNum.number)
  : exn + string :=
  match units with
  | [] => match PyNum.format size_bytes with
          | inl e => inl e
          | inr s => inr (s +:+ " TB")
          end
  | unit :: rest =>
      if PyNum.lt_1024 size_bytes
      then match PyNum.format size_bytes with
           | inl e => inl e
           | inr s => inr (s +:+ " " +:+ unit)
           end
      else match PyNum.div_1024 size_bytes with
           | inl e => inl e
           | inr x => format_units rest x
           end
  end.

Definition format_file_size (size_bytes : Z) : exn + string :=
  format_units ["B"; "KB"; "MB"; "GB"] (PyNum.PyInt size_bytes).

End FileHandler.

(** ** [base64.b64encode] *)

Module Base64.

Definition alphabet : string :=
  "ABCDEFGHIJKLMNOPQRSTUVWXYZabcdefghijklmnopqrstuvwxyz0123456789+/".

Definition digit (n : N) : ascii :=
  match String.get (N.to_nat n) alphabet with
  | Some c => c
  | None => "="%char
  end.

Definition quad (a b c d : ascii) (rest : string) : string :=
  String a (String b (String c (String d rest))).

Fixpoint b64encode (b : bytes) : string :=
  match b with
  | [] => ""
  | [x] =>
      let n := Byte.to_N x in
      quad (digit (n / 4)) (digit ((n mod 4) * 16)) "=" "=" ""
  | [x; y] =>
      let n := Byte.to_N x in
      let m := Byte.to_N y in
      quad (digit (n / 4)) (digit ((n mod 4) * 16 + m / 16))
           (digit ((m mod 16) * 4)) "=" ""
  | x :: y :: z :: rest =>
      let n := Byte.to_N x in
      let m := Byte.to_N y in
      let k := Byte.to_N z in
      quad (digit (n / 4)) (digit ((n mod 4) * 16 + m / 16))
           (digit ((m mod 16) * 4 + k / 64)) (digit (k mod 64))
           (b64encode rest)
  end%N.

(** The position of a character in a string, counted from [i]. *)
Fixpoint index_from (c : ascii) (s : string) (i : N) : option N :=
  match s with
  | EmptyString => None
  | String d r => if Ascii.eqb d c then Some i else index_from c r (N.succ i)
  end.

Definition value (c : ascii) : option N := index_from c alphabet 0.

Definition byte_of (n : N) : Byte.byte := default Byte.x00 (Byte.of_N n).

(** [base64.b64decode], on padded input. *)
Fixpoint b64decode (s : string) : option bytes :=
  match s with
  | EmptyString => Some []
  | String a (String b (String c (String d rest))) =>
      match value a, value b with
      | Some va, Some vb =>
          let x := byte_of (va * 4 + vb / 16) in
          match value c, value d with
          | Some vc, Some vd =>
              match b64decode rest with
              | Some t =>
                  Some (x :: byte_of ((vb mod 16) * 16 + vc / 4)
                          :: byte_of ((vc mod 4) * 64 + vd) :: t)
              | None => None
              end
          | Some vc, None =>
              if (Ascii.eqb d "=" && String.eqb rest "")%bool
              then Some [x; byte_of ((vb mod 16) * 16 + vc / 4)]
              else None
          | None, _ =>
              if (Ascii.eqb c "=" && Ascii.eqb d "=" && String.eqb rest "")%bool
              then Some [x]
              else None
          end
      | _, _ => None
      end
  | _ => None
  end%N.

End Base64.

(** ** [hashlib.md5] (RFC 1321) *)

Module MD5.

Definition s_table : list Z :=
  [7; 12; 17; 22; 7; 12; 17; 22; 7; 12; 17; 22; 7; 12; 17; 22;
   5; 9; 14; 20; 5; 9; 14; 20; 5; 9; 14; 20; 5; 9; 14; 20;
   4; 11; 16; 23; 4; 11; 16; 23; 4; 11; 16; 23; 4; 11; 16; 23;
   6; 10; 15; 21; 6; 10; 15; 21; 6; 10; 15; 21; 6; 10; 15; 21].

Definition K_table : list Z :=
  [0xd76aa478; 0xe8c7b756; 0x242070db; 0xc1bdceee;
   0xf57c0faf; 0x4787c62a; 0xa8304613; 0xfd469501;
   0x698098d8; 0x8b44f7af; 0xffff5bb1; 0x895cd7be;
   0x6b901122; 0xfd987193; 0xa679438e; 0x49b40821;
   0xf61e2562; 0xc040b340; 0x265e5a51; 0xe9b6c7aa;
   0xd62f105d; 0x02441453; 0xd8a1e681; 0xe7d3fbc8;
   0x21e1cde6; 0xc33707d6; 0xf4d50d87; 0x455a14ed;
   0xa9e3e905; 0xfcefa3f8; 0x676f02d9; 0x8d2a4c8a;
   0xfffa3942; 0x8771f681; 0x6d9d6122; 0xfde5380c;
   0xa4beea44; 0x4bdecfa9; 0xf6bb4b60; 0xbebfbc70;
   0x289b7ec6; 0xeaa127fa; 0xd4ef3085; 0x04881d05;
   0xd9d4d039; 0xe6db99e5; 0x1fa27cf8; 0xc4ac5665;
   0xf4292244; 0x432aff97; 0xab9423a7; 0xfc93a039;
   0x655b59c3; 0x8f0ccc92; 0xffeff47d; 0x85845dd1;
   0x6fa87e4f; 0xfe2ce6e0; 0xa3014314; 0x4e0811a1;
   0xf7537e82; 0xbd3af235; 0x2ad7d2bb; 0xeb86d391].

(** 32-bit words are integers in [0, 2^32). *)
Definition wrap32 (x : Z) : Z := x mod 2 ^ 32.
Definition add32 (x y : Z) : Z := wrap32 (x + y).
Definition not32 (x : Z) : Z := Z.lxor x 0xffffffff.
Definition rotl32 (x c : Z) : Z :=
  wrap32 (Z.lor (Z.shiftl x c) (Z.shiftr x (32 - c))).

Definition byte_Z (b : Byte.byte) : Z := Z.of_N (Byte.to_N b).
Definition Z_byte (z : Z) : Byte.byte :=
  default Byte.x00 (Byte.of_N (Z.to_N (z mod 256))).

(** [n] bytes of [z], least significant first. *)
Fixpoint le_bytes (n : nat) (z : Z) : bytes :=
  match n with
  | O => []
  | S n' => Z_byte z :: le_bytes n' (z / 256)
  end.

Fixpoint le_word (bs : bytes) : Z :=
  match bs with
  | [] => 0
  | b :: r => byte_Z b + 256 * le_word r
  end.

(** The message, one [0x80], zeros up to 56 modulo 64, and the bit length
    on 8 bytes. *)
Definition pad (msg : bytes) : bytes :=
  let n := len msg in
  let zeros := (55 - n) mod 64 in
  msg ++ [Byte.x80] ++ List.repeat Byte.x00 (Z.to_nat zeros)
      ++ le_bytes 8 ((8 * n) mod 2 ^ 64).

(** Split into pieces of [k] items; [fuel] bounds the number of pieces. *)
Fixpoint chunks {A} (fuel k : nat) (l : list A) : list (list A) :=
  match fuel, l with
  | O, _ => []
  | _, [] => []
  | S fuel', _ => List.firstn k l :: chunks fuel' k (List.skipn k l)
  end.

Definition words_of_block (block : bytes) : list Z :=
  List.map le_word (chunks 16 4 block).

Definition state := (Z * Z * Z * Z)%type.

Definition step (M : list Z) (st : state) (i : Z) : state :=
  let '(a, b, c, d) := st in
  let '(f, g) :=
    if i <? 16 then (Z.lor (Z.land b c) (Z.land (not32 b) d), i)
    else if i <? 32 then (Z.lor (Z.land d b) (Z.land (not32 d) c), (5 * i + 1) mod 16)
    else if i <? 48 then (Z.lxor (Z.lxor b c) d, (3 * i + 5) mod 16)
    else (Z.lxor c (Z.lor b (not32 d)), (7 * i) mod 16) in
  let f' := add32 (add32 (add32 f a) (List.nth (Z.to_nat i) K_table 0))
                  (List.nth (Z.to_nat g) M 0) in
  (d, add32 b (rotl32 f' (List.nth (Z.to_nat i) s_table 0)), b, c).

Definition process_block (st : state) (block : bytes) : state :=
  let M := words_of_block block in
  let '(a0, b0, c0, d0) := st in
  let '(a, b, c, d) :=
    List.fold_left (step M) (List.map Z.of_nat (List.seq 0 64)) st in
  (add32 a0 a, add32 b0 b, add32 c0 c, add32 d0 d).

Definition initial : state := (0x67452301, 0xefcdab89, 0x98badcfe, 0x10325476).

Definition digest (msg : bytes) : bytes :=
  let padded := pad msg in
  let '(a, b, c, d) :=
    List.fold_left process_block (chunks (List.length padded) 64 padded) initial in
  le_bytes 4 a ++ le_bytes 4 b ++ le_bytes 4 c ++ le_bytes 4 d.

Definition hex_digit (n : Z) : ascii :=
  default "0"%char (String.get (Z.to_nat n) "0123456789abcdef").

Fixpoint hex (bs : bytes) : string :=
  match bs with
  | [] => ""
  | b :: r => String (hex_digit (byte_Z b / 16)) (String (hex_digit (byte_Z b mod 16)) (hex r))
  end.

(** [hashlib.md5(msg).hexdigest()] *)
Definition hexdigest (msg : bytes) : string := hex (digest msg).

End MD5.

(** ** [telegram_service.py] *)

Module TelegramService.

Record t := mk {
  bot_token : string;
  api_id : string;
  api_hash : string;
  file_channel_id : string;
  base_url : string;
  mock_mode : bool
}.

(** [os.environ.get(key, fallback)] *)
Definition environ_get (environ : gmap string string) (key fallback : string) : string :=
  default fallback (environ !! key).

(** [__init__], run once when the module is imported. *)
Definition init (environ : gmap string string) : t :=
  let token := environ_get environ "TELEGRAM_BOT_TOKEN" "mock_bot_token_12345" in
  mk token
     (environ_get environ "TELEGRAM_API_ID" "mock_api_id")
     (environ_get environ "TELEGRAM_API_HASH" "mock_api_hash")
     (environ_get environ "TELEGRAM_FILE_CHANNEL_ID" "-100mock_channel_id")
     ("https://api.telegram.org/bot" +:+ token)
     (Py.startswith "mock_" token).

(** [_get_file_url]: every exception is caught and gives [None]. *)
Definition _get_file_url (X : Externals) (self : t) (file_id : string)
  : M (option string) :=
  let url := base_url self +:+ "/getFile?file_id=" +:+ file_id in
  emit (EvHttpGet url) ;;;
  match get_getFile X url with
  | HttpRaised _ => ret None
  | HttpReplied resp =>
      if status resp =? 200 then
        match json resp with
        | inl _ => ret None
        | inr result =>
            if gf_ok result then
              match gf_file_path result with
              | inl _ => ret None
              | inr file_path =>
                  ret (Some ("https://api.telegram.org/file/bot"
                               +:+ bot_token self +:+ "/" +:+ file_path))
              end
            else ret None
        end
      else ret None
  end.

(** The tail of the production branch: the reply was not a success. *)
Definition api_error {A} (resp : HttpResponse SendPhotoJson) : M A :=
  match text resp with
  | inl e => raise (Exception e)
  | inr error_text => raise (Exception ("Telegram API error: " +:+ error_text))
  end.

(** [upload_photo]: [(file_url, telegram_file_id, file_size, mime_type)].
    The clause [except Exception as e: ...; raise] logs and re-raises. *)
Definition upload_photo (X : Externals) (self : t)
    (file_content : bytes) (fname mime : string)
  : M (string * option string * Z * string) :=
  emit (EvStorageUpload file_content fname mime) ;;;
  let file_size := len file_content in
  try_except
    (if mock_mode self then
       let file_hash := MD5.hexdigest file_content in
       let mock_file_id := "AgACAgIAAxkBAAI_" +:+ file_hash +:+ "_mock" in
       let base64_image := Base64.b64encode file_content in
       let file_url := "data:" +:+ mime +:+ ";base64," +:+ base64_image in
       ret (file_url, Some mock_file_id, file_size, mime)
     else
       let url := base_url self +:+ "/sendPhoto" in
       emit (EvHttpPost url (file_channel_id self) file_content fname mime) ;;;
       match post_sendPhoto X url (file_channel_id self) file_content fname mime with
       | HttpRaised e => raise (Exception e)
       | HttpReplied resp =>
           if status resp =? 200 then
             match json resp with
             | inl e => raise (Exception e)
             | inr result =>
                 if sp_ok result then
                   match sp_sizes result with
                   | inl e => raise (Exception e)
                   | inr [] => raise (Exception "list index out of range")
                   | inr (s0 :: sizes) =>
                       let file_id := List.last sizes s0 in
                       file_url <- _get_file_url X self file_id ;;
                       if negb (Py.truthy file_url)
                       then raise (Exception "Failed to get file URL")
                       else ret (default "" file_url, Some file_id, file_size, mime)
                   end
                 else api_error resp
             end
           else api_error resp
       end)
    (fun e => raise e).

(** [delete_photo] *)
Definition delete_photo (self : t) (file_id : string) : bool := true.

(** [validate_file]: [(is_valid, error_message)].  [max_size_mb] is 10 when
    the caller gives none. *)
Definition allowed_types : list string :=
  ["image/jpeg"; "image/jpg"; "image/png"; "image/gif"; "image/webp"].

Definition validate_file (self : t) (file_content : bytes) (mime_type : string)
    (max_size_mb : Z) : bool * string :=
  let file_size := len file_content in
  let max_size_bytes := max_size_mb * 1024 * 1024 in
  if file_size >? max_size_bytes
  then (false, "File too large. Maximum size is " +:+ str_of_Z max_size_mb +:+ "MB")
  else if file_size =? 0 then (false, "File is empty")
  else if negb (Py.mem mime_type allowed_types)
  then (false, "Invalid file type. Allowed: " +:+ Py.join ", " allowed_types)
  else (true, "").

End TelegramService.

(** ** [routes_admin.py]: the upload and delete handlers *)

Module RoutesAdmin.

(** The block "Ensure valid PNG via Pillow": decode, save as PNG; any
    exception [e] of either step becomes a 400 naming [str(e)]. *)
Definition ensure_valid_png (X : Externals) (file_content : bytes) : M bytes :=
  emit (EvImageOpen file_content) ;;;
  match Image_open X file_content with
  | inl e => raise (HTTPException 400 ("Invalid image file: " +:+ e))
  | inr image =>
      emit EvImageSave ;;;
      match Image_save_PNG X image with
      | inl e => raise (HTTPException 400 ("Invalid image file: " +:+ e))
      | inr png => ret png
      end
  end.

(** The two upload handlers have the same body and differ in the array
    that [$push] names.  [new_id] and [now] are the values that the default
    factories of [Photo] draw ([uuid4], [datetime.now]). *)
Definition upload_photo_to (field : string) (X : Externals)
    (telegram_service : TelegramService.t)
    (category_id : string) (file : UploadFile)
    (new_id : string) (now : datetime) : M UploadResponse.t :=
  try_except
    (match FileHandler.validate_file (Some file) with
     | Some validation_error => raise (HTTPException 400 validation_error)
     | None =>
         emit EvFileRead ;;;
         file_content <- ensure_valid_png X (payload file) ;;
         r <- TelegramService.upload_photo X telegram_service
                file_content (default "" (filename file)) "image/png" ;;
         let '(file_url, telegram_file_id, file_size, mime_type) := r in
         let photo :=
           Photo.mk new_id telegram_file_id None file_url
                    (Some file_size) (Some mime_type) now in
         matched_count <- update_one category_id (Push field photo) ;;
         if matched_count =? 0
         then raise (HTTPException 404 "Category not found")
         else ret (UploadResponse.mk true (Some photo) "Photo uploaded successfully")
     end)
    (reraise_http (fun e => "Upload failed: " +:+ e)).

Definition upload_photo_before := upload_photo_to "photos_before".
Definition upload_photo_after := upload_photo_to "photos_after".

(** [delete_photo]: the message of the reply. *)
Definition delete_photo (category_id photo_id photo_type : string) : M string :=
  try_except
    (if negb (Py.mem photo_type ["before"; "after"])
     then raise (HTTPException 400 "photo_type must be 'before' or 'after'")
     else
       let field := "photos_" +:+ photo_type in
       matched_count <- update_one category_id (Pull field photo_id) ;;
       if matched_count =? 0
       then raise (HTTPException 404 "Category not found")
       else ret "Photo deleted successfully")
    (reraise_http (fun e => "Failed to delete photo: " +:+ e)).

End RoutesAdmin.

(** ** Observing a run *)

(** From [w], [m] ends with [r], leaves the documents [docs] and has made
    the outside calls [evs] (latest first). *)
Definition runs_to {A} (m : M A) (w : World) (r : exn + A)
    (docs : list Category.t) (evs : list event) : Prop :=
  m w = (r, mkWorld docs (evs ++ trace w)).

(** What [m] returns or raises when run on an empty store. *)
Definition outcome {A} (m : M A) : exn + A := fst (m (mkWorld [] [])).

Definition db_ops (evs : list event) : list db_op :=
  flat_map (fun ev => match ev with EvDb op => [op] | _ => [] end) evs.

Definition storage_calls (evs : list event) : list (bytes * string * string) :=
  flat_map (fun ev => match ev with
                      | EvStorageUpload c f m => [(c, f, m)]
                      | _ => []
                      end) evs.

Definition decode_calls (evs : list event) : list bytes :=
  flat_map (fun ev => match ev with EvImageOpen c => [c] | _ => [] end) evs.

Definition http_calls (evs : list event) : list event :=
  List.filter (fun ev => match ev with
                         | EvHttpPost _ _ _ _ _ | EvHttpGet _ => true
                         | _ => false
                         end) evs.

(** What [api_error] raises. *)
Definition api_error_text (resp : HttpResponse SendPhotoJson) : string :=
  match text resp with
  | inl e => e
  | inr error_text => "Telegram API error: " +:+ error_text
  end.

(** The external id of a storage result; [None] when the upload raised. *)
Definition external_id (r : exn + string * option string * Z * string)
  : option string :=
  match r with
  | inr (_, telegram_file_id, _, _) => telegram_file_id
  | inl _ => None
  end.

(** The photo in the reply of an upload handler; [None] when it raised. *)
Definition uploaded_photo (r : exn + UploadResponse.t) : option Photo.t :=
  match r with
  | inr resp => UploadResponse.photo resp
  | inl _ => None
  end.

(** The [Photo] that an upload handler builds from the storage result. *)
Definition photo_of (r : string * option string * Z * string)
    (new_id : string) (now : datetime) : Photo.t :=
  let '(file_url, telegram_file_id, file_size, mime_type) := r in
  Photo.mk new_id telegram_file_id None file_url (Some file_size) (Some mime_type) now.

(** The photo array that a field name denotes in a category document. *)
Definition photos_in (field : string) (c : Category.t) : list Photo.t :=
  if field_is "photos_before" field then Category.photos_before c
  else if field_is "photos_after" field then Category.photos_after c
  else [].

(** The photos that [$pull] with the id [pid] keeps. *)
Definition keeps (pid : string) (p : Photo.t) : bool :=
  negb (String.eqb (Photo.id p) pid).

(** ** A small world to run the handlers in *)

Module Demo.

Definition png_signature : bytes :=
  [Byte.x89; Byte.x50; Byte.x4e; Byte.x47; Byte.x0d; Byte.x0a; Byte.x1a; Byte.x0a].

(** A stand-in for Pillow: a stream that starts with the PNG signature or
    with the JPEG marker [ff d8 ff] decodes to what follows; no other
    stream decodes. *)
Definition toy_open (b : bytes) : string + bytes :=
  match b with
  | Byte.xff :: Byte.xd8 :: Byte.xff :: pixels => inr pixels
  | Byte.x89 :: Byte.x50 :: Byte.x4e :: Byte.x47
      :: Byte.x0d :: Byte.x0a :: Byte.x1a :: Byte.x0a :: pixels => inr pixels
  | _ => inl "cannot identify image file"
  end.

Definition toy_save (pixels : bytes) : string + bytes :=
  inr (png_signature ++ pixels).

(** The remote API answers one upload with two sizes and resolves the
    larger one. *)
Definition toy_post (url chat_id : string) (content : bytes) (fname mime : string)
  : HttpOutcome SendPhotoJson :=
  HttpReplied (mkHttpResponse 200
    (inr (mkSendPhotoJson true (inr ["small-id"; "large-id"]))) (inr "")).

Definition toy_get (url : string) : HttpOutcome GetFileJson :=
  HttpReplied (mkHttpResponse 200
    (inr (mkGetFileJson true (inr "photos/file_7.png"))) (inr "")).

Definition online : Externals :=
  mkExternals bytes toy_open toy_save None toy_post toy_get.

(** No network: every HTTP call times out. *)
Definition offline : Externals :=
  mkExternals bytes toy_open toy_save None
    (fun _ _ _ _ _ => HttpRaised "timeout") (fun _ => HttpRaised "timeout").

(** The upload is accepted, the follow-up [getFile] is refused. *)
Definition unresolved : Externals :=
  mkExternals bytes toy_open toy_save None toy_post
    (fun _ => HttpReplied (mkHttpResponse 404 (inl "not json") (inr "Not Found"))).

Definition mock_service : TelegramService.t := TelegramService.init ∅.

Definition real_service : TelegramService.t :=
  TelegramService.init {[ "TELEGRAM_BOT_TOKEN" := "4242:secret" ;
                          "TELEGRAM_FILE_CHANNEL_ID" := "-1007" ]}.

Definition of_string (s : string) : bytes := String.list_byte_of_string s.

Definition jpeg_stream : bytes := [Byte.xff; Byte.xd8; Byte.xff; Byte.x01; Byte.x02].
Definition png_stream : bytes := png_signature ++ [Byte.x07].
Definition five_bytes : bytes := of_string "hello".

(** One byte more than [MAX_FILE_SIZE]. *)
Definition oversize_payload : bytes :=
  List.repeat Byte.x00 (Z.to_nat (FileHandler.MAX_FILE_SIZE + 1)).

Definition upload (name : string) (content : bytes) : UploadFile :=
  mkUploadFile (Some name) (Some "image/png") content.

Definition photo7 : Photo.t :=
  Photo.mk "p7" None None "https://example.com/7.png" (Some 7) (Some "image/png") 7.

Definition wedding : Category.t :=
  Category.mk "c1" "Wedding" [photo7] [] ["Will you?"] "2024-01-01T00:00:00+00:00".

Definition trip : Category.t :=
  Category.mk "c2" "Trip" [] [photo7] [] "2024-02-01T00:00:00+00:00".

Definition world : World := mkWorld [wedding; trip] [].

End Demo.

(** ** The settings and category handlers

    The remaining handlers of [routes_admin.py] and those of
    [routes_public.py] only read and write the two collections: they are
    functions of the database, that return a reply or raise. *)

Module GlobalSettings.
Record t := mk {
  id : string;
  before_accept_music : option string;
  after_accept_music : option string
}.
(** [GlobalSettings()] *)
Definition defaults : t := mk "global_settings" None None.
End GlobalSettings.

Module GlobalSettingsUpdate.
Record t := mk {
  before_accept_music : option string;
  after_accept_music : option string
}.
End GlobalSettingsUpdate.

Module CategoryCreate.
Record t := mk {
  name : string;
  sentences : list string
}.
End CategoryCreate.

Module CategoryUpdate.
Record t := mk {
  name : option string;
  sentences : option (list string)
}.
End CategoryUpdate.

Record Database := mkDatabase {
  db_categories : list Category.t;            (* [db.categories] *)
  db_global_settings : list GlobalSettings.t  (* [db.global_settings] *)
}.

Definition Db (A : Type) : Type := Database -> (exn + A) * Database.

Definition db_ret {A} (a : A) : Db A := fun db => (inr a, db).

Definition db_bind {A B} (m : Db A) (k : A -> Db B) : Db B :=
  fun db => match m db with
            | (inl e, db') => (inl e, db')
            | (inr a, db') => k a db'
            end.

Definition db_raise {A} (e : exn) : Db A := fun db => (inl e, db).

Definition db_try {A} (m : Db A) (h : exn -> Db A) : Db A :=
  fun db => match m db with
            | (inl e, db') => h e db'
            | (inr a, db') => (inr a, db')
            end.

Notation "x <~ m ;; k" := (db_bind m (fun x => k))
  (at level 20, m at level 99, k at level 200, only parsing).

(** [except HTTPException: raise] and
    [except Exception as e: raise HTTPException(500, wrap(str(e)))]. *)
Definition db_reraise_http {A} (wrap : string -> string) (e : exn) : Db A :=
  match e with
  | HTTPException _ _ => db_raise e
  | Exception msg => db_raise (HTTPException 500 (wrap msg))
  end.

(** [str(e)] for an [HTTPException]: "<status>: <detail>". *)
Definition str_http (code : Z) (detail : string) : string :=
  str_of_Z code +:+ ": " +:+ detail.

(** [except Exception as e: raise HTTPException(500, wrap(str(e)))] alone:
    an [HTTPException] is an [Exception] too, and is wrapped with its
    text. *)
Definition db_wrap_all {A} (wrap : string -> string) (e : exn) : Db A :=
  match e with
  | HTTPException code detail => db_raise (HTTPException 500 (wrap (str_http code detail)))
  | Exception msg => db_raise (HTTPException 500 (wrap msg))
  end.

(** An upload or delete-photo handler as a function of the database. *)
Definition on_categories {A} (m : M A) : Db A :=
  fun db =>
    let '(r, w) := m (mkWorld (db_categories db) []) in
    (r, mkDatabase (categories w) (db_global_settings db)).

(** *** Operations of the two collections *)

(** [insert_one(doc)] *)
Definition insert_one (doc : Category.t) : Db unit :=
  fun db => (inr tt, mkDatabase (db_categories db ++ [doc]) (db_global_settings db)).

(** [find({}, ...).to_list(n)]: the first [n] documents. *)
Definition find_to_list (n : nat) : Db (list Category.t) :=
  fun db => (inr (List.firstn n (db_categories db)), db).

(** [find_one({"id": cid}, ...)] on the categories *)
Definition find_category (cid : string) : Db (option Category.t) :=
  fun db => (inr (find_first cid (db_categories db)), db).

(** A [$set] of the fields that an update carries. *)
Definition apply_set (u : CategoryUpdate.t) (c : Category.t) : Category.t :=
  Category.mk (Category.id c)
    (default (Category.name c) (CategoryUpdate.name u))
    (Category.photos_before c) (Category.photos_after c)
    (default (Category.sentences c) (CategoryUpdate.sentences u))
    (Category.created_at c).

Fixpoint set_first (cid : string) (u : CategoryUpdate.t) (docs : list Category.t)
  : list Category.t * Z :=
  match docs with
  | [] => ([], 0)
  | d :: rest =>
      if String.eqb (Category.id d) cid then (apply_set u d :: rest, 1)
      else let '(rest', n) := set_first cid u rest in (d :: rest', n)
  end.

(** [update_one({"id": cid}, {"$set": u})], returning [matched_count]. *)
Definition set_category (cid : string) (u : CategoryUpdate.t) : Db Z :=
  fun db =>
    let '(docs, n) := set_first cid u (db_categories db) in
    (inr n, mkDatabase docs (db_global_settings db)).

Fixpoint delete_first (cid : string) (docs : list Category.t) : list Category.t * Z :=
  match docs with
  | [] => ([], 0)
  | d :: rest =>
      if String.eqb (Category.id d) cid then (rest, 1)
      else let '(rest', n) := delete_first cid rest in (d :: rest', n)
  end.

(** [delete_one({"id": cid})], returning [deleted_count]. *)
Definition delete_category_doc (cid : string) : Db Z :=
  fun db =>
    let '(docs, n) := delete_first cid (db_categories db) in
    (inr n, mkDatabase docs (db_global_settings db)).

(** [find_one({"id": "global_settings"}, ...)] *)
Definition find_settings : Db (option GlobalSettings.t) :=
  fun db =>
    (inr (List.find (fun s => String.eqb (GlobalSettings.id s) "global_settings")
            (db_global_settings db)), db).

Definition apply_settings (u : GlobalSettingsUpdate.t) (s : GlobalSettings.t)
  : GlobalSettings.t :=
  GlobalSettings.mk (GlobalSettings.id s)
    (match GlobalSettingsUpdate.before_accept_music u with
     | Some v => Some v
     | None => GlobalSettings.before_accept_music s
     end)
    (match GlobalSettingsUpdate.after_accept_music u with
     | Some v => Some v
     | None => GlobalSettings.after_accept_music s
     end).

(** [update_one({"id": "global_settings"}, {"$set": u}, upsert=True)] on the
    documents: the first settings document is updated; when there is none,
    one is inserted with the id of the filter and the fields of [u]. *)
Fixpoint upsert_settings (u : GlobalSettingsUpdate.t) (docs : list GlobalSettings.t)
  : list GlobalSettings.t :=
  match docs with
  | [] => [apply_settings u (GlobalSettings.mk "global_settings" None None)]
  | s :: rest =>
      if String.eqb (GlobalSettings.id s) "global_settings"
      then apply_settings u s :: rest
      else s :: upsert_settings u rest
  end.

Definition upsert_settings_doc (u : GlobalSettingsUpdate.t) : Db unit :=
  fun db => (inr tt, mkDatabase (db_categories db)
                       (upsert_settings u (db_global_settings db))).

(** ** [routes_admin.py]: settings and categories *)

Module Admin.

(** [{k: v for k, v in ....model_dump().items() if v is not None}] is empty *)
Definition no_settings_fields (u : GlobalSettingsUpdate.t) : bool :=
  match GlobalSettingsUpdate.before_accept_music u,
        GlobalSettingsUpdate.after_accept_music u with
  | None, None => true
  | _, _ => false
  end.

Definition no_category_fields (u : CategoryUpdate.t) : bool :=
  match CategoryUpdate.name u, CategoryUpdate.sentences u with
  | None, None => true
  | _, _ => false
  end.

Definition get_global_settings : Db GlobalSettings.t :=
  db_try
    (settings <~ find_settings ;;
     match settings with
     | None => db_ret GlobalSettings.defaults
     | Some s => db_ret s
     end)
    (db_wrap_all (fun e => "Failed to fetch settings: " +:+ e)).

Definition update_global_settings (settings : GlobalSettingsUpdate.t)
  : Db GlobalSettings.t :=
  db_try
    (if no_settings_fields settings
     then db_raise (HTTPException 400 "No fields to update")
     else
       _ <~ upsert_settings_doc settings ;;
       updated_doc <~ find_settings ;;
       match updated_doc with
       | None =>
           db_ret (GlobalSettings.mk "global_settings"
                     (GlobalSettingsUpdate.before_accept_music settings)
                     (GlobalSettingsUpdate.after_accept_music settings))
       | Some s => db_ret s
       end)
    (db_reraise_http (fun e => "Failed to update settings: " +:+ e)).

(** [new_id] and [created_at] are what the default factories of [Category]
    draw; the creation time is kept in ISO format, as the document has it. *)
Definition create_category (category : CategoryCreate.t)
    (new_id created_at : string) : Db Category.t :=
  db_try
    (let category_obj :=
       Category.mk new_id (CategoryCreate.name category) [] []
                   (CategoryCreate.sentences category) created_at in
     _ <~ insert_one category_obj ;;
     db_ret category_obj)
    (db_wrap_all (fun e => "Failed to create category: " +:+ e)).

Definition get_categories : Db (list Category.t) :=
  db_try (find_to_list 1000)
    (db_wrap_all (fun e => "Failed to fetch categories: " +:+ e)).

Definition get_category (category_id : string) : Db Category.t :=
  db_try
    (category <~ find_category category_id ;;
     match category with
     | None => db_raise (HTTPException 404 "Category not found")
     | Some c => db_ret c
     end)
    (db_reraise_http (fun e => "Failed to fetch category: " +:+ e)).

(** The reply is what [find_one] returns after the update. *)
Definition update_category (category_id : string) (category : CategoryUpdate.t)
  : Db (option Category.t) :=
  db_try
    (if no_category_fields category
     then db_raise (HTTPException 400 "No fields to update")
     else
       matched_count <~ set_category category_id category ;;
       if matched_count =? 0
       then db_raise (HTTPException 404 "Category not found")
       else find_category category_id)
    (db_reraise_http (fun e => "Failed to update category: " +:+ e)).

(** [delete_category]: the message of the reply. *)
Definition delete_category (category_id : string) : Db string :=
  db_try
    (deleted_count <~ delete_category_doc category_id ;;
     if deleted_count =? 0
     then db_raise (HTTPException 404 "Category not found")
     else db_ret "Category deleted successfully")
    (db_reraise_http (fun e => "Failed to delete category: " +:+ e)).

End Admin.

(** ** [routes_public.py] *)

Module Public.

Record Proposal := mkProposal {
  proposal_categories : list Category.t;
  music_before : option string;
  music_after : option string
}.

Definition get_random_proposal : Db Proposal :=
  db_try
    (cats <~ find_to_list 1000 ;;
     match cats with
     | [] => db_raise (HTTPException 404 "No categories found")
     | _ :: _ =>
         settings <~ find_settings ;;
         match settings with
         | None => db_ret (mkProposal cats None None)
         | Some s =>
             db_ret (mkProposal cats
                       (GlobalSettings.before_accept_music s)
                       (GlobalSettings.after_accept_music s))
         end
     end)
    (db_reraise_http (fun e => "Failed to fetch proposal: " +:+ e)).

Definition get_public_settings : Db GlobalSettings.t :=
  db_try
    (settings <~ find_settings ;;
     match settings with
     | None => db_ret GlobalSettings.defaults
     | Some s => db_ret s
     end)
    (db_wrap_all (fun e => "Failed to fetch settings: " +:+ e)).

End Public.

(** ** Observing the settings *)

(** The filter [{"id": "global_settings"}]. *)
Definition is_settings (s : GlobalSettings.t) : bool :=
  String.eqb (GlobalSettings.id s) "global_settings".

(** The settings in force: the first settings document, the defaults of the
    model when there is none. *)
Definition stored_settings (settings : list GlobalSettings.t) : GlobalSettings.t :=
  default GlobalSettings.defaults (List.find is_settings settings).

(** ** More of the small world *)

Module Scenario.

(** A stand-in for [filetype.guess], on the first bytes. *)
Definition toy_guess (b : bytes) : option string :=
  match b with
  | Byte.xff :: Byte.xd8 :: Byte.xff :: _ => Some "image/jpeg"
  | Byte.x89 :: Byte.x50 :: Byte.x4e :: Byte.x47 :: _ => Some "image/png"
  | _ => None
  end.

Definition sniffing : Externals :=
  mkExternals bytes Demo.toy_open Demo.toy_save (Some toy_guess)
    (fun _ _ _ _ _ => HttpRaised "timeout") (fun _ => HttpRaised "timeout").

Definition database : Database :=
  mkDatabase [Demo.wedding; Demo.trip]
    [GlobalSettings.mk "global_settings" (Some "https://youtu.be/before") None].

Definition empty_database : Database := mkDatabase [] [].

(** A collection of 1001 categories, with the ids "0" to "1000". *)
Definition numbered (i : nat) : Category.t :=
  Category.mk (str_of_Z (Z.of_nat i)) "Album" [] [] [] "2024-03-01T00:00:00+00:00".

Definition crowd : Database := mkDatabase (List.map numbered (List.seq 0 1001)) [].

End Scenario.

(** * Properties *)

(** ** The model on concrete inputs *)

Example lower_mixed : Py.lower "Ab.Z[@`{9" = "ab.z[@`{9".
Proof. reflexivity. Qed.

Example split_dots : Py.split "." "a.b..c" = ["a"; "b"; ""; "c"].
Proof. reflexivity. Qed.

Example file_ext_upper : FileHandler.file_ext "Holiday.Photo.PNG" = "png".
Proof. reflexivity. Qed.

Example file_ext_no_dot : FileHandler.file_ext "png" = "".
Proof. reflexivity. Qed.

Example validate_file_jpg :
  FileHandler.validate_file (Some (Demo.upload "x.jpg" Demo.png_stream))
  = Some "Invalid file extension. Allowed: .png".
Proof. reflexivity. Qed.

Example validate_file_gif_type :
  FileHandler.validate_file
    (Some (mkUploadFile (Some "x.png") (Some "image/gif") Demo.png_stream))
  = Some "Invalid file type. Allowed: image/png".
Proof. reflexivity. Qed.

Example too_large_text :
  FileHandler.too_large_msg = "File too large. Maximum size is 10MB".
Proof. reflexivity. Qed.

Example b64encode_padding :
  List.map (fun s => Base64.b64encode (Demo.of_string s)) ["M"; "Ma"; "Man"; "Many"]
  = ["TQ=="; "TWE="; "TWFu"; "TWFueQ=="].
Proof. reflexivity. Qed.

Example md5_rfc1321 :
  List.map (fun s => MD5.hexdigest (Demo.of_string s))
    [""; "a"; "abc"; "message digest"]
  = ["d41d8cd98f00b204e9800998ecf8427e"; "0cc175b9c0f1b6a831c399e269772661";
     "900150983cd24fb0d6963f7d28e17f72"; "f96b697d7cb7938d525a2f31aaf161d0"].
Proof. vm_compute. reflexivity. Qed.

Example md5_two_blocks :
  MD5.hexdigest
    (Demo.of_string
       "12345678901234567890123456789012345678901234567890123456789012345678901234567890")
  = "57edf4a22be3c955ac49da2e2107b67a".
Proof. vm_compute. reflexivity. Qed.

Example init_defaults :
  TelegramService.init ∅
  = TelegramService.mk "mock_bot_token_12345" "mock_api_id" "mock_api_hash"
      "-100mock_channel_id" "https://api.telegram.org/botmock_bot_token_12345" true.
Proof. reflexivity. Qed.

Example real_upload_recorded :
  List.map Photo.file_url
    (List.concat
       (List.map Category.photos_after
          (categories
             (snd (RoutesAdmin.upload_photo_after Demo.online Demo.real_service "c2"
                     (Demo.upload "photo.png" Demo.png_stream) "new" 99 Demo.world)))))
  = ["https://example.com/7.png";
     "https://api.telegram.org/file/bot4242:secret/photos/file_7.png"].
Proof. reflexivity. Qed.

Example delete_photo_present :
  List.map Category.photos_before
    (categories (snd (RoutesAdmin.delete_photo "c1" "p7" "before" Demo.world)))
  = [[]; []].
Proof. reflexivity. Qed.

(** ** Runs of the stages *)

#[local] Arguments String.append : simpl never.
#[local] Arguments Base64.b64encode : simpl never.
#[local] Arguments MD5.hexdigest : simpl never.
#[local] Arguments Py.truthy : simpl never.
#[local] Arguments apply_update : simpl never.

Lemma runs_to_outcome {A} (m : M A) r d e :
  runs_to m (mkWorld [] []) r d e -> outcome m = r.
Proof. unfold runs_to, outcome. intros ->. reflexivity. Qed.

Section Stages.
Context (X : Externals).

Lemma ensure_valid_png_run (c : bytes) (w : World) :
  exists evs,
    runs_to (RoutesAdmin.ensure_valid_png X c) w
            (outcome (RoutesAdmin.ensure_valid_png X c)) (categories w) evs
    /\ db_ops evs = [] /\ storage_calls evs = [] /\ http_calls evs = []
    /\ decode_calls evs = [c].
Proof.
  unfold runs_to, outcome, RoutesAdmin.ensure_valid_png, bind, emit, raise, ret.
  destruct (Image_open X c) as [e | image]; simpl.
  - exists [EvImageOpen c]. auto.
  - destruct (Image_save_PNG X image) as [e | png]; simpl;
      exists [EvImageSave; EvImageOpen c]; auto.
Qed.

Lemma ensure_valid_png_open_fails c msg :
  Image_open X c = inl msg ->
  outcome (RoutesAdmin.ensure_valid_png X c)
  = inl (HTTPException 400 ("Invalid image file: " +:+ msg)).
Proof.
  intros H. unfold outcome, RoutesAdmin.ensure_valid_png, bind, emit, raise.
  simpl. rewrite H. reflexivity.
Qed.

Lemma ensure_valid_png_save_fails c image msg :
  Image_open X c = inr image -> Image_save_PNG X image = inl msg ->
  outcome (RoutesAdmin.ensure_valid_png X c)
  = inl (HTTPException 400 ("Invalid image file: " +:+ msg)).
Proof.
  intros H1 H2. unfold outcome, RoutesAdmin.ensure_valid_png, bind, emit, raise.
  simpl. rewrite H1. simpl. rewrite H2. reflexivity.
Qed.

Lemma ensure_valid_png_ok c image png :
  Image_open X c = inr image -> Image_save_PNG X image = inr png ->
  outcome (RoutesAdmin.ensure_valid_png X c) = inr png.
Proof.
  intros H1 H2. unfold outcome, RoutesAdmin.ensure_valid_png, bind, emit, ret.
  simpl. rewrite H1. simpl. rewrite H2. reflexivity.
Qed.

(** The decode step either returns the re-encoded stream or raises a 400
    that names the reason. *)
Lemma ensure_valid_png_outcome c :
  (exists image png,
      Image_open X c = inr image /\ Image_save_PNG X image = inr png
      /\ outcome (RoutesAdmin.ensure_valid_png X c) = inr png)
  \/ (exists msg,
         (Image_open X c = inl msg
          \/ exists image, Image_open X c = inr image
                           /\ Image_save_PNG X image = inl msg)
         /\ outcome (RoutesAdmin.ensure_valid_png X c)
            = inl (HTTPException 400 ("Invalid image file: " +:+ msg))).
Proof.
  destruct (Image_open X c) as [msg | image] eqn:Ho.
  - right. exists msg. split; [now left |].
    now apply ensure_valid_png_open_fails.
  - destruct (Image_save_PNG X image) as [msg | png] eqn:Hs.
    + right. exists msg. split; [right; now exists image |].
      now apply ensure_valid_png_save_fails with image.
    + left. exists image, png. repeat split; trivial.
      now apply ensure_valid_png_ok with image.
Qed.

Lemma get_file_url_run (svc : TelegramService.t) (file_id : string) (w : World) :
  runs_to (TelegramService._get_file_url X svc file_id) w
          (outcome (TelegramService._get_file_url X svc file_id)) (categories w)
          [EvHttpGet (TelegramService.base_url svc +:+ "/getFile?file_id=" +:+ file_id)].
Proof.
  unfold runs_to, outcome, TelegramService._get_file_url, bind, emit, ret.
  simpl.
  destruct (get_getFile X _) as [e | resp]; [reflexivity |].
  destruct (status resp =? 200); [| reflexivity].
  destruct (json resp) as [e | result]; [reflexivity |].
  destruct (gf_ok result); [| reflexivity].
  destruct (gf_file_path result); reflexivity.
Qed.

(** [_get_file_url] never raises, and a URL it returns is not empty. *)
Lemma get_file_url_outcome (svc : TelegramService.t) (file_id : string) :
  exists o, outcome (TelegramService._get_file_url X svc file_id) = inr o
            /\ (forall url, o = Some url -> Py.truthy (Some url) = true).
Proof.
  unfold outcome, TelegramService._get_file_url, bind, emit, ret. simpl.
  destruct (get_getFile X _) as [e | resp];
    [eexists; split; [reflexivity | discriminate] |].
  destruct (status resp =? 200);
    [| eexists; split; [reflexivity | discriminate]].
  destruct (json resp) as [e | result];
    [eexists; split; [reflexivity | discriminate] |].
  destruct (gf_ok result);
    [| eexists; split; [reflexivity | discriminate]].
  destruct (gf_file_path result) as [e | file_path];
    [eexists; split; [reflexivity | discriminate] |].
  eexists; split; [reflexivity |].
  intros url [= <-]. reflexivity.
Qed.

End Stages.

Lemma truthy_nonempty (s : string) : Py.truthy (Some s) = true <-> s <> "".
Proof.
  unfold Py.truthy. destruct (String.eqb_spec s ""); simpl; split;
    congruence.
Qed.

Lemma api_error_run {A} (resp : HttpResponse SendPhotoJson) (w : World) :
  @TelegramService.api_error A resp w = (inl (Exception (api_error_text resp)), w).
Proof.
  unfold TelegramService.api_error, api_error_text, raise.
  destruct (text resp); reflexivity.
Qed.

Section Storage.
Context (X : Externals) (svc : TelegramService.t).
Implicit Types (c : bytes) (f m : string) (w : World).

(** In mock mode the upload is a pure function of its arguments. *)
Lemma upload_photo_mock c f m w :
  TelegramService.mock_mode svc = true ->
  runs_to (TelegramService.upload_photo X svc c f m) w
    (inr ("data:" +:+ m +:+ ";base64," +:+ Base64.b64encode c,
          Some ("AgACAgIAAxkBAAI_" +:+ MD5.hexdigest c +:+ "_mock"),
          len c, m))
    (categories w) [EvStorageUpload c f m].
Proof.
  intros Hm.
  unfold runs_to, TelegramService.upload_photo, bind, emit, try_except, ret.
  simpl. rewrite Hm. reflexivity.
Qed.

Lemma upload_photo_run c f m w :
  exists evs,
    runs_to (TelegramService.upload_photo X svc c f m) w
            (outcome (TelegramService.upload_photo X svc c f m))
            (categories w) (evs ++ [EvStorageUpload c f m])
    /\ db_ops evs = [] /\ storage_calls evs = [] /\ decode_calls evs = []
    /\ (TelegramService.mock_mode svc = true -> evs = [])
    /\ (TelegramService.mock_mode svc = false ->
        exists evs0,
          evs = evs0 ++ [EvHttpPost (TelegramService.base_url svc +:+ "/sendPhoto")
                           (TelegramService.file_channel_id svc) c f m]).
Proof.
  destruct (TelegramService.mock_mode svc) eqn:Hm.
  { exists []. pose proof (upload_photo_mock c f m w Hm) as Hw.
    pose proof (upload_photo_mock c f m (mkWorld [] []) Hm) as H0.
    apply runs_to_outcome in H0. rewrite H0.
    repeat split; auto; discriminate. }
  unfold runs_to, outcome, TelegramService.upload_photo,
    bind, emit, try_except, raise, ret.
  simpl. rewrite Hm.
  set (post := EvHttpPost _ _ _ _ _).
  assert (Hpost : exists evs0 : list event, [post] = evs0 ++ [post])
    by (now exists []).
  destruct (post_sendPhoto X _ _ _ _ _) as [e | resp]; simpl.
  { exists [post]. repeat split; auto; discriminate. }
  destruct (status resp =? 200);
    [| rewrite !api_error_run; exists [post]; repeat split; auto; discriminate].
  destruct (json resp) as [e | result]; simpl.
  { exists [post]. repeat split; auto; discriminate. }
  destruct (sp_ok result);
    [| rewrite !api_error_run; exists [post]; repeat split; auto; discriminate].
  destruct (sp_sizes result) as [e | [| s0 sizes]]; simpl.
  { exists [post]. repeat split; auto; discriminate. }
  { exists [post]. repeat split; auto; discriminate. }
  set (fid := List.last sizes s0).
  rewrite (get_file_url_run X svc fid
             (mkWorld (categories w) (post :: EvStorageUpload c f m :: trace w))).
  rewrite (get_file_url_run X svc fid (mkWorld [] [post; EvStorageUpload c f m])).
  destruct (get_file_url_outcome X svc fid) as (o & -> & _).
  simpl.
  set (get := EvHttpGet _).
  assert (Hget : exists evs0 : list event, [get; post] = evs0 ++ [post])
    by (now exists [get]).
  exists [get; post].
  destruct (negb (Py.truthy o)); simpl; repeat split; auto; discriminate.
Qed.

(** Whatever the remote API does, the upload raises plain exceptions only
    (the handler turns them into a 500). *)
Lemma upload_photo_raises c f m e :
  outcome (TelegramService.upload_photo X svc c f m) = inl e ->
  exists msg, e = Exception msg.
Proof.
  unfold outcome, TelegramService.upload_photo,
    bind, emit, try_except, raise, ret.
  simpl.
  destruct (TelegramService.mock_mode svc); [discriminate |].
  destruct (post_sendPhoto X _ _ _ _ _) as [e0 | resp]; simpl.
  { intros [= <-]. eauto. }
  destruct (status resp =? 200);
    [| rewrite api_error_run; intros [= <-]; eauto].
  destruct (json resp) as [e0 | result]; simpl.
  { intros [= <-]. eauto. }
  destruct (sp_ok result);
    [| rewrite api_error_run; intros [= <-]; eauto].
  destruct (sp_sizes result) as [e0 | [| s0 sizes]]; simpl;
    try (intros [= <-]; eauto; fail).
  set (fid := List.last sizes s0).
  rewrite (get_file_url_run X svc fid (mkWorld [] [_; _])).
  destruct (get_file_url_outcome X svc fid) as (o & -> & _).
  simpl. destruct (negb (Py.truthy o)); simpl; [| discriminate].
  intros [= <-]. eauto.
Qed.

(** A storage result always carries a non-empty URL, an external id, the
    length of the content and the given mime type. *)
Lemma upload_photo_returns c f m url fid size mime :
  outcome (TelegramService.upload_photo X svc c f m) = inr (url, fid, size, mime) ->
  url <> "" /\ (exists i, fid = Some i) /\ size = len c /\ mime = m.
Proof.
  unfold outcome, TelegramService.upload_photo,
    bind, emit, try_except, raise, ret.
  simpl.
  destruct (TelegramService.mock_mode svc).
  { intros [= <- <- <- <-]. repeat split; eauto. }
  destruct (post_sendPhoto X _ _ _ _ _) as [e0 | resp]; simpl; [discriminate |].
  destruct (status resp =? 200); [| rewrite api_error_run; discriminate].
  destruct (json resp) as [e0 | result]; simpl; [discriminate |].
  destruct (sp_ok result); [| rewrite api_error_run; discriminate].
  destruct (sp_sizes result) as [e0 | [| s0 sizes]]; simpl; try discriminate.
  set (fid0 := List.last sizes s0).
  rewrite (get_file_url_run X svc fid0 (mkWorld [] [_; _])).
  destruct (get_file_url_outcome X svc fid0) as (o & -> & Ho).
  simpl. destruct o as [u |]; simpl; [| discriminate].
  destruct (negb (Py.truthy (Some u))) eqn:Ht; simpl; [discriminate |].
  intros [= <- <- <- <-]. repeat split; eauto.
  apply truthy_nonempty. now apply negb_false_iff in Ht.
Qed.

End Storage.

(** ** The [categories] collection *)

Section Store.
Implicit Types (cid : string) (u : update) (docs pre post : list Category.t).

Lemma update_first_absent cid u docs :
  (forall d, In d docs -> Category.id d <> cid) ->
  update_first cid u docs = (docs, 0).
Proof.
  induction docs as [| d rest IH]; intros Hno; simpl; [reflexivity |].
  destruct (String.eqb_spec (Category.id d) cid) as [Heq | _].
  - exfalso. apply (Hno d); [now left | exact Heq].
  - rewrite IH; [reflexivity |]. intros x Hx. apply Hno. now right.
Qed.

Lemma update_first_split cid u pre d post :
  (forall x, In x pre -> Category.id x <> cid) ->
  Category.id d = cid ->
  update_first cid u (pre ++ d :: post) = (pre ++ apply_update u d :: post, 1).
Proof.
  intros Hpre Hd. induction pre as [| x pre IH]; simpl.
  - rewrite (proj2 (String.eqb_eq _ _) Hd). reflexivity.
  - destruct (String.eqb_spec (Category.id x) cid) as [Heq | _].
    + exfalso. apply (Hpre x); [now left | exact Heq].
    + rewrite IH; [reflexivity |]. intros y Hy. apply Hpre. now right.
Qed.

(** The documents split around the first one whose id is [cid], if any. *)
Lemma first_match_split cid docs :
  (forall d, In d docs -> Category.id d <> cid)
  \/ exists pre d post,
       docs = pre ++ d :: post
       /\ (forall x, In x pre -> Category.id x <> cid)
       /\ Category.id d = cid.
Proof.
  induction docs as [| d rest IH].
  - left. intros d [].
  - destruct (String.eqb_spec (Category.id d) cid) as [Heq | Hne].
    + right. exists [], d, rest. repeat split; trivial. intros x [].
    + destruct IH as [Hno | (pre & d' & post & -> & Hpre & Hd')].
      * left. intros x [<- | Hx]; [exact Hne | now apply Hno].
      * right. exists (d :: pre), d', post. repeat split; trivial.
        intros x [<- | Hx]; [exact Hne | now apply Hpre].
Qed.

Lemma update_first_count cid u docs :
  snd (update_first cid u docs) = 0
  <-> forall d, In d docs -> Category.id d <> cid.
Proof.
  split.
  - intros Hn. destruct (first_match_split cid docs)
      as [Hno | (pre & d & post & -> & Hpre & Hd)]; [exact Hno |].
    rewrite update_first_split in Hn by assumption. discriminate.
  - intros Hno. now rewrite update_first_absent.
Qed.

Lemma find_first_split cid pre d post :
  (forall x, In x pre -> Category.id x <> cid) ->
  Category.id d = cid ->
  find_first cid (pre ++ d :: post) = Some d.
Proof.
  intros Hpre Hd. unfold find_first. induction pre as [| x pre IH]; simpl.
  - now rewrite (proj2 (String.eqb_eq _ _) Hd).
  - destruct (String.eqb_spec (Category.id x) cid) as [Heq | _].
    + exfalso. apply (Hpre x); [now left | exact Heq].
    + apply IH. intros y Hy. apply Hpre. now right.
Qed.

Lemma find_first_absent cid docs :
  (forall d, In d docs -> Category.id d <> cid) -> find_first cid docs = None.
Proof.
  unfold find_first. induction docs as [| d rest IH]; intros Hno; simpl; trivial.
  destruct (String.eqb_spec (Category.id d) cid) as [Heq | _].
  - exfalso. apply (Hno d); [now left | exact Heq].
  - apply IH. intros x Hx. apply Hno. now right.
Qed.

Lemma update_one_run cid u (w : World) :
  runs_to (update_one cid u) w
          (inr (snd (update_first cid u (categories w))))
          (fst (update_first cid u (categories w)))
          [EvDb (UpdateOne cid u)].
Proof.
  unfold runs_to, update_one.
  destruct (update_first cid u (categories w)). reflexivity.
Qed.

(** Pulling an id that no photo of the array has changes nothing. *)
Lemma pull_absent field pid (c : Category.t) :
  ~ In pid (List.map Photo.id (photos_in field c)) ->
  apply_update (Pull field pid) c = c.
Proof.
  assert (Hkeep : forall l : list Photo.t,
             ~ In pid (List.map Photo.id l) ->
             List.filter (fun p => negb (String.eqb (Photo.id p) pid)) l = l).
  { induction l as [| p l IH]; simpl; intros Hno; [reflexivity |].
    destruct (String.eqb_spec (Photo.id p) pid) as [Heq | _]; simpl.
    - exfalso. apply Hno. now left.
    - rewrite IH; [reflexivity |]. intros Hin. apply Hno. now right. }
  unfold apply_update, photos_in. intros Hno.
  destruct (field_is "photos_before" field).
  - rewrite Hkeep by assumption. now destruct c.
  - destruct (field_is "photos_after" field).
    + rewrite Hkeep by assumption. now destruct c.
    + reflexivity.
Qed.

End Store.

(** ** The upload handlers, stage by stage *)

Section Upload.
Context (field : string) (X : Externals) (svc : TelegramService.t).
Context (cid : string) (file : UploadFile) (new_id : string) (now : datetime).

Let handler := RoutesAdmin.upload_photo_to field X svc cid file new_id now.
Let fname := default "" (filename file).
Let decode := RoutesAdmin.ensure_valid_png X (payload file).
Let store png := TelegramService.upload_photo X svc png fname "image/png".

(** A file that [validate_file] rejects stops the handler at once. *)
Lemma upload_stops_at_validation err w :
  FileHandler.validate_file (Some file) = Some err ->
  handler w = (inl (HTTPException 400 err), w).
Proof.
  intros Hv. unfold handler, RoutesAdmin.upload_photo_to, try_except.
  rewrite Hv. reflexivity.
Qed.

(** The decode step fails: a 400, no storage call, no store operation. *)
Lemma upload_stops_at_decode e w :
  FileHandler.validate_file (Some file) = None ->
  outcome decode = inl e ->
  exists evs,
    runs_to handler w (inl e) (categories w) evs
    /\ db_ops evs = [] /\ storage_calls evs = []
    /\ decode_calls evs = [payload file].
Proof.
  unfold handler, decode. intros Hv He.
  destruct (ensure_valid_png_outcome X (payload file))
    as [(image & png & _ & _ & Hok) | (msg & _ & Herr)]; [congruence |].
  assert (e = HTTPException 400 ("Invalid image file: " +:+ msg)) as -> by congruence.
  destruct (ensure_valid_png_run X (payload file)
              (mkWorld (categories w) (EvFileRead :: trace w)))
    as (evs & Hrun & Hdb & Hst & _ & Hdec).
  rewrite Herr in Hrun. unfold runs_to in Hrun.
  exists (evs ++ [EvFileRead]).
  unfold runs_to, RoutesAdmin.upload_photo_to, try_except, bind, emit.
  rewrite Hv. rewrite Hrun. simpl.
  unfold db_ops, storage_calls, decode_calls in *.
  rewrite !flat_map_app, Hdb, Hst, Hdec, <- app_assoc. auto.
Qed.

(** The storage backend fails: a 500, and no store operation. *)
Lemma upload_stops_at_storage png e w :
  FileHandler.validate_file (Some file) = None ->
  outcome decode = inr png ->
  outcome (store png) = inl e ->
  exists msg evs,
    e = Exception msg
    /\ runs_to handler w (inl (HTTPException 500 ("Upload failed: " +:+ msg)))
               (categories w) evs
    /\ db_ops evs = []
    /\ storage_calls evs = [(png, fname, "image/png")]
    /\ decode_calls evs = [payload file].
Proof.
  unfold handler, decode, store, fname. intros Hv Hd He.
  destruct (upload_photo_raises X svc _ _ _ _ He) as (msg & ->).
  destruct (ensure_valid_png_run X (payload file)
              (mkWorld (categories w) (EvFileRead :: trace w)))
    as (evs1 & Hrun1 & Hdb1 & Hst1 & _ & Hdec1).
  rewrite Hd in Hrun1. unfold runs_to in Hrun1.
  destruct (upload_photo_run X svc png (default "" (filename file)) "image/png"
              (mkWorld (categories w) (evs1 ++ EvFileRead :: trace w)))
    as (evs2 & Hrun2 & Hdb2 & Hst2 & Hdec2 & _ & _).
  rewrite He in Hrun2. unfold runs_to in Hrun2.
  exists msg, ((evs2 ++ [EvStorageUpload png (default "" (filename file)) "image/png"])
                 ++ evs1 ++ [EvFileRead]).
  split; [reflexivity |].
  unfold runs_to, RoutesAdmin.upload_photo_to, try_except, bind, emit.
  rewrite Hv. simpl in *. rewrite Hrun1, Hrun2. simpl.
  unfold db_ops, storage_calls, decode_calls in *.
  rewrite !flat_map_app, Hdb1, Hst1, Hdec1, Hdb2, Hst2, Hdec2, <- !app_assoc.
  simpl. auto.
Qed.

(** Both stages succeed: one [update_one] follows, and the reply depends
    on its matched count alone. *)
Lemma upload_reaches_store png r w :
  FileHandler.validate_file (Some file) = None ->
  outcome decode = inr png ->
  outcome (store png) = inr r ->
  let photo := photo_of r new_id now in
  let upd := update_first cid (Push field photo) (categories w) in
  exists evs,
    runs_to handler w
      (if snd upd =? 0
       then inl (HTTPException 404 "Category not found")
       else inr (UploadResponse.mk true (Some photo) "Photo uploaded successfully"))
      (fst upd)
      (EvDb (UpdateOne cid (Push field photo)) :: evs)
    /\ db_ops evs = []
    /\ storage_calls evs = [(png, fname, "image/png")]
    /\ decode_calls evs = [payload file].
Proof.
  intros Hv Hd Hs photo upd. unfold handler, decode, store, fname in *.
  destruct (ensure_valid_png_run X (payload file)
              (mkWorld (categories w) (EvFileRead :: trace w)))
    as (evs1 & Hrun1 & Hdb1 & Hst1 & _ & Hdec1).
  rewrite Hd in Hrun1. unfold runs_to in Hrun1.
  destruct (upload_photo_run X svc png (default "" (filename file)) "image/png"
              (mkWorld (categories w) (evs1 ++ EvFileRead :: trace w)))
    as (evs2 & Hrun2 & Hdb2 & Hst2 & Hdec2 & _ & _).
  rewrite Hs in Hrun2. unfold runs_to in Hrun2.
  exists ((evs2 ++ [EvStorageUpload png (default "" (filename file)) "image/png"])
            ++ evs1 ++ [EvFileRead]).
  split.
  - unfold runs_to, RoutesAdmin.upload_photo_to, try_except, bind, emit.
    rewrite Hv. simpl in *. rewrite Hrun1, Hrun2.
    destruct r as [[[file_url telegram_file_id] file_size] mime_type].
    unfold update_one. simpl categories.
    change (Photo.mk new_id telegram_file_id None file_url (Some file_size)
              (Some mime_type) now)
      with photo.
    fold upd. destruct upd as [docs n]. simpl.
    rewrite <- !app_assoc. simpl.
    destruct (n =? 0); reflexivity.
  - unfold db_ops, storage_calls, decode_calls in *.
    rewrite !flat_map_app, Hdb1, Hst1, Hdec1, Hdb2, Hst2, Hdec2. simpl. auto.
Qed.

End Upload.

Ltac split_hyps :=
  repeat match goal with |- _ /\ _ => split end; try eassumption; try reflexivity.

(** Every run of an upload handler ends in one of five ways. *)
Lemma upload_outcomes field X svc cid file new_id now w :
  let handler := RoutesAdmin.upload_photo_to field X svc cid file new_id now in
  let fname := default "" (filename file) in
  let decode := RoutesAdmin.ensure_valid_png X (payload file) in
  let store png := TelegramService.upload_photo X svc png fname "image/png" in
  (exists err,
      FileHandler.validate_file (Some file) = Some err
      /\ handler w = (inl (HTTPException 400 err), w))
  \/ (exists e evs,
         FileHandler.validate_file (Some file) = None
         /\ outcome decode = inl e
         /\ runs_to handler w (inl e) (categories w) evs
         /\ db_ops evs = [] /\ storage_calls evs = [])
  \/ (exists png msg evs,
         FileHandler.validate_file (Some file) = None
         /\ outcome decode = inr png
         /\ outcome (store png) = inl (Exception msg)
         /\ runs_to handler w (inl (HTTPException 500 ("Upload failed: " +:+ msg)))
                    (categories w) evs
         /\ db_ops evs = []
         /\ storage_calls evs = [(png, fname, "image/png")])
  \/ (exists png r evs,
         FileHandler.validate_file (Some file) = None
         /\ outcome decode = inr png
         /\ outcome (store png) = inr r
         /\ (forall d, In d (categories w) -> Category.id d <> cid)
         /\ runs_to handler w (inl (HTTPException 404 "Category not found"))
                    (categories w)
                    (EvDb (UpdateOne cid (Push field (photo_of r new_id now))) :: evs)
         /\ db_ops evs = []
         /\ storage_calls evs = [(png, fname, "image/png")])
  \/ (exists png r evs pre d post,
         FileHandler.validate_file (Some file) = None
         /\ outcome decode = inr png
         /\ outcome (store png) = inr r
         /\ categories w = pre ++ d :: post
         /\ (forall x, In x pre -> Category.id x <> cid)
         /\ Category.id d = cid
         /\ runs_to handler w
              (inr (UploadResponse.mk true (Some (photo_of r new_id now))
                      "Photo uploaded successfully"))
              (pre ++ apply_update (Push field (photo_of r new_id now)) d :: post)
              (EvDb (UpdateOne cid (Push field (photo_of r new_id now))) :: evs)
         /\ db_ops evs = []
         /\ storage_calls evs = [(png, fname, "image/png")]).
Proof.
  intros handler fname decode store.
  destruct (FileHandler.validate_file (Some file)) as [err |] eqn:Hv.
  { left. exists err. split; [reflexivity |].
    now apply upload_stops_at_validation. }
  right.
  destruct (outcome decode) as [e | png] eqn:Hd.
  { left. destruct (upload_stops_at_decode field X svc cid file new_id now e w Hv Hd)
      as (evs & Hrun & Hdb & Hst & _).
    exists e, evs. split_hyps. }
  right.
  destruct (outcome (store png)) as [e | r] eqn:Hs.
  { left.
    destruct (upload_stops_at_storage field X svc cid file new_id now png e w Hv Hd Hs)
      as (msg & evs & -> & Hrun & Hdb & Hst & _).
    exists png, msg, evs. split_hyps. }
  right.
  destruct (upload_reaches_store field X svc cid file new_id now png r w Hv Hd Hs)
    as (evs & Hrun & Hdb & Hst & _).
  destruct (first_match_split cid (categories w))
    as [Hno | (pre & d & post & Hsplit & Hpre & Hid)].
  - left. rewrite update_first_absent in Hrun by assumption. simpl in Hrun.
    exists png, r, evs. split_hyps.
  - right. rewrite Hsplit in Hrun.
    rewrite update_first_split in Hrun by assumption. simpl in Hrun.
    exists png, r, evs, pre, d, post. split_hyps.
Qed.

(** ** C1: no photo is recorded unless storage succeeded *)

(** C1.  In every run of an upload handler the store is written only after
    the storage backend has returned a result.  A file that the validator
    rejects, a payload that does not decode, and a storage upload that
    raises (a failed URL resolution included) each end the request with an
    error, with the documents as they were and with no store operation at
    all.  When no category has the given id, the one [update_one] of the
    request matches nothing: the documents are as they were, the reply is
    404 "Category not found", and the request reads nothing from the store.
    Altogether, a request that ends with an error leaves every document
    unchanged, and a request that reaches the store does so once, with the
    photo built from the storage result, as its latest outside call. *)
Theorem upload_records_only_after_storage field X svc cid file new_id now w :
  let handler := RoutesAdmin.upload_photo_to field X svc cid file new_id now in
  let fname := default "" (filename file) in
  let decode := RoutesAdmin.ensure_valid_png X (payload file) in
  let store png := TelegramService.upload_photo X svc png fname "image/png" in
  (forall err,
      FileHandler.validate_file (Some file) = Some err ->
      handler w = (inl (HTTPException 400 err), w))
  /\ (forall e,
         FileHandler.validate_file (Some file) = None ->
         outcome decode = inl e ->
         exists evs, runs_to handler w (inl e) (categories w) evs
                     /\ db_ops evs = [] /\ storage_calls evs = [])
  /\ (forall png e,
         FileHandler.validate_file (Some file) = None ->
         outcome decode = inr png ->
         outcome (store png) = inl e ->
         exists msg evs,
           e = Exception msg
           /\ runs_to handler w (inl (HTTPException 500 ("Upload failed: " +:+ msg)))
                      (categories w) evs
           /\ db_ops evs = [])
  /\ (forall png r,
         FileHandler.validate_file (Some file) = None ->
         outcome decode = inr png ->
         outcome (store png) = inr r ->
         (forall d, In d (categories w) -> Category.id d <> cid) ->
         exists evs,
           runs_to handler w (inl (HTTPException 404 "Category not found"))
                   (categories w) evs
           /\ db_ops evs = [UpdateOne cid (Push field (photo_of r new_id now))])
  /\ (forall e, fst (handler w) = inl e ->
                categories (snd (handler w)) = categories w)
  /\ (forall evs,
         trace (snd (handler w)) = evs ++ trace w ->
         db_ops evs <> [] ->
         exists png r evs0,
           outcome decode = inr png
           /\ outcome (store png) = inr r
           /\ evs = EvDb (UpdateOne cid (Push field (photo_of r new_id now))) :: evs0
           /\ db_ops evs0 = []
           /\ storage_calls evs0 = [(png, fname, "image/png")]).
Proof.
  intros handler fname decode store. repeat split.
  - intros err Hv. now apply upload_stops_at_validation.
  - intros e Hv Hd.
    destruct (upload_stops_at_decode field X svc cid file new_id now e w Hv Hd)
      as (evs & Hrun & Hdb & Hst & _).
    exists evs. auto.
  - intros png e Hv Hd Hs.
    destruct (upload_stops_at_storage field X svc cid file new_id now png e w Hv Hd Hs)
      as (msg & evs & -> & Hrun & Hdb & _).
    exists msg, evs. auto.
  - intros png r Hv Hd Hs Hno.
    destruct (upload_reaches_store field X svc cid file new_id now png r w Hv Hd Hs)
      as (evs & Hrun & Hdb & _).
    rewrite update_first_absent in Hrun by assumption. simpl in Hrun.
    eexists. split; [exact Hrun |]. simpl. now rewrite Hdb.
  - intros e He.
    destruct (upload_outcomes field X svc cid file new_id now w)
      as [(err & _ & Hrun)
         | [(e' & evs & _ & _ & Hrun & _)
           | [(png & msg & evs & _ & _ & _ & Hrun & _)
             | [(png & r & evs & _ & _ & _ & _ & Hrun & _)
               | (png & r & evs & pre & d & post & _ & _ & _ & _ & _ & _ & Hrun & _)]]]];
      unfold runs_to in Hrun; fold handler in Hrun; rewrite Hrun in *;
      try reflexivity.
    discriminate He.
  - intros evs Htr Hops.
    destruct (upload_outcomes field X svc cid file new_id now w)
      as [(err & _ & Hrun)
         | [(e' & evs' & _ & _ & Hrun & Hdb & _)
           | [(png & msg & evs' & _ & _ & _ & Hrun & Hdb & _)
             | [(png & r & evs' & _ & Hd & Hs & _ & Hrun & Hdb & Hsc)
               | (png & r & evs' & pre & d & post
                  & _ & Hd & Hs & _ & _ & _ & Hrun & Hdb & Hsc)]]]];
      unfold runs_to in Hrun; fold handler in Hrun;
      rewrite Hrun in Htr; simpl in Htr.
    + exfalso. apply Hops. assert (evs = []) as ->; [| reflexivity].
      apply (app_inv_tail (trace w)). now rewrite <- Htr.
    + exfalso. apply Hops. apply app_inv_tail in Htr. now subst.
    + exfalso. apply Hops. apply app_inv_tail in Htr. now subst.
    + exists png, r, evs'. split_hyps.
      apply (app_inv_tail (trace w)). now rewrite <- Htr.
    + exists png, r, evs'. split_hyps.
      apply (app_inv_tail (trace w)). now rewrite <- Htr.
Qed.

Lemma upload_records_only_after_storage_witness :
  let handler :=
    RoutesAdmin.upload_photo_before Demo.unresolved Demo.real_service "c1"
      (Demo.upload "photo.png" Demo.png_stream) "new" 99 in
  let orphan :=
    RoutesAdmin.upload_photo_after Demo.offline Demo.mock_service "c9"
      (Demo.upload "photo.png" Demo.jpeg_stream) "new" 99 in
  (fst (handler Demo.world)
   = inl (HTTPException 500 "Upload failed: Failed to get file URL")
   /\ categories (snd (handler Demo.world)) = categories Demo.world)
  /\ exists evs,
       runs_to orphan Demo.world (inl (HTTPException 404 "Category not found"))
               (categories Demo.world) evs
       /\ List.length (db_ops evs) = 1%nat.
Proof.
  split.
  - split; [reflexivity |].
    destruct (upload_records_only_after_storage "photos_before" Demo.unresolved
                Demo.real_service "c1" (Demo.upload "photo.png" Demo.png_stream)
                "new" 99 Demo.world) as (_ & _ & _ & _ & H & _).
    apply (H (HTTPException 500 "Upload failed: Failed to get file URL")).
    reflexivity.
  - destruct (upload_records_only_after_storage "photos_after" Demo.offline
                Demo.mock_service "c9" (Demo.upload "photo.png" Demo.jpeg_stream)
                "new" 99 Demo.world) as (_ & _ & _ & H & _).
    set (png := Demo.png_signature ++ [Byte.x01; Byte.x02]) in *.
    destruct (H png
                ("data:image/png;base64," +:+ Base64.b64encode png,
                 Some ("AgACAgIAAxkBAAI_" +:+ MD5.hexdigest png +:+ "_mock"),
                 len png, "image/png"))
      as (evs & Hrun & Hdb).
    + reflexivity.
    + reflexivity.
    + reflexivity.
    + intros d [<- | [<- | []]]; discriminate.
    + exists evs. split; [exact Hrun |]. rewrite Hdb. reflexivity.
Defined.

(** ** [validate_and_read_upload] *)

Section ValidateAndRead.
Context (X : Externals) (file : UploadFile) (w : World).

Lemma validate_and_read_too_large :
  FileHandler.MAX_FILE_SIZE < len (payload file) ->
  runs_to (FileHandler.validate_and_read_upload X file) w
          (inl (HTTPException 400 "File too large. Maximum size is 10MB"))
          (categories w) [EvFileRead].
Proof.
  intros Hbig.
  unfold runs_to, FileHandler.validate_and_read_upload, try_except, bind, emit.
  simpl. rewrite (proj2 (Z.gtb_lt _ _) Hbig). reflexivity.
Qed.

Lemma validate_and_read_empty :
  len (payload file) = 0 ->
  runs_to (FileHandler.validate_and_read_upload X file) w
          (inl (HTTPException 400 "File is empty")) (categories w) [EvFileRead].
Proof.
  intros Hlen.
  unfold runs_to, FileHandler.validate_and_read_upload, try_except, bind, emit.
  simpl. rewrite Hlen. reflexivity.
Qed.

Lemma detect_mime_raises c mt w0 e :
  fst (FileHandler.detect_mime X c mt w0) = inl e ->
  e = HTTPException 400 FileHandler.invalid_type_msg.
Proof.
  unfold FileHandler.detect_mime, bind, emit, raise, ret.
  destruct (filetype_guess X) as [guess |]; [| simpl; discriminate].
  cbv beta. destruct (guess c) as [kind |]; [| now intros [= <-]].
  destruct (Py.mem kind FileHandler.ALLOWED_MIME_TYPES); simpl;
    [discriminate | now intros [= <-]].
Qed.

(** No other rejection of [validate_and_read_upload] reads "File is empty". *)
Lemma validate_and_read_empty_only :
  fst (FileHandler.validate_and_read_upload X file w)
  = inl (HTTPException 400 "File is empty") ->
  len (payload file) = 0.
Proof.
  unfold FileHandler.validate_and_read_upload, try_except, bind, emit, raise, ret.
  cbv beta zeta.
  destruct (len (payload file) >? FileHandler.MAX_FILE_SIZE);
    [simpl; discriminate |].
  destruct (Z.eqb_spec (len (payload file)) 0) as [Hz | _]; [trivial |].
  destruct (negb (Py.mem _ FileHandler.ALLOWED_EXTENSIONS));
    [simpl; discriminate |].
  destruct (negb _); [| simpl; discriminate].
  destruct (FileHandler.detect_mime X _ _ _) as [[e | mt] w1] eqn:Hdet;
    [| simpl; discriminate].
  apply (f_equal fst) in Hdet. apply detect_mime_raises in Hdet. subst e.
  simpl. discriminate.
Qed.

(** A non-empty payload within the size limit, under a [.png] name and
    with the declared type [image/png], is returned as it is: the content
    is not looked at. *)
Lemma validate_and_read_declared_png name :
  filename file = Some name ->
  FileHandler.validate_file (Some file) = None ->
  content_type file = Some "image/png" ->
  0 < len (payload file) <= FileHandler.MAX_FILE_SIZE ->
  runs_to (FileHandler.validate_and_read_upload X file) w
          (inr (payload file, Some "image/png", name)) (categories w) [EvFileRead].
Proof.
  intros Hname Hv Hct [Hpos Hmax].
  unfold FileHandler.validate_file in Hv. rewrite Hname, Hct in Hv. simpl in Hv.
  unfold runs_to, FileHandler.validate_and_read_upload, try_except, bind, emit, ret.
  rewrite Hname, Hct. simpl.
  destruct (Z.gtb_spec (len (payload file)) FileHandler.MAX_FILE_SIZE) as [Hgt | _];
    [lia |].
  destruct (Z.eqb_spec (len (payload file)) 0) as [Hz | _]; [lia |].
  destruct (Py.truthy (Some name)); simpl in Hv; [| discriminate Hv].
  match type of Hv with
  | (if ?b then _ else _) = None => destruct b; [discriminate Hv | reflexivity]
  end.
Qed.

End ValidateAndRead.

(** ** C2: the size limit *)

(** The upload handlers hand the payload to Pillow whatever its length. *)
Lemma upload_decodes_any_length field X svc cid file new_id now w :
  FileHandler.validate_file (Some file) = None ->
  exists res docs evs,
    runs_to (RoutesAdmin.upload_photo_to field X svc cid file new_id now) w res docs evs
    /\ decode_calls evs = [payload file]
    /\ res <> inl (HTTPException 400 FileHandler.too_large_msg).
Proof.
  intros Hv.
  destruct (outcome (RoutesAdmin.ensure_valid_png X (payload file))) as [e | png] eqn:Hd.
  { destruct (upload_stops_at_decode field X svc cid file new_id now e w Hv Hd)
      as (evs & Hrun & _ & _ & Hdec).
    exists (inl e), (categories w), evs. split_hyps.
    destruct (ensure_valid_png_outcome X (payload file))
      as [(image & png & _ & _ & Hok) | (msg & _ & Herr)]; [congruence |].
    rewrite Hd in Herr. injection Herr as ->. discriminate. }
  destruct (outcome (TelegramService.upload_photo X svc png
                       (default "" (filename file)) "image/png")) as [e | r] eqn:Hs.
  { destruct (upload_stops_at_storage field X svc cid file new_id now png e w Hv Hd Hs)
      as (msg & evs & -> & Hrun & _ & _ & Hdec).
    eexists _, _, evs. split; [exact Hrun |]. split; [exact Hdec | discriminate]. }
  destruct (upload_reaches_store field X svc cid file new_id now png r w Hv Hd Hs)
    as (evs & Hrun & _ & _ & Hdec).
  eexists _, _, _. split; [exact Hrun |]. split; [exact Hdec |].
  destruct (_ =? 0); discriminate.
Qed.

Lemma len_oversize_payload :
  len Demo.oversize_payload = FileHandler.MAX_FILE_SIZE + 1.
Proof.
  unfold len, Demo.oversize_payload. rewrite repeat_length.
  apply Z2Nat.id. discriminate.
Qed.

(** C2 (the code departs from it).  The upload handlers never compare the
    length of the payload with [MAX_FILE_SIZE]: a file of 10 MiB + 1 byte
    under a [.png] name is read and handed to [Image.open], and the reply is
    never the 400 "File too large. Maximum size is 10MB".  The check exists
    in [validate_and_read_upload], which rejects the same file before any
    decoding, but no handler calls it. *)
Theorem oversize_upload_reaches_decoder field X svc cid new_id now w :
  let file := Demo.upload "big.png" Demo.oversize_payload in
  FileHandler.MAX_FILE_SIZE < len (payload file)
  /\ (exists res docs evs,
         runs_to (RoutesAdmin.upload_photo_to field X svc cid file new_id now) w
                 res docs evs
         /\ decode_calls evs = [payload file]
         /\ res <> inl (HTTPException 400 "File too large. Maximum size is 10MB"))
  /\ (exists evs,
         runs_to (FileHandler.validate_and_read_upload X file) w
                 (inl (HTTPException 400 "File too large. Maximum size is 10MB"))
                 (categories w) evs
         /\ decode_calls evs = []).
Proof.
  intros file.
  assert (Hlen : FileHandler.MAX_FILE_SIZE < len (payload file)).
  { unfold file, Demo.upload. cbn [payload]. rewrite len_oversize_payload. lia. }
  split; [exact Hlen |]. split.
  - apply upload_decodes_any_length. reflexivity.
  - exists [EvFileRead]. split; [| reflexivity].
    now apply validate_and_read_too_large.
Qed.

(** ** Splitting a name at its dots *)

Section Split.
Variable sep : ascii.

Lemma split_nonempty s : Py.split sep s <> [].
Proof.
  destruct s as [| c r]; simpl; [discriminate |].
  destruct (Ascii.eqb c sep); [discriminate |].
  destruct (Py.split sep r); discriminate.
Qed.

Lemma split_no_sep s : Py.contains sep s = false -> Py.split sep s = [s].
Proof.
  induction s as [| c r IH]; simpl; [reflexivity |].
  destruct (Ascii.eqb c sep); [discriminate |].
  intros Hr. now rewrite IH.
Qed.

Lemma split_two s :
  Py.contains sep s = true -> exists h h' t, Py.split sep s = h :: h' :: t.
Proof.
  induction s as [| c r IH]; simpl; [discriminate |].
  destruct (Ascii.eqb c sep).
  - intros _. destruct (Py.split sep r) as [| h t] eqn:Hs.
    + now destruct (split_nonempty r).
    + now exists EmptyString, h, t.
  - intros Hr. destruct (IH Hr) as (h & h' & t & ->). now exists (String c h), h', t.
Qed.

(** The last piece of [String c r]. *)
Lemma last_item_split_cons c r :
  Py.last_item (Py.split sep (String c r))
  = if Py.contains sep r then Py.last_item (Py.split sep r)
    else if Ascii.eqb c sep then r else String c r.
Proof.
  simpl. destruct (Py.contains sep r) eqn:Hr.
  - destruct (split_two r Hr) as (h & h' & t & ->).
    destruct (Ascii.eqb c sep); reflexivity.
  - rewrite (split_no_sep r Hr). destruct (Ascii.eqb c sep); reflexivity.
Qed.

(** The last piece is what follows the last separator. *)
Lemma split_last_suffix s :
  Py.contains sep s = true ->
  exists stem, s = stem +:+ String sep (Py.last_item (Py.split sep s)).
Proof.
  induction s as [| c r IH]; [discriminate |].
  intros Hs. rewrite last_item_split_cons.
  destruct (Py.contains sep r) eqn:Hr.
  - destruct (IH eq_refl) as (stem & Hstem).
    exists (String c stem).
    change (String c r
            = String c (stem +:+ String sep (Py.last_item (Py.split sep r)))).
    now rewrite <- Hstem.
  - simpl in Hs. rewrite Hr in Hs.
    destruct (Ascii.eqb_spec c sep) as [-> | _]; [| discriminate].
    now exists EmptyString.
Qed.

Lemma contains_app_sep stem suf :
  Py.contains sep (stem +:+ String sep suf) = true.
Proof.
  induction stem as [| c st IH]; simpl.
  - now rewrite Ascii.eqb_refl.
  - destruct (Ascii.eqb c sep); [reflexivity | exact IH].
Qed.

Lemma split_last_of_app stem suf :
  Py.contains sep suf = false ->
  Py.last_item (Py.split sep (stem +:+ String sep suf)) = suf.
Proof.
  intros Hsuf. induction stem as [| c st IH].
  - change (EmptyString +:+ String sep suf) with (String sep suf).
    rewrite last_item_split_cons, Hsuf, Ascii.eqb_refl. reflexivity.
  - change (String c st +:+ String sep suf) with (String c (st +:+ String sep suf)).
    rewrite last_item_split_cons, contains_app_sep. exact IH.
Qed.

End Split.

Lemma lower_char_dot c : Ascii.eqb (Py.lower_char c) "." = Ascii.eqb c ".".
Proof.
  destruct c as [[] [] [] [] [] [] [] []]; reflexivity.
Qed.

Lemma contains_dot_lower s : Py.contains "." (Py.lower s) = Py.contains "." s.
Proof.
  induction s as [| c r IH]; simpl; [reflexivity |].
  now rewrite lower_char_dot, IH.
Qed.

(** The extension is [png] exactly for the names that end, up to case, in
    [.png]. *)
Lemma file_ext_png name :
  FileHandler.file_ext name = "png" <-> exists stem, Py.lower name = stem +:+ ".png".
Proof.
  unfold FileHandler.file_ext. split.
  - destruct (Py.contains "." name) eqn:Hdot; [| discriminate].
    intros Hext. rewrite <- contains_dot_lower in Hdot.
    destruct (split_last_suffix "." _ Hdot) as (stem & Hstem).
    rewrite Hext in Hstem. now exists stem.
  - intros (stem & Hstem).
    rewrite <- contains_dot_lower, Hstem.
    change (stem +:+ ".png") with (stem +:+ String "." "png").
    rewrite contains_app_sep. now apply split_last_of_app.
Qed.

(** ** C3: what [validate_file] accepts *)

Lemma mem_allowed_extension e :
  Py.mem ("." +:+ e) FileHandler.ALLOWED_EXTENSIONS = String.eqb e "png".
Proof.
  unfold Py.mem, FileHandler.ALLOWED_EXTENSIONS.
  change ("." +:+ e) with (String "." e). simpl. apply orb_false_r.
Qed.

Lemma mem_allowed_mime m :
  Py.mem m FileHandler.ALLOWED_MIME_TYPES = String.eqb m "image/png".
Proof. unfold Py.mem, FileHandler.ALLOWED_MIME_TYPES. simpl. apply orb_false_r. Qed.

(** [validate_file], case by case. *)
Lemma validate_file_cases (file : UploadFile) :
  FileHandler.validate_file (Some file) =
  match filename file with
  | None => Some "No file provided"
  | Some name =>
      if String.eqb name "" then Some "No file provided"
      else if negb (String.eqb (FileHandler.file_ext name) "png")
           then Some FileHandler.invalid_extension_msg
           else match content_type file with
                | None => None
                | Some ct =>
                    if String.eqb ct "" then None
                    else if String.eqb ct "image/png" then None
                         else Some FileHandler.invalid_type_msg
                end
  end.
Proof.
  unfold FileHandler.validate_file, Py.truthy.
  destruct (filename file) as [name |]; [| reflexivity].
  destruct (String.eqb name ""); [reflexivity |].
  cbn [negb default from_option id]. rewrite mem_allowed_extension.
  destruct (negb (FileHandler.file_ext name =? "png")%string); [reflexivity |].
  destruct (content_type file) as [ct |]; [| reflexivity].
  cbn [default from_option id]. rewrite mem_allowed_mime.
  destruct (String.eqb ct ""); [reflexivity |].
  destruct (String.eqb ct "image/png"); reflexivity.
Qed.

(** C3, as the claim has it, fails for a declared content type that is the
    empty string: it is neither absent nor [image/png], and the file is
    accepted ([if file.content_type and ...] skips every false value). *)
Lemma validate_file_accepts_empty_type :
  let file := mkUploadFile (Some "x.png") (Some "") [] in
  FileHandler.validate_file (Some file) = None
  /\ ~ (content_type file = None \/ content_type file = Some "image/png").
Proof.
  split; [reflexivity |]. intros [H | H]; discriminate H.
Qed.

(** C3 (amended).  [validate_file] returns no error exactly when the
    filename is present and not empty, the lowercased filename ends in
    [.png] (the text after its last dot is [png]), and the declared content
    type is absent, empty or equal to [image/png].  A file whose name does
    not end in [.png] makes the upload handlers stop with that error before
    they read the payload: no storage call is made, no outside call at
    all. *)
Theorem validate_file_accepts_iff (file : UploadFile) :
  (FileHandler.validate_file (Some file) = None
   <-> (exists name,
           filename file = Some name /\ name <> ""
           /\ exists stem, Py.lower name = stem +:+ ".png")
       /\ (content_type file = None \/ content_type file = Some ""
           \/ content_type file = Some "image/png"))
  /\ ((~ exists name stem,
          filename file = Some name /\ Py.lower name = stem +:+ ".png") ->
      exists err,
        FileHandler.validate_file (Some file) = Some err
        /\ forall field X svc cid new_id now w,
             RoutesAdmin.upload_photo_to field X svc cid file new_id now w
             = (inl (HTTPException 400 err), w)).
Proof.
  rewrite validate_file_cases. split.
  - destruct (filename file) as [name |].
    2:{ split; [discriminate |]. intros [(name & Hn & _) _]. discriminate Hn. }
    destruct (String.eqb_spec name "") as [-> | Hne].
    { split; [discriminate |]. intros [(name & [= <-] & Hn & _) _]. now destruct Hn. }
    destruct (String.eqb_spec (FileHandler.file_ext name) "png") as [Hext | Hext];
      cbn [negb].
    2:{ split; [discriminate |].
        intros [(name' & [= <-] & _ & Hstem) _]. now apply file_ext_png in Hstem. }
    apply file_ext_png in Hext.
    destruct (content_type file) as [ct |].
    2:{ split; [| reflexivity]. intros _. split; [now exists name | now left]. }
    destruct (String.eqb_spec ct "") as [-> | Hct].
    { split; [| reflexivity]. intros _. split; [now exists name | right; now left]. }
    destruct (String.eqb_spec ct "image/png") as [-> | Hpng].
    { split; [| reflexivity]. intros _. split; [now exists name | right; now right]. }
    split; [discriminate |].
    intros [_ [H | [H | H]]]; [discriminate H | |]; injection H as ->; congruence.
  - intros Hbad.
    assert (Herr : exists err,
      match filename file with
      | None => Some "No file provided"
      | Some name =>
          if String.eqb name "" then Some "No file provided"
          else if negb (String.eqb (FileHandler.file_ext name) "png")
               then Some FileHandler.invalid_extension_msg
               else match content_type file with
                    | None => None
                    | Some ct =>
                        if String.eqb ct "" then None
                        else if String.eqb ct "image/png" then None
                             else Some FileHandler.invalid_type_msg
                    end
      end = Some err).
    { destruct (filename file) as [name |]; [| eauto].
      destruct (String.eqb name ""); [eauto |].
      destruct (String.eqb_spec (FileHandler.file_ext name) "png") as [Hext | _];
        cbn [negb]; [| eauto].
      exfalso. apply Hbad. apply file_ext_png in Hext as (stem & Hstem).
      now exists name, stem. }
    destruct Herr as (err & Herr). exists err. split; [exact Herr |].
    intros field X svc cid new_id now w.
    apply upload_stops_at_validation. now rewrite validate_file_cases.
Qed.

Lemma validate_file_accepts_iff_witness :
  let good := Demo.upload "Holiday.Photo.PNG" Demo.png_stream in
  let bad := Demo.upload "photo.png.exe" Demo.png_stream in
  FileHandler.validate_file (Some good) = None
  /\ RoutesAdmin.upload_photo_before Demo.online Demo.real_service "c1" bad "new" 99
       Demo.world
     = (inl (HTTPException 400 "Invalid file extension. Allowed: .png"), Demo.world).
Proof.
  split.
  - apply (proj1 (validate_file_accepts_iff
                    (Demo.upload "Holiday.Photo.PNG" Demo.png_stream))).
    split.
    + exists "Holiday.Photo.PNG". split; [reflexivity |]. split; [discriminate |].
      exists "holiday.photo". reflexivity.
    + right. right. reflexivity.
  - destruct (proj2 (validate_file_accepts_iff
                       (Demo.upload "photo.png.exe" Demo.png_stream)))
      as (err & Herr & Hrun).
    + intros (name & stem & [= <-] & Hstem).
      assert (Hext : FileHandler.file_ext "photo.png.exe" = "png")
        by (apply file_ext_png; now exists stem).
      discriminate Hext.
    + injection Herr as <-. apply Hrun.
Defined.

(** ** Base64 decodes what it encodes *)

Lemma value_digit_all :
  forallb (fun k => match Base64.value (Base64.digit k) with
                    | Some v => N.eqb v k
                    | None => false
                    end) (List.map N.of_nat (List.seq 0 64)) = true.
Proof. vm_compute. reflexivity. Qed.

Lemma value_digit k : (k < 64)%N -> Base64.value (Base64.digit k) = Some k.
Proof.
  intros Hk. pose proof value_digit_all as Hall.
  rewrite forallb_forall in Hall.
  specialize (Hall k).
  destruct (Base64.value (Base64.digit k)) as [v |].
  - f_equal. apply N.eqb_eq. apply Hall.
    apply in_map_iff. exists (N.to_nat k). split; [apply N2Nat.id |].
    apply in_seq. lia.
  - assert (false = true) as H; [| discriminate H].
    apply Hall. apply in_map_iff. exists (N.to_nat k). split; [apply N2Nat.id |].
    apply in_seq. lia.
Qed.

Lemma byte_of_to_N x : Base64.byte_of (Byte.to_N x) = x.
Proof. unfold Base64.byte_of. now rewrite Byte.of_to_N. Qed.

Lemma list_ind3 {A} (P : list A -> Prop) :
  P [] -> (forall x, P [x]) -> (forall x y, P [x; y]) ->
  (forall x y z l, P l -> P (x :: y :: z :: l)) ->
  forall l, P l.
Proof.
  intros H0 H1 H2 H3.
  fix IH 1. intros [| x [| y [| z l]]];
    [exact H0 | apply H1 | apply H2 | apply H3; apply IH].
Qed.

Lemma value_pad : Base64.value "=" = None.
Proof. reflexivity. Qed.

(** [lia] with division and remainder by constants. *)
Ltac Zify.zify_post_hook ::= Z.to_euclidean_division_equations.

Lemma b64encode_one x :
  Base64.b64encode [x]
  = let n := Byte.to_N x in
    Base64.quad (Base64.digit (n / 4)) (Base64.digit ((n mod 4) * 16)) "=" "=" ""%string.
Proof. reflexivity. Qed.

Lemma b64encode_two x y :
  Base64.b64encode [x; y]
  = let n := Byte.to_N x in
    let m := Byte.to_N y in
    Base64.quad (Base64.digit (n / 4)) (Base64.digit ((n mod 4) * 16 + m / 16))
                (Base64.digit ((m mod 16) * 4)) "=" ""%string.
Proof. reflexivity. Qed.

Lemma b64encode_three x y z l :
  Base64.b64encode (x :: y :: z :: l)
  = let n := Byte.to_N x in
    let m := Byte.to_N y in
    let k := Byte.to_N z in
    Base64.quad (Base64.digit (n / 4)) (Base64.digit ((n mod 4) * 16 + m / 16))
                (Base64.digit ((m mod 16) * 4 + k / 64)) (Base64.digit (k mod 64))
                (Base64.b64encode l).
Proof. reflexivity. Qed.

Lemma b64decode_b64encode (b : bytes) :
  Base64.b64decode (Base64.b64encode b) = Some b.
Proof.
  induction b as [| x | x y | x y z l IH] using list_ind3.
  - reflexivity.
  - pose proof (Byte.to_N_bounded x) as Hx.
    rewrite b64encode_one. cbv zeta. set (n := Byte.to_N x) in *.
    unfold Base64.quad. cbn [Base64.b64decode].
    rewrite !value_digit by lia. rewrite value_pad. cbn.
    replace (n / 4 * 4 + n mod 4 * 16 / 16)%N with n by lia.
    unfold n. now rewrite byte_of_to_N.
  - pose proof (Byte.to_N_bounded x) as Hx. pose proof (Byte.to_N_bounded y) as Hy.
    rewrite b64encode_two. cbv zeta.
    set (n := Byte.to_N x) in *. set (m := Byte.to_N y) in *.
    unfold Base64.quad. cbn [Base64.b64decode].
    rewrite !value_digit by lia. rewrite value_pad. cbn.
    replace (n / 4 * 4 + (n mod 4 * 16 + m / 16) / 16)%N with n by lia.
    replace ((n mod 4 * 16 + m / 16) mod 16 * 16 + m mod 16 * 4 / 4)%N with m by lia.
    unfold n, m. now rewrite !byte_of_to_N.
  - pose proof (Byte.to_N_bounded x) as Hx. pose proof (Byte.to_N_bounded y) as Hy.
    pose proof (Byte.to_N_bounded z) as Hz.
    rewrite b64encode_three. cbv zeta.
    set (n := Byte.to_N x) in *. set (m := Byte.to_N y) in *. set (k := Byte.to_N z) in *.
    unfold Base64.quad. cbn [Base64.b64decode].
    rewrite !value_digit by lia. rewrite IH.
    replace (n / 4 * 4 + (n mod 4 * 16 + m / 16) / 16)%N with n by lia.
    replace ((n mod 4 * 16 + m / 16) mod 16 * 16 + (m mod 16 * 4 + k / 64) / 4)%N
      with m by lia.
    replace ((m mod 16 * 4 + k / 64) mod 4 * 64 + k mod 64)%N with k by lia.
    unfold n, m, k. now rewrite !byte_of_to_N.
Qed.

Ltac Zify.zify_post_hook ::= idtac.

(** ** C4: the mock backend *)

(** C4.  In mock mode [upload_photo] returns, for every content, filename
    and mime type, the tuple made of the URL
    [data:<mime>;base64,<base64 of the content>], the id
    [AgACAgIAAxkBAAI_<md5 of the content>_mock], the length of the content
    and the mime type.  It raises nothing and makes no HTTP call, whatever
    the network would answer; the id is the same for the same content under
    any filename, mime type, service in mock mode and state of the world;
    the content can be read back from the URL by base64 decoding. *)
Theorem mock_upload_is_content_addressed X svc content fname mime w :
  TelegramService.mock_mode svc = true ->
  (exists evs,
      runs_to (TelegramService.upload_photo X svc content fname mime) w
        (inr ("data:" +:+ mime +:+ ";base64," +:+ Base64.b64encode content,
              Some ("AgACAgIAAxkBAAI_" +:+ MD5.hexdigest content +:+ "_mock"),
              len content, mime))
        (categories w) evs
      /\ http_calls evs = [])
  /\ (forall X' svc' fname' mime' w',
         TelegramService.mock_mode svc' = true ->
         external_id (fst (TelegramService.upload_photo X' svc' content fname' mime' w'))
         = external_id (fst (TelegramService.upload_photo X svc content fname mime w)))
  /\ Base64.b64decode (Base64.b64encode content) = Some content.
Proof.
  intros Hm. split; [| split; [| apply b64decode_b64encode]].
  - exists [EvStorageUpload content fname mime]. split; [| reflexivity].
    now apply upload_photo_mock.
  - intros X' svc' fname' mime' w' Hm'.
    rewrite (upload_photo_mock X svc content fname mime w Hm).
    rewrite (upload_photo_mock X' svc' content fname' mime' w' Hm').
    reflexivity.
Qed.

Lemma mock_upload_is_content_addressed_witness :
  fst (TelegramService.upload_photo Demo.offline Demo.mock_service
         (Demo.of_string "abc") "a.png" "image/png" Demo.world)
  = inr ("data:image/png;base64,YWJj",
         Some "AgACAgIAAxkBAAI_900150983cd24fb0d6963f7d28e17f72_mock",
         3, "image/png").
Proof.
  destruct (mock_upload_is_content_addressed Demo.offline Demo.mock_service
              (Demo.of_string "abc") "a.png" "image/png" Demo.world eq_refl)
    as ((evs & Hrun & _) & _).
  unfold runs_to in Hrun. rewrite Hrun. reflexivity.
Defined.

(** ** C5: the decode step *)

(** C5.  For a file that passes [validate_file], either Pillow fails on the
    payload (opening it, or saving it as PNG) and the handler replies 400
    "Invalid image file: <reason>" without any storage call or store
    operation, or Pillow opens the payload and saves it as PNG, and the one
    storage call of the request carries those PNG bytes, under the mime type
    [image/png].  Nothing in the handler looks at the format of the payload:
    any stream that Pillow opens goes this way, a JPEG stream under a [.png]
    name included. *)
Theorem upload_reencodes_to_png field X svc cid file new_id now w :
  FileHandler.validate_file (Some file) = None ->
  let handler := RoutesAdmin.upload_photo_to field X svc cid file new_id now in
  ((exists msg,
       (Image_open X (payload file) = inl msg
        \/ exists image, Image_open X (payload file) = inr image
                         /\ Image_save_PNG X image = inl msg)
       /\ exists evs,
            runs_to handler w (inl (HTTPException 400 ("Invalid image file: " +:+ msg)))
                    (categories w) evs
            /\ storage_calls evs = [] /\ db_ops evs = [])
   \/ (exists image png res docs evs,
          Image_open X (payload file) = inr image
          /\ Image_save_PNG X image = inr png
          /\ runs_to handler w res docs evs
          /\ storage_calls evs = [(png, default "" (filename file), "image/png")]
          /\ decode_calls evs = [payload file])).
Proof.
  intros Hv handler.
  destruct (ensure_valid_png_outcome X (payload file))
    as [(image & png & Ho & Hs & Hok) | (msg & Hfail & Herr)].
  - right.
    destruct (outcome (TelegramService.upload_photo X svc png
                         (default "" (filename file)) "image/png")) as [e | r] eqn:Hst.
    + destruct (upload_stops_at_storage field X svc cid file new_id now png e w
                  Hv Hok Hst) as (msg & evs & -> & Hrun & _ & Hsc & Hdec).
      exists image, png. eexists _, _, evs. split_hyps.
    + destruct (upload_reaches_store field X svc cid file new_id now png r w
                  Hv Hok Hst) as (evs & Hrun & _ & Hsc & Hdec).
      exists image, png. eexists _, _, _. split_hyps.
  - left. exists msg. split; [exact Hfail |].
    destruct (upload_stops_at_decode field X svc cid file new_id now _ w Hv Herr)
      as (evs & Hrun & Hdb & Hsc & _).
    exists evs. split_hyps.
Qed.

Lemma upload_reencodes_to_png_witness :
  exists res docs evs,
    runs_to (RoutesAdmin.upload_photo_before Demo.offline Demo.mock_service "c1"
               (Demo.upload "photo.png" Demo.jpeg_stream) "new" 99)
            Demo.world res docs evs
    /\ storage_calls evs
       = [(Demo.png_signature ++ [Byte.x01; Byte.x02], "photo.png", "image/png")].
Proof.
  destruct (upload_reencodes_to_png "photos_before" Demo.offline Demo.mock_service
              "c1" (Demo.upload "photo.png" Demo.jpeg_stream) "new" 99 Demo.world
              eq_refl)
    as [(msg & [Hopen | (image & _ & Hsave)] & _)
       | (image & png & res & docs & evs & Hopen & Hsave & Hrun & Hsc & _)].
  - discriminate Hopen.
  - discriminate Hsave.
  - injection Hopen as <-. injection Hsave as <-.
    exists res, docs, evs. split; assumption.
Defined.

(** ** C6: the choice of the backend *)

(** C6, as the claim has it, fails for a credential that is present and
    starts with [mock_]: the service runs in mock mode. *)
Lemma credential_present_yet_mock :
  let environ : gmap string string := {[ "TELEGRAM_BOT_TOKEN" := "mock_but_set" ]} in
  environ !! "TELEGRAM_BOT_TOKEN" = Some "mock_but_set"
  /\ TelegramService.mock_mode (TelegramService.init environ) = true.
Proof. split; reflexivity. Qed.

(** C6 (amended).  The mode is computed once, by [__init__], from the
    variable [TELEGRAM_BOT_TOKEN] alone: the service is in mock mode exactly
    when the variable is absent or its value starts with [mock_], in real
    mode when it is present with any other value.  Every upload follows
    that stored mode: it makes no HTTP call in mock mode, and starts with
    the POST to [sendPhoto] in real mode. *)
Theorem mock_mode_from_credential (environ : gmap string string) :
  let svc := TelegramService.init environ in
  (TelegramService.mock_mode svc = true
   <-> environ !! "TELEGRAM_BOT_TOKEN" = None
       \/ exists token, environ !! "TELEGRAM_BOT_TOKEN" = Some token
                        /\ Py.startswith "mock_" token = true)
  /\ (forall environ' : gmap string string,
         environ' !! "TELEGRAM_BOT_TOKEN" = environ !! "TELEGRAM_BOT_TOKEN" ->
         TelegramService.mock_mode (TelegramService.init environ')
         = TelegramService.mock_mode svc)
  /\ (forall X c f m w,
         exists r evs,
           runs_to (TelegramService.upload_photo X svc c f m) w r (categories w) evs
           /\ (http_calls evs = [] <-> TelegramService.mock_mode svc = true)).
Proof.
  intros svc. unfold svc, TelegramService.init, TelegramService.environ_get.
  cbn [TelegramService.mock_mode]. repeat split.
  - destruct (environ !! "TELEGRAM_BOT_TOKEN") as [token |]; [| now left].
    cbn [default from_option id]. intros Hp. right. now exists token.
  - intros [-> | (token & -> & Hp)]; [reflexivity | exact Hp].
  - intros environ' ->. reflexivity.
  - intros X c f m w.
    fold (TelegramService.environ_get environ "TELEGRAM_BOT_TOKEN" "mock_bot_token_12345").
    change (TelegramService.mk _ _ _ _ _ _) with (TelegramService.init environ).
    destruct (upload_photo_run X (TelegramService.init environ) c f m w)
      as (evs & Hrun & _ & _ & _ & Hmock & Hreal).
    eexists _, _. split; [exact Hrun |].
    change (Py.startswith "mock_"
              (TelegramService.environ_get environ "TELEGRAM_BOT_TOKEN"
                 "mock_bot_token_12345"))
      with (TelegramService.mock_mode (TelegramService.init environ)).
    destruct (TelegramService.mock_mode (TelegramService.init environ)).
    + rewrite Hmock by reflexivity. split; reflexivity.
    + destruct (Hreal eq_refl) as (evs0 & ->). split; [| discriminate].
      unfold http_calls. rewrite <- app_assoc, List.filter_app. simpl.
      intros H. now destruct (app_cons_not_nil _ _ _ (eq_sym H)).
Qed.

Lemma mock_mode_from_credential_witness :
  TelegramService.mock_mode Demo.mock_service = true
  /\ TelegramService.mock_mode Demo.real_service = false.
Proof.
  split.
  - apply (proj1 (mock_mode_from_credential ∅)). left. reflexivity.
  - destruct (TelegramService.mock_mode Demo.real_service) eqn:Hm; [| reflexivity].
    apply (proj1 (mock_mode_from_credential _)) in Hm.
    destruct Hm as [Hm | (token & Ht & Hp)]; [discriminate Hm |].
    injection Ht as <-. discriminate Hp.
Defined.

(** ** C7: what a recorded photo carries *)

(** In real mode the id of a storage result is the [file_id] of the last
    size in the reply to [sendPhoto]. *)
Lemma upload_photo_real_id X svc c f m url fid size mime :
  TelegramService.mock_mode svc = false ->
  outcome (TelegramService.upload_photo X svc c f m) = inr (url, fid, size, mime) ->
  exists resp result s0 sizes,
    post_sendPhoto X (TelegramService.base_url svc +:+ "/sendPhoto")
                   (TelegramService.file_channel_id svc) c f m = HttpReplied resp
    /\ json resp = inr result
    /\ sp_sizes result = inr (s0 :: sizes)
    /\ fid = Some (List.last sizes s0).
Proof.
  intros Hm.
  unfold outcome, TelegramService.upload_photo, bind, emit, try_except, raise, ret.
  simpl. rewrite Hm.
  destruct (post_sendPhoto X _ _ _ _ _) as [e0 | resp] eqn:Hpost; simpl;
    [discriminate |].
  destruct (status resp =? 200); [| rewrite api_error_run; discriminate].
  destruct (json resp) as [e0 | result] eqn:Hjson; simpl; [discriminate |].
  destruct (sp_ok result); [| rewrite api_error_run; discriminate].
  destruct (sp_sizes result) as [e0 | [| s0 sizes]] eqn:Hsizes; simpl;
    try discriminate.
  set (fid0 := List.last sizes s0).
  rewrite (get_file_url_run X svc fid0 (mkWorld [] [_; _])).
  destruct (get_file_url_outcome X svc fid0) as (o & -> & _).
  simpl. destruct (negb (Py.truthy o)); simpl; [discriminate |].
  intros [= <- <- <- <-]. now exists resp, result, s0, sizes.
Qed.

(** C7, as the claim has it, fails on the mock path: the photo of a mock
    upload carries the synthetic id. *)
Lemma mock_photo_has_external_id :
  TelegramService.mock_mode Demo.mock_service = true
  /\ Photo.telegram_file_id
       <$> uploaded_photo
             (fst (RoutesAdmin.upload_photo_before Demo.offline Demo.mock_service "c1"
                     (Demo.upload "photo.png" Demo.jpeg_stream) "new" 99 Demo.world))
     = Some (Some "AgACAgIAAxkBAAI_879f7f048a076f3496cf333c2682663e_mock").
Proof. split; reflexivity. Qed.

(** C7 (amended).  The photo of every successful upload has a non-empty URL
    and an external id, on both paths: on the mock path the id is
    [AgACAgIAAxkBAAI_<md5 of the stored bytes>_mock] and the URL the data
    URL of those bytes, on the real path the id is the [file_id] of the
    largest size that the remote API returned. *)
Theorem uploaded_photo_has_url_and_id field X svc cid file new_id now w resp w' :
  RoutesAdmin.upload_photo_to field X svc cid file new_id now w = (inr resp, w') ->
  exists p png,
    UploadResponse.photo resp = Some p
    /\ outcome (RoutesAdmin.ensure_valid_png X (payload file)) = inr png
    /\ Photo.file_url p <> ""
    /\ (exists i, Photo.telegram_file_id p = Some i)
    /\ (TelegramService.mock_mode svc = true ->
        Photo.telegram_file_id p
        = Some ("AgACAgIAAxkBAAI_" +:+ MD5.hexdigest png +:+ "_mock")
        /\ Photo.file_url p = "data:image/png;base64," +:+ Base64.b64encode png)
    /\ (TelegramService.mock_mode svc = false ->
        exists reply result s0 sizes,
          post_sendPhoto X (TelegramService.base_url svc +:+ "/sendPhoto")
            (TelegramService.file_channel_id svc) png
            (default "" (filename file)) "image/png" = HttpReplied reply
          /\ json reply = inr result
          /\ sp_sizes result = inr (s0 :: sizes)
          /\ Photo.telegram_file_id p = Some (List.last sizes s0)).
Proof.
  intros Hrun.
  destruct (upload_outcomes field X svc cid file new_id now w)
    as [(err & _ & H)
       | [(e' & evs & _ & _ & H & _)
         | [(png & msg & evs & _ & _ & _ & H & _)
           | [(png & r & evs & _ & _ & _ & _ & H & _)
             | (png & r & evs & pre & d & post & _ & Hd & Hs & _ & _ & _ & H & _)]]]];
    unfold runs_to in H; rewrite H in Hrun; try discriminate Hrun.
  injection Hrun as <- _.
  destruct r as [[[url fid] size] mime].
  exists (photo_of (url, fid, size, mime) new_id now), png.
  destruct (upload_photo_returns X svc _ _ _ _ _ _ _ Hs) as (Hurl & Hfid & _ & _).
  cbn [UploadResponse.photo photo_of Photo.file_url Photo.telegram_file_id].
  split_hyps.
  - intros Hm.
    pose proof (upload_photo_mock X svc png (default "" (filename file)) "image/png"
                  (mkWorld [] []) Hm) as Hmock.
    apply runs_to_outcome in Hmock. rewrite Hmock in Hs.
    injection Hs as <- <- _ _. split; reflexivity.
  - intros Hm. now apply upload_photo_real_id with url size mime.
Qed.

Lemma uploaded_photo_has_url_and_id_witness :
  exists p,
    uploaded_photo
      (fst (RoutesAdmin.upload_photo_after Demo.online Demo.real_service "c2"
              (Demo.upload "photo.png" Demo.png_stream) "new" 99 Demo.world))
    = Some p
    /\ Photo.file_url p <> ""
    /\ exists i, Photo.telegram_file_id p = Some i.
Proof.
  destruct (RoutesAdmin.upload_photo_after Demo.online Demo.real_service "c2"
              (Demo.upload "photo.png" Demo.png_stream) "new" 99 Demo.world)
    as [[e | resp] w'] eqn:Hrun; [discriminate Hrun |].
  destruct (uploaded_photo_has_url_and_id "photos_after" Demo.online Demo.real_service
              "c2" (Demo.upload "photo.png" Demo.png_stream) "new" 99 Demo.world
              resp w' Hrun)
    as (p & png & Hp & _ & Hurl & Hid & _).
  exists p. split; [exact Hp |]. split; assumption.
Defined.

(** ** C8: removing a photo *)

Lemma mem_photo_type photo_type :
  Py.mem photo_type ["before"; "after"] = true
  <-> photo_type = "before" \/ photo_type = "after".
Proof.
  unfold Py.mem. cbn [existsb]. rewrite orb_false_r, orb_true_iff, !String.eqb_eq.
  reflexivity.
Qed.

(** [delete_photo] with one of the two photo types: the reply follows the
    matched count of its one update. *)
Lemma delete_photo_run cid pid photo_type w :
  photo_type = "before" \/ photo_type = "after" ->
  let upd := update_first cid (Pull ("photos_" +:+ photo_type) pid) (categories w) in
  runs_to (RoutesAdmin.delete_photo cid pid photo_type) w
    (if snd upd =? 0 then inl (HTTPException 404 "Category not found")
     else inr "Photo deleted successfully")
    (fst upd)
    [EvDb (UpdateOne cid (Pull ("photos_" +:+ photo_type) pid))].
Proof.
  intros Hty upd. apply mem_photo_type in Hty.
  unfold runs_to, RoutesAdmin.delete_photo, try_except, bind, update_one.
  rewrite Hty. cbn [negb]. fold upd. destruct upd as [docs n]. simpl.
  destruct (n =? 0); reflexivity.
Qed.

(** C8.  [delete_photo] with a photo type other than [before] and [after]
    replies 400 and leaves the world as it was: the store is not reached.
    With one of the two types, the reply is 404 "Category not found"
    exactly when no category has the given id, and then no document
    changes; when a category has the id and no photo of its target array
    has the photo id, the reply is the success message and every document,
    so both photo arrays of the category, is unchanged. *)
Theorem delete_photo_absent_id_is_noop cid pid photo_type w :
  let run := RoutesAdmin.delete_photo cid pid photo_type w in
  (photo_type <> "before" -> photo_type <> "after" ->
   run = (inl (HTTPException 400 "photo_type must be 'before' or 'after'"), w))
  /\ (photo_type = "before" \/ photo_type = "after" ->
      (fst run = inl (HTTPException 404 "Category not found")
       <-> forall d, In d (categories w) -> Category.id d <> cid)
      /\ ((forall d, In d (categories w) -> Category.id d <> cid) ->
          categories (snd run) = categories w)
      /\ (forall c,
             find_first cid (categories w) = Some c ->
             ~ In pid (List.map Photo.id (photos_in ("photos_" +:+ photo_type) c)) ->
             fst run = inr "Photo deleted successfully"
             /\ categories (snd run) = categories w)).
Proof.
  intros run. split.
  - intros Hb Ha. unfold run, RoutesAdmin.delete_photo, try_except.
    destruct (Py.mem photo_type ["before"; "after"]) eqn:Hmem.
    + apply mem_photo_type in Hmem. tauto.
    + reflexivity.
  - intros Hty. pose proof (delete_photo_run cid pid photo_type w Hty) as Hrun.
    cbv zeta in Hrun. unfold runs_to in Hrun. fold run in Hrun.
    set (u := Pull ("photos_" +:+ photo_type) pid) in *.
    destruct (first_match_split cid (categories w))
      as [Hno | (pre & d & post & Hsplit & Hpre & Hid)].
    + rewrite update_first_absent in Hrun by assumption. simpl in Hrun.
      rewrite Hrun. simpl. split_hyps.
      * tauto.
      * intros c Hc. rewrite find_first_absent in Hc by assumption. discriminate Hc.
    + rewrite Hsplit in Hrun. rewrite update_first_split in Hrun by assumption.
      simpl in Hrun. rewrite Hrun. simpl. split_hyps.
      * split; [discriminate |]. intros Hno. exfalso. apply (Hno d); [| exact Hid].
        rewrite Hsplit. apply in_or_app. right. now left.
      * intros Hno. exfalso. apply (Hno d); [| exact Hid].
        rewrite Hsplit. apply in_or_app. right. now left.
      * intros c Hc Habs. rewrite Hsplit in Hc.
        rewrite find_first_split in Hc by assumption. injection Hc as <-.
        split; [reflexivity |]. rewrite Hsplit. unfold u.
        now rewrite pull_absent.
Qed.

Lemma delete_photo_absent_id_is_noop_witness :
  RoutesAdmin.delete_photo "c1" "p7" "sideways" Demo.world
  = (inl (HTTPException 400 "photo_type must be 'before' or 'after'"), Demo.world)
  /\ fst (RoutesAdmin.delete_photo "c1" "p7" "after" Demo.world)
     = inr "Photo deleted successfully"
  /\ categories (snd (RoutesAdmin.delete_photo "c1" "p7" "after" Demo.world))
     = categories Demo.world
  /\ fst (RoutesAdmin.delete_photo "c9" "p7" "after" Demo.world)
     = inl (HTTPException 404 "Category not found").
Proof.
  split; [| split; [| split]].
  - apply (proj1 (delete_photo_absent_id_is_noop "c1" "p7" "sideways" Demo.world));
      discriminate.
  - apply (proj2 (delete_photo_absent_id_is_noop "c1" "p7" "after" Demo.world)
             (or_intror eq_refl)) with Demo.wedding; [reflexivity |].
    intros [].
  - apply (proj2 (delete_photo_absent_id_is_noop "c1" "p7" "after" Demo.world)
             (or_intror eq_refl)) with Demo.wedding; [reflexivity |].
    intros [].
  - apply (proj2 (delete_photo_absent_id_is_noop "c9" "p7" "after" Demo.world)
             (or_intror eq_refl)).
    intros d [<- | [<- | []]]; discriminate.
Defined.

(** ** C9: the five-byte upload *)

(** C9, as the claim has it, fails: five bytes are not an empty file.  The
    upload handler rejects them at the decode step, and
    [validate_and_read_upload] accepts them. *)
Lemma five_byte_upload_is_not_empty :
  let file := Demo.upload "x.png" Demo.five_bytes in
  len (payload file) = 5
  /\ fst (RoutesAdmin.upload_photo_before Demo.offline Demo.mock_service "c1" file
            "new" 99 Demo.world)
     = inl (HTTPException 400 "Invalid image file: cannot identify image file")
  /\ fst (RoutesAdmin.upload_photo_before Demo.offline Demo.mock_service "c1" file
            "new" 99 Demo.world)
     <> inl (HTTPException 400 "File is empty")
  /\ fst (FileHandler.validate_and_read_upload Demo.offline file Demo.world)
     = inr (Demo.five_bytes, Some "image/png", "x.png").
Proof. repeat split; try reflexivity. discriminate. Qed.

(** C9 (amended).  A five-byte payload that Pillow does not open, uploaded
    as [x.png] with the declared type [image/png], is rejected by the upload
    handlers with 400 "Invalid image file: <reason>", after the one attempt
    to open it and before any storage call; [validate_and_read_upload]
    returns it as it is, without sniffing its content.  The reply "File is
    empty" comes from [validate_and_read_upload] alone, exactly for a
    payload of length zero, and before any sniffing. *)
Theorem five_byte_upload_rejected_by_decoder X content msg :
  len content = 5 ->
  Image_open X content = inl msg ->
  let file := mkUploadFile (Some "x.png") (Some "image/png") content in
  (forall field svc cid new_id now w,
      runs_to (RoutesAdmin.upload_photo_to field X svc cid file new_id now) w
              (inl (HTTPException 400 ("Invalid image file: " +:+ msg)))
              (categories w) [EvImageOpen content; EvFileRead])
  /\ (forall w,
         runs_to (FileHandler.validate_and_read_upload X file) w
                 (inr (content, Some "image/png", "x.png")) (categories w) [EvFileRead])
  /\ (forall file' w,
         fst (FileHandler.validate_and_read_upload X file' w)
         = inl (HTTPException 400 "File is empty")
         <-> len (payload file') = 0)
  /\ (forall file' w,
         len (payload file') = 0 ->
         runs_to (FileHandler.validate_and_read_upload X file') w
                 (inl (HTTPException 400 "File is empty")) (categories w) [EvFileRead]).
Proof.
  intros Hlen Hopen file. split_hyps.
  - intros field svc cid new_id now w.
    unfold runs_to, RoutesAdmin.upload_photo_to, RoutesAdmin.ensure_valid_png,
      try_except, bind, emit, raise.
    cbn [FileHandler.validate_file file payload]. simpl. rewrite Hopen. reflexivity.
  - intros w. apply validate_and_read_declared_png; try reflexivity.
    cbn [payload file]. unfold FileHandler.MAX_FILE_SIZE. lia.
  - intros file' w. split.
    + apply validate_and_read_empty_only.
    + intros Hz. now rewrite (validate_and_read_empty X file' w Hz).
  - intros file' w. apply validate_and_read_empty.
Qed.

Lemma five_byte_upload_rejected_by_decoder_witness :
  runs_to (RoutesAdmin.upload_photo_before Demo.offline Demo.mock_service "c1"
             (Demo.upload "x.png" Demo.five_bytes) "new" 99)
          Demo.world
          (inl (HTTPException 400 "Invalid image file: cannot identify image file"))
          (categories Demo.world) [EvImageOpen Demo.five_bytes; EvFileRead].
Proof.
  apply (proj1 (five_byte_upload_rejected_by_decoder Demo.offline Demo.five_bytes
                  "cannot identify image file" eq_refl eq_refl)).
Defined.

(** ** C10: what a successful upload changes *)

(** C10.  When [upload_photo_before] succeeds, the documents before the
    first category with the given id and those after it are unchanged, and
    that category keeps its id, name, [photos_after], sentences and creation
    time, its [photos_before] being the former list followed by the photo of
    the reply.  [upload_photo_after] does the same with the two arrays
    exchanged. *)
Theorem upload_changes_one_array X svc cid file new_id now w resp w' :
  (RoutesAdmin.upload_photo_before X svc cid file new_id now w = (inr resp, w') ->
   exists pre c post p,
     categories w = pre ++ c :: post
     /\ (forall x, In x pre -> Category.id x <> cid)
     /\ Category.id c = cid
     /\ UploadResponse.photo resp = Some p
     /\ categories w'
        = pre ++ Category.mk (Category.id c) (Category.name c)
                   (Category.photos_before c ++ [p]) (Category.photos_after c)
                   (Category.sentences c) (Category.created_at c) :: post)
  /\ (RoutesAdmin.upload_photo_after X svc cid file new_id now w = (inr resp, w') ->
      exists pre c post p,
        categories w = pre ++ c :: post
        /\ (forall x, In x pre -> Category.id x <> cid)
        /\ Category.id c = cid
        /\ UploadResponse.photo resp = Some p
        /\ categories w'
           = pre ++ Category.mk (Category.id c) (Category.name c)
                      (Category.photos_before c) (Category.photos_after c ++ [p])
                      (Category.sentences c) (Category.created_at c) :: post).
Proof.
  split; intros Hrun.
  - destruct (upload_outcomes "photos_before" X svc cid file new_id now w)
      as [(err & _ & H)
         | [(e' & evs & _ & _ & H & _)
           | [(png & msg & evs & _ & _ & _ & H & _)
             | [(png & r & evs & _ & _ & _ & _ & H & _)
               | (png & r & evs & pre & d & post & _ & _ & _ & Hsplit & Hpre & Hid & H & _)]]]];
      unfold runs_to in H; fold RoutesAdmin.upload_photo_before in H;
      rewrite H in Hrun; try discriminate Hrun.
    injection Hrun as <- <-.
    exists pre, d, post, (photo_of r new_id now). split_hyps.
  - destruct (upload_outcomes "photos_after" X svc cid file new_id now w)
      as [(err & _ & H)
         | [(e' & evs & _ & _ & H & _)
           | [(png & msg & evs & _ & _ & _ & H & _)
             | [(png & r & evs & _ & _ & _ & _ & H & _)
               | (png & r & evs & pre & d & post & _ & _ & _ & Hsplit & Hpre & Hid & H & _)]]]];
      unfold runs_to in H; fold RoutesAdmin.upload_photo_after in H;
      rewrite H in Hrun; try discriminate Hrun.
    injection Hrun as <- <-.
    exists pre, d, post, (photo_of r new_id now). split_hyps.
Qed.

Lemma upload_changes_one_array_witness :
  exists p,
    categories
      (snd (RoutesAdmin.upload_photo_before Demo.offline Demo.mock_service "c2"
              (Demo.upload "photo.png" Demo.jpeg_stream) "new" 99 Demo.world))
    = [Demo.wedding;
       Category.mk "c2" "Trip" [p] [Demo.photo7] [] "2024-02-01T00:00:00+00:00"].
Proof.
  destruct (RoutesAdmin.upload_photo_before Demo.offline Demo.mock_service "c2"
              (Demo.upload "photo.png" Demo.jpeg_stream) "new" 99 Demo.world)
    as [[e | resp] w'] eqn:Hrun; [discriminate Hrun |].
  destruct (proj1 (upload_changes_one_array Demo.offline Demo.mock_service "c2"
                     (Demo.upload "photo.png" Demo.jpeg_stream) "new" 99 Demo.world
                     resp w') Hrun)
    as (pre & c & post & p & Hsplit & Hpre & Hid & _ & Hw').
  exists p. cbn [snd]. rewrite Hw'.
  destruct pre as [| x pre].
  - injection Hsplit as <- <-. discriminate Hid.
  - injection Hsplit as <- Hrest. destruct pre as [| y pre].
    + injection Hrest as <- <-. reflexivity.
    + injection Hrest as _ Hrest. now destruct pre.
Defined.

(** * Further properties of the upload and delete handlers *)

(** ** Removing a photo, in general *)

Lemma field_is_before_after :
  field_is "photos_before" "photos_after" = false.
Proof. reflexivity. Qed.

Lemma photo_field_cases photo_type :
  photo_type = "before" \/ photo_type = "after" ->
  "photos_" +:+ photo_type = "photos_before"
  \/ "photos_" +:+ photo_type = "photos_after".
Proof. intros [-> | ->]; [left | right]; reflexivity. Qed.

(** What [$pull] does to a category, array by array. *)
Lemma pull_photos field pid c field' :
  field = "photos_before" \/ field = "photos_after" ->
  photos_in field' (apply_update (Pull field pid) c)
  = if String.eqb field' field
    then List.filter (keeps pid) (photos_in field' c)
    else photos_in field' c.
Proof.
  intros Hf. unfold apply_update, photos_in, field_is.
  destruct (String.eqb_spec "photos_before" field) as [Hb | Hb];
    destruct (String.eqb_spec "photos_after" field) as [Ha | Ha];
    destruct (String.eqb_spec "photos_before" field') as [Hb' | Hb'];
    destruct (String.eqb_spec "photos_after" field') as [Ha' | Ha'];
    destruct (String.eqb_spec field' field) as [He | He];
    cbn [Category.photos_before Category.photos_after];
    try reflexivity; try congruence; destruct Hf; congruence.
Qed.

Lemma pull_keeps_rest field pid c :
  Category.id (apply_update (Pull field pid) c) = Category.id c
  /\ Category.name (apply_update (Pull field pid) c) = Category.name c
  /\ Category.sentences (apply_update (Pull field pid) c) = Category.sentences c
  /\ Category.created_at (apply_update (Pull field pid) c) = Category.created_at c.
Proof.
  unfold apply_update.
  destruct (field_is "photos_before" field); [now repeat split |].
  destruct (field_is "photos_after" field); now repeat split.
Qed.

Lemma filter_keeps_no_id pid (l : list Photo.t) :
  ~ In pid (List.map Photo.id (List.filter (keeps pid) l)).
Proof.
  induction l as [| p l IH]; simpl; [tauto |].
  unfold keeps at 1. destruct (String.eqb_spec (Photo.id p) pid) as [Heq | Hne]; simpl.
  - exact IH.
  - intros [H | H]; [contradiction | now apply IH].
Qed.

Lemma filter_keeps_idem pid (l : list Photo.t) :
  List.filter (keeps pid) (List.filter (keeps pid) l) = List.filter (keeps pid) l.
Proof.
  induction l as [| p l IH]; simpl; [reflexivity |].
  destruct (keeps pid p) eqn:Hk; simpl; [rewrite Hk; now f_equal | exact IH].
Qed.

(** X1.  [delete_photo] with a valid photo type, on a category that exists:
    the reply is the success message; the first category with the id loses
    every photo of the named array whose id is the given one (all of them,
    not the first only), the photos that stay keep their order, the other
    array and every other field and document are unchanged. *)
Theorem delete_photo_removes_every_match cid pid photo_type w c :
  photo_type = "before" \/ photo_type = "after" ->
  find_first cid (categories w) = Some c ->
  let field := "photos_" +:+ photo_type in
  let run := RoutesAdmin.delete_photo cid pid photo_type w in
  fst run = inr "Photo deleted successfully"
  /\ exists pre post c',
       categories w = pre ++ c :: post
       /\ categories (snd run) = pre ++ c' :: post
       /\ photos_in field c' = List.filter (keeps pid) (photos_in field c)
       /\ ~ In pid (List.map Photo.id (photos_in field c'))
       /\ (forall other, other <> field -> photos_in other c' = photos_in other c)
       /\ Category.id c' = Category.id c /\ Category.name c' = Category.name c
       /\ Category.sentences c' = Category.sentences c
       /\ Category.created_at c' = Category.created_at c.
Proof.
  intros Hty Hfind field run.
  pose proof (delete_photo_run cid pid photo_type w Hty) as Hrun.
  cbv zeta in Hrun. unfold runs_to in Hrun. fold run field in Hrun.
  destruct (first_match_split cid (categories w))
    as [Hno | (pre & d & post & Hsplit & Hpre & Hid)].
  { rewrite find_first_absent in Hfind by assumption. discriminate Hfind. }
  rewrite Hsplit in Hfind. rewrite find_first_split in Hfind by assumption.
  injection Hfind as <-.
  rewrite Hsplit in Hrun. rewrite update_first_split in Hrun by assumption.
  simpl in Hrun. rewrite Hrun. simpl. split; [reflexivity |].
  exists pre, post, (apply_update (Pull field pid) d).
  assert (Hf : field = "photos_before" \/ field = "photos_after")
    by now apply photo_field_cases.
  destruct (pull_keeps_rest field pid d) as (H1 & H2 & H3 & H4).
  split_hyps.
  - rewrite pull_photos by assumption. now rewrite String.eqb_refl.
  - rewrite pull_photos by assumption. rewrite String.eqb_refl.
    apply filter_keeps_no_id.
  - intros other Hother. rewrite pull_photos by assumption.
    destruct (String.eqb_spec other field); [contradiction | reflexivity].
Qed.

Lemma delete_photo_removes_every_match_witness :
  List.map Category.photos_before
    (categories (snd (RoutesAdmin.delete_photo "c1" "p7" "before" Demo.world)))
  = [[]; []]
  /\ fst (RoutesAdmin.delete_photo "c1" "p7" "before" Demo.world)
     = inr "Photo deleted successfully".
Proof.
  destruct (delete_photo_removes_every_match "c1" "p7" "before" Demo.world
              Demo.wedding (or_introl eq_refl) eq_refl)
    as (Hreply & pre & post & c' & _ & Hafter & _).
  split; [| exact Hreply]. reflexivity.
Defined.

(** X2.  Running [delete_photo] a second time with the same arguments gives
    the same reply as the first run and changes no document: the removal is
    idempotent, whatever the photo type, the category and the photo id. *)
Theorem delete_photo_twice cid pid photo_type w :
  let first := RoutesAdmin.delete_photo cid pid photo_type w in
  let second := RoutesAdmin.delete_photo cid pid photo_type (snd first) in
  fst second = fst first /\ categories (snd second) = categories (snd first).
Proof.
  intros first second.
  destruct (Py.mem photo_type ["before"; "after"]) eqn:Hmem.
  2:{ assert (Hbad : forall w0, RoutesAdmin.delete_photo cid pid photo_type w0
                = (inl (HTTPException 400 "photo_type must be 'before' or 'after'"), w0)).
      { intros w0. unfold RoutesAdmin.delete_photo, try_except. now rewrite Hmem. }
      unfold second, first. rewrite !Hbad. now split. }
  apply mem_photo_type in Hmem.
  pose proof (delete_photo_run cid pid photo_type w Hmem) as H1.
  cbv zeta in H1. unfold runs_to in H1. fold first in H1.
  pose proof (delete_photo_run cid pid photo_type (snd first) Hmem) as H2.
  cbv zeta in H2. unfold runs_to in H2. fold second in H2.
  set (field := "photos_" +:+ photo_type) in *.
  assert (Hf : field = "photos_before" \/ field = "photos_after")
    by now apply photo_field_cases.
  destruct (first_match_split cid (categories w))
    as [Hno | (pre & d & post & Hsplit & Hpre & Hid)].
  - rewrite update_first_absent in H1 by assumption. simpl in H1.
    rewrite H1 in H2. simpl in H2.
    rewrite update_first_absent in H2 by assumption. simpl in H2.
    rewrite H2, H1. now split.
  - rewrite Hsplit in H1. rewrite update_first_split in H1 by assumption.
    simpl in H1. rewrite H1 in H2. simpl in H2.
    destruct (pull_keeps_rest field pid d) as (Hid' & _).
    rewrite update_first_split in H2 by (trivial; congruence).
    simpl in H2. rewrite H2, H1. simpl. split; [reflexivity |].
    f_equal. f_equal.
    set (d1 := apply_update (Pull field pid) d).
    assert (Hb : Category.photos_before (apply_update (Pull field pid) d1)
                 = Category.photos_before d1).
    { pose proof (pull_photos field pid d1 "photos_before" Hf) as Hp1.
      pose proof (pull_photos field pid d "photos_before" Hf) as Hp0.
      unfold photos_in, field_is in Hp1, Hp0.
      change (String.eqb "photos_before" "photos_before") with true in Hp1, Hp0.
      cbv iota in Hp1, Hp0. fold d1 in Hp0. rewrite Hp1.
      destruct (String.eqb "photos_before" field); [| reflexivity].
      rewrite Hp0. apply filter_keeps_idem. }
    assert (Ha : Category.photos_after (apply_update (Pull field pid) d1)
                 = Category.photos_after d1).
    { pose proof (pull_photos field pid d1 "photos_after" Hf) as Hp1.
      pose proof (pull_photos field pid d "photos_after" Hf) as Hp0.
      unfold photos_in, field_is in Hp1, Hp0.
      change (String.eqb "photos_before" "photos_after") with false in Hp1, Hp0.
      change (String.eqb "photos_after" "photos_after") with true in Hp1, Hp0.
      cbv iota in Hp1, Hp0. fold d1 in Hp0. rewrite Hp1.
      destruct (String.eqb "photos_after" field); [| reflexivity].
      rewrite Hp0. apply filter_keeps_idem. }
    destruct (pull_keeps_rest field pid d1) as (H3 & H4 & H5 & H6).
    destruct (apply_update (Pull field pid) d1), d1. simpl in *. congruence.
Qed.

(** ** An upload followed by other requests *)

(** [$pull] of the id of a photo that [$push] has just added, when no
    earlier photo of the array has that id, gives the category back. *)
Lemma pull_after_push field p c :
  field = "photos_before" \/ field = "photos_after" ->
  ~ In (Photo.id p) (List.map Photo.id (photos_in field c)) ->
  apply_update (Pull field (Photo.id p)) (apply_update (Push field p) c) = c.
Proof.
  assert (Hkeep : forall l : list Photo.t,
             ~ In (Photo.id p) (List.map Photo.id l) ->
             List.filter (keeps (Photo.id p)) (l ++ [p]) = l).
  { intros l Hno. rewrite List.filter_app. simpl. unfold keeps at 2.
    rewrite String.eqb_refl. simpl. rewrite app_nil_r.
    induction l as [| q l IH]; simpl; [reflexivity |].
    unfold keeps at 1.
    destruct (String.eqb_spec (Photo.id q) (Photo.id p)) as [Heq | _]; simpl.
    - exfalso. apply Hno. now left.
    - rewrite IH; [reflexivity |]. intros Hin. apply Hno. now right. }
  unfold apply_update, photos_in, field_is.
  intros [-> | ->] Hno.
  - change (String.eqb "photos_before" "photos_before") with true in *. cbv iota in *.
    cbn [Category.photos_before Category.photos_after Category.id Category.name
         Category.sentences Category.created_at].
    fold (keeps (Photo.id p)). rewrite Hkeep by assumption. now destruct c.
  - change (String.eqb "photos_before" "photos_after") with false in *.
    change (String.eqb "photos_after" "photos_after") with true in *. cbv iota in *.
    cbn [Category.photos_before Category.photos_after Category.id Category.name
         Category.sentences Category.created_at].
    fold (keeps (Photo.id p)). rewrite Hkeep by assumption. now destruct c.
Qed.

Lemma push_keeps_id field p c :
  Category.id (apply_update (Push field p) c) = Category.id c.
Proof.
  unfold apply_update.
  destruct (field_is "photos_before" field); [reflexivity |].
  destruct (field_is "photos_after" field); reflexivity.
Qed.

Lemma photo_of_id r new_id now : Photo.id (photo_of r new_id now) = new_id.
Proof. now destruct r as [[[url fid] size] mime]. Qed.

(** X3.  Removing the photo that an upload has just recorded undoes the
    upload: when the upload succeeds and the id drawn for the photo is not
    the id of a photo already in the array, [delete_photo] with that id and
    the photo type of the handler replies with the success message and
    leaves the documents exactly as they were before the upload. *)
Theorem upload_then_delete_restores photo_type X svc cid file new_id now w resp w1 :
  photo_type = "before" \/ photo_type = "after" ->
  RoutesAdmin.upload_photo_to ("photos_" +:+ photo_type) X svc cid file new_id now w
  = (inr resp, w1) ->
  (forall c, find_first cid (categories w) = Some c ->
             ~ In new_id (List.map Photo.id (photos_in ("photos_" +:+ photo_type) c))) ->
  fst (RoutesAdmin.delete_photo cid new_id photo_type w1)
  = inr "Photo deleted successfully"
  /\ categories (snd (RoutesAdmin.delete_photo cid new_id photo_type w1))
     = categories w.
Proof.
  intros Hty Hup Hfresh.
  set (field := "photos_" +:+ photo_type) in *.
  assert (Hf : field = "photos_before" \/ field = "photos_after")
    by now apply photo_field_cases.
  destruct (upload_outcomes field X svc cid file new_id now w)
    as [(err & _ & H)
       | [(e' & evs & _ & _ & H & _)
         | [(png & msg & evs & _ & _ & _ & H & _)
           | [(png & r & evs & _ & _ & _ & _ & H & _)
             | (png & r & evs & pre & d & post & _ & _ & _ & Hsplit & Hpre & Hid & H & _)]]]];
    unfold runs_to in H; rewrite H in Hup; try discriminate Hup.
  injection Hup as _ <-.
  pose proof (delete_photo_run cid new_id photo_type
                (mkWorld (pre ++ apply_update (Push field (photo_of r new_id now)) d :: post)
                   ((EvDb (UpdateOne cid (Push field (photo_of r new_id now))) :: evs)
                      ++ trace w)) Hty) as Hdel.
  cbv zeta in Hdel. unfold runs_to in Hdel. fold field in Hdel.
  cbn [categories] in Hdel.
  rewrite update_first_split in Hdel
    by (trivial; rewrite push_keeps_id; exact Hid).
  simpl in Hdel. rewrite Hdel. simpl. split; [reflexivity |].
  rewrite Hsplit. f_equal. f_equal.
  rewrite <- (photo_of_id r new_id now) at 1.
  apply pull_after_push; [exact Hf |].
  rewrite photo_of_id. apply Hfresh.
  rewrite Hsplit. now apply find_first_split.
Qed.

Lemma upload_then_delete_restores_witness :
  let up :=
    RoutesAdmin.upload_photo_before Demo.offline Demo.mock_service "c1"
      (Demo.upload "photo.png" Demo.jpeg_stream) "new" 99 Demo.world in
  categories (snd (RoutesAdmin.delete_photo "c1" "new" "before" (snd up)))
  = categories Demo.world.
Proof.
  intros up.
  destruct up as [[e | resp] w1] eqn:Hup; [discriminate Hup |].
  apply (upload_then_delete_restores "before" Demo.offline Demo.mock_service "c1"
           (Demo.upload "photo.png" Demo.jpeg_stream) "new" 99 Demo.world resp w1
           (or_introl eq_refl) Hup).
  intros c [= <-]. simpl. intros [H | []]. discriminate H.
Defined.

(** What [$push] does to a category, array by array. *)
Lemma push_photos field p c field' :
  field = "photos_before" \/ field = "photos_after" ->
  photos_in field' (apply_update (Push field p) c)
  = if String.eqb field' field then photos_in field' c ++ [p] else photos_in field' c.
Proof.
  intros Hf. unfold apply_update, photos_in, field_is.
  destruct (String.eqb_spec "photos_before" field) as [Hb | Hb];
    destruct (String.eqb_spec "photos_after" field) as [Ha | Ha];
    destruct (String.eqb_spec "photos_before" field') as [Hb' | Hb'];
    destruct (String.eqb_spec "photos_after" field') as [Ha' | Ha'];
    destruct (String.eqb_spec field' field) as [He | He];
    cbn [Category.photos_before Category.photos_after];
    try reflexivity; try congruence; destruct Hf; congruence.
Qed.

(** X4.  Two uploads to the same category and array, one after the other,
    both successful: the array ends with the photo of the first reply
    followed by the photo of the second, after the photos it had; the other
    array of the category and the documents around it are unchanged. *)
Theorem two_uploads_append_in_order
    field X svc cid file1 id1 now1 file2 id2 now2 w resp1 w1 resp2 w2 :
  field = "photos_before" \/ field = "photos_after" ->
  RoutesAdmin.upload_photo_to field X svc cid file1 id1 now1 w = (inr resp1, w1) ->
  RoutesAdmin.upload_photo_to field X svc cid file2 id2 now2 w1 = (inr resp2, w2) ->
  exists pre c post p1 p2 c2,
    categories w = pre ++ c :: post
    /\ find_first cid (categories w) = Some c
    /\ UploadResponse.photo resp1 = Some p1
    /\ UploadResponse.photo resp2 = Some p2
    /\ categories w2 = pre ++ c2 :: post
    /\ photos_in field c2 = photos_in field c ++ [p1; p2]
    /\ (forall other, other <> field -> photos_in other c2 = photos_in other c).
Proof.
  intros Hf Hup1 Hup2.
  destruct (upload_outcomes field X svc cid file1 id1 now1 w)
    as [(err & _ & H)
       | [(e' & evs & _ & _ & H & _)
         | [(png & msg & evs & _ & _ & _ & H & _)
           | [(png & r & evs & _ & _ & _ & _ & H & _)
             | (png & r & evs & pre & d & post & _ & _ & _ & Hsplit & Hpre & Hid & H & _)]]]];
    unfold runs_to in H; rewrite H in Hup1; try discriminate Hup1.
  injection Hup1 as <- <-.
  set (p1 := photo_of r id1 now1) in *.
  set (w1 := mkWorld (pre ++ apply_update (Push field p1) d :: post) _) in *.
  destruct (upload_outcomes field X svc cid file2 id2 now2 w1)
    as [(err & _ & H2)
       | [(e' & evs2 & _ & _ & H2 & _)
         | [(png2 & msg & evs2 & _ & _ & _ & H2 & _)
           | [(png2 & r2 & evs2 & _ & _ & _ & _ & H2 & _)
             | (png2 & r2 & evs2 & pre2 & d2 & post2 & Hv & Hd & Hs & _)]]]];
    try (unfold runs_to in H2; rewrite H2 in Hup2; discriminate Hup2).
  destruct (upload_reaches_store field X svc cid file2 id2 now2 png2 r2 w1 Hv Hd Hs)
    as (evs3 & Hrun & _).
  unfold runs_to in Hrun. rewrite Hrun in Hup2. clear Hrun.
  unfold w1 in Hup2. cbn [categories] in Hup2.
  rewrite update_first_split in Hup2
    by (trivial; rewrite push_keeps_id; exact Hid).
  simpl in Hup2. injection Hup2 as <- <-.
  set (p2 := photo_of r2 id2 now2).
  exists pre, d, post, p1, p2,
    (apply_update (Push field p2) (apply_update (Push field p1) d)).
  split_hyps.
  - rewrite Hsplit. now apply find_first_split.
  - rewrite !push_photos by assumption. rewrite String.eqb_refl.
    now rewrite <- app_assoc.
  - intros other Hother. rewrite !push_photos by assumption.
    destruct (String.eqb_spec other field); [contradiction | reflexivity].
Qed.

Lemma two_uploads_append_in_order_witness :
  let w1 :=
    snd (RoutesAdmin.upload_photo_after Demo.offline Demo.mock_service "c2"
           (Demo.upload "a.png" Demo.jpeg_stream) "n1" 1 Demo.world) in
  let run2 :=
    RoutesAdmin.upload_photo_after Demo.offline Demo.mock_service "c2"
      (Demo.upload "b.png" Demo.png_stream) "n2" 2 w1 in
  exists pre post p1 p2 c2,
    categories (snd run2) = pre ++ c2 :: post
    /\ Category.photos_after c2 = [Demo.photo7; p1; p2].
Proof.
  intros w1 run2. subst run2 w1.
  unfold RoutesAdmin.upload_photo_after.
  destruct (RoutesAdmin.upload_photo_to "photos_after" Demo.offline Demo.mock_service
              "c2" (Demo.upload "a.png" Demo.jpeg_stream) "n1" 1 Demo.world)
    as [[e | resp1] w1] eqn:H1; [discriminate H1 |].
  cbn [snd].
  destruct (RoutesAdmin.upload_photo_to "photos_after" Demo.offline Demo.mock_service
              "c2" (Demo.upload "b.png" Demo.png_stream) "n2" 2 w1)
    as [[e | resp2] w2] eqn:H2;
    [injection H1 as _ <-; discriminate H2 |].
  destruct (two_uploads_append_in_order "photos_after" Demo.offline
              Demo.mock_service "c2" _ _ _ _ _ _ _ _ _ _ _
              (or_intror eq_refl) H1 H2)
    as (pre & c & post & p1 & p2 & c2 & _ & Hfind & _ & _ & Hw2 & Hphotos & _).
  injection Hfind as <-.
  exists pre, post, p1, p2, c2. split; [exact Hw2 | exact Hphotos].
Defined.

(** ** The real backend *)

Section RealBackend.
Context (X : Externals) (svc : TelegramService.t).
Implicit Types (c : bytes) (f m : string) (w : World).

Lemma get_file_url_some file_id url :
  outcome (TelegramService._get_file_url X svc file_id) = inr (Some url) ->
  exists reply result file_path,
    get_getFile X (TelegramService.base_url svc +:+ "/getFile?file_id=" +:+ file_id)
    = HttpReplied reply
    /\ status reply = 200
    /\ json reply = inr result
    /\ gf_ok result = true
    /\ gf_file_path result = inr file_path
    /\ url = "https://api.telegram.org/file/bot"
               +:+ TelegramService.bot_token svc +:+ "/" +:+ file_path.
Proof.
  unfold outcome, TelegramService._get_file_url, bind, emit, ret. simpl.
  destruct (get_getFile X _) as [e | reply]; [discriminate |].
  destruct (Z.eqb_spec (status reply) 200) as [Hst | _]; [| discriminate].
  destruct (json reply) as [e | result] eqn:Hj; [discriminate |].
  destruct (gf_ok result) eqn:Hok; [| discriminate].
  destruct (gf_file_path result) as [e | file_path] eqn:Hp; [discriminate |].
  intros [= <-]. now exists reply, result, file_path.
Qed.

(** X5.  [_get_file_url] never raises and never touches the documents:
    whatever the remote API does (no answer, a status other than 200, a body
    that is not JSON, [ok] false, no [file_path]), it makes its one GET and
    returns [None], or returns the URL built from the bot token and the
    [file_path] of a 200 reply with [ok] true. *)
Theorem get_file_url_never_raises file_id w :
  exists o,
    runs_to (TelegramService._get_file_url X svc file_id) w (inr o) (categories w)
      [EvHttpGet (TelegramService.base_url svc +:+ "/getFile?file_id=" +:+ file_id)]
    /\ (forall url,
           o = Some url ->
           exists reply result file_path,
             get_getFile X
               (TelegramService.base_url svc +:+ "/getFile?file_id=" +:+ file_id)
             = HttpReplied reply
             /\ status reply = 200 /\ json reply = inr result
             /\ gf_ok result = true /\ gf_file_path result = inr file_path
             /\ url = "https://api.telegram.org/file/bot"
                        +:+ TelegramService.bot_token svc +:+ "/" +:+ file_path).
Proof.
  pose proof (get_file_url_run X svc file_id w) as Hrun.
  destruct (get_file_url_outcome X svc file_id) as (o & Ho & _).
  rewrite Ho in Hrun. exists o. split; [exact Hrun |].
  intros url ->. now apply get_file_url_some.
Qed.

(** X6.  In real mode one call of [upload_photo] makes exactly one POST to
    [sendPhoto], never a second one, and at most one GET to [getFile], made
    after the POST; it changes no document. *)
Theorem real_upload_posts_once c f m w :
  TelegramService.mock_mode svc = false ->
  let post := EvHttpPost (TelegramService.base_url svc +:+ "/sendPhoto")
                (TelegramService.file_channel_id svc) c f m in
  exists evs,
    runs_to (TelegramService.upload_photo X svc c f m) w
            (outcome (TelegramService.upload_photo X svc c f m)) (categories w) evs
    /\ (http_calls evs = [post]
        \/ exists file_id,
             http_calls evs
             = [EvHttpGet (TelegramService.base_url svc
                             +:+ "/getFile?file_id=" +:+ file_id); post]).
Proof.
  intros Hm post.
  unfold runs_to, outcome, TelegramService.upload_photo,
    bind, emit, try_except, raise, ret.
  simpl. rewrite Hm. fold post.
  destruct (post_sendPhoto X _ _ _ _ _) as [e | resp]; simpl.
  { exists [post; EvStorageUpload c f m]. split; [reflexivity | now left]. }
  destruct (status resp =? 200);
    [| rewrite !api_error_run; exists [post; EvStorageUpload c f m];
       split; [reflexivity | now left]].
  destruct (json resp) as [e | result]; simpl.
  { exists [post; EvStorageUpload c f m]. split; [reflexivity | now left]. }
  destruct (sp_ok result);
    [| rewrite !api_error_run; exists [post; EvStorageUpload c f m];
       split; [reflexivity | now left]].
  destruct (sp_sizes result) as [e | [| s0 sizes]]; simpl.
  { exists [post; EvStorageUpload c f m]. split; [reflexivity | now left]. }
  { exists [post; EvStorageUpload c f m]. split; [reflexivity | now left]. }
  set (fid := List.last sizes s0).
  rewrite (get_file_url_run X svc fid
             (mkWorld (categories w) (post :: EvStorageUpload c f m :: trace w))).
  rewrite (get_file_url_run X svc fid (mkWorld [] [post; EvStorageUpload c f m])).
  destruct (get_file_url_outcome X svc fid) as (o & -> & _).
  simpl.
  exists [EvHttpGet (TelegramService.base_url svc +:+ "/getFile?file_id=" +:+ fid);
          post; EvStorageUpload c f m].
  destruct (negb (Py.truthy o)); simpl; (split; [reflexivity | right; now exists fid]).
Qed.

(** X7.  In real mode the URL of a storage result is never an inline data
    URL: it is [https://api.telegram.org/file/bot<token>/<file_path>], with
    the bot token of the service in it and the [file_path] that [getFile]
    returned for the [file_id] of the result. *)
Theorem real_upload_url_carries_token c f m url file_id size mime :
  TelegramService.mock_mode svc = false ->
  outcome (TelegramService.upload_photo X svc c f m)
  = inr (url, Some file_id, size, mime) ->
  exists reply result file_path,
    get_getFile X (TelegramService.base_url svc +:+ "/getFile?file_id=" +:+ file_id)
    = HttpReplied reply
    /\ json reply = inr result
    /\ gf_file_path result = inr file_path
    /\ url = "https://api.telegram.org/file/bot"
               +:+ TelegramService.bot_token svc +:+ "/" +:+ file_path.
Proof.
  intros Hm.
  unfold outcome, TelegramService.upload_photo, bind, emit, try_except, raise, ret.
  simpl. rewrite Hm.
  destruct (post_sendPhoto X _ _ _ _ _) as [e0 | resp]; simpl; [discriminate |].
  destruct (status resp =? 200); [| rewrite api_error_run; discriminate].
  destruct (json resp) as [e0 | result]; simpl; [discriminate |].
  destruct (sp_ok result); [| rewrite api_error_run; discriminate].
  destruct (sp_sizes result) as [e0 | [| s0 sizes]]; simpl; try discriminate.
  set (fid0 := List.last sizes s0).
  rewrite (get_file_url_run X svc fid0 (mkWorld [] [_; _])).
  destruct (outcome (TelegramService._get_file_url X svc fid0)) as [e | o] eqn:Ho.
  { destruct (get_file_url_outcome X svc fid0) as (o & Ho' & _). congruence. }
  simpl. destruct o as [u |]; simpl; [| discriminate].
  destruct (negb (Py.truthy (Some u))); simpl; [discriminate |].
  intros [= <- <- _ _].
  destruct (get_file_url_some fid0 u Ho)
    as (reply & result' & file_path & Hget & _ & Hj & _ & Hp & Hu).
  now exists reply, result', file_path.
Qed.

End RealBackend.

Lemma real_upload_posts_once_witness :
  exists evs,
    runs_to (TelegramService.upload_photo Demo.online Demo.real_service
               Demo.png_stream "a.png" "image/png")
            Demo.world
            (inr ("https://api.telegram.org/file/bot4242:secret/photos/file_7.png",
                  Some "large-id", 9, "image/png"))
            (categories Demo.world) evs
    /\ List.length (http_calls evs) = 2%nat.
Proof.
  destruct (real_upload_posts_once Demo.online Demo.real_service Demo.png_stream
              "a.png" "image/png" Demo.world eq_refl)
    as (evs & Hrun & [Hcalls | (fid & Hcalls)]).
  - exfalso. unfold runs_to in Hrun.
    apply (f_equal (fun r => List.length (http_calls (trace (snd r))))) in Hrun.
    cbn [snd trace] in Hrun. rewrite app_nil_r, Hcalls in Hrun. discriminate Hrun.
  - exists evs. split; [exact Hrun | now rewrite Hcalls].
Defined.

Lemma real_upload_url_carries_token_witness :
  exists file_path,
    "https://api.telegram.org/file/bot4242:secret/photos/file_7.png"
    = "https://api.telegram.org/file/bot"
        +:+ TelegramService.bot_token Demo.real_service +:+ "/" +:+ file_path.
Proof.
  destruct (real_upload_url_carries_token Demo.online Demo.real_service
              Demo.png_stream "a.png" "image/png"
              "https://api.telegram.org/file/bot4242:secret/photos/file_7.png"
              "large-id" 9 "image/png" eq_refl eq_refl)
    as (reply & result & file_path & _ & _ & _ & Hurl).
  now exists file_path.
Defined.

(** ** The mock backend and the recorded photo *)

Lemma append_inj_r (p a b : string) : p +:+ a = p +:+ b -> a = b.
Proof.
  induction p as [| ch p IH]; [trivial |].
  change (String ch (p +:+ a) = String ch (p +:+ b) -> a = b).
  intros [= H]. now apply IH.
Qed.

Lemma b64encode_inj (c1 c2 : bytes) :
  Base64.b64encode c1 = Base64.b64encode c2 -> c1 = c2.
Proof.
  intros H. apply (f_equal Base64.b64decode) in H.
  rewrite !b64decode_b64encode in H. now injection H.
Qed.

(** X8.  Two mock uploads under the same mime type return the same URL only
    for the same content: distinct contents always get distinct data URLs,
    whatever the filenames. *)
Theorem mock_urls_tell_contents_apart
    X1 X2 svc1 svc2 c1 c2 f1 f2 m w1 w2 url id1 id2 n1 n2 m1 m2 :
  TelegramService.mock_mode svc1 = true ->
  TelegramService.mock_mode svc2 = true ->
  fst (TelegramService.upload_photo X1 svc1 c1 f1 m w1) = inr (url, id1, n1, m1) ->
  fst (TelegramService.upload_photo X2 svc2 c2 f2 m w2) = inr (url, id2, n2, m2) ->
  c1 = c2.
Proof.
  intros Hm1 Hm2.
  rewrite (upload_photo_mock X1 svc1 c1 f1 m w1 Hm1).
  rewrite (upload_photo_mock X2 svc2 c2 f2 m w2 Hm2).
  cbn [fst]. intros [= <- _ _ _] [= Hurl _ _ _].
  apply b64encode_inj.
  apply (append_inj_r ";base64,"), (append_inj_r m), (append_inj_r "").
  now symmetry.
Qed.

Lemma mock_urls_tell_contents_apart_witness :
  Demo.of_string "abc" = Demo.of_string "abc".
Proof.
  apply (mock_urls_tell_contents_apart Demo.offline Demo.online
           Demo.mock_service Demo.mock_service
           (Demo.of_string "abc") (Demo.of_string "abc") "a.png" "b.png" "image/png"
           Demo.world Demo.world "data:image/png;base64,YWJj"
           (Some "AgACAgIAAxkBAAI_900150983cd24fb0d6963f7d28e17f72_mock")
           (Some "AgACAgIAAxkBAAI_900150983cd24fb0d6963f7d28e17f72_mock")
           3 3 "image/png" "image/png" eq_refl eq_refl eq_refl eq_refl).
Defined.

(** X9.  The photo of a successful upload carries the id and the time drawn
    for it, the mime type [image/png] whatever type the client declared, as
    size the length of the PNG bytes that Pillow saved (not the length of the
    uploaded payload), and never a [telegram_file_unique_id]; the reply has
    [success] true. *)
Theorem uploaded_photo_fields field X svc cid file new_id now w resp w' :
  RoutesAdmin.upload_photo_to field X svc cid file new_id now w = (inr resp, w') ->
  exists p png,
    UploadResponse.photo resp = Some p
    /\ UploadResponse.success resp = true
    /\ UploadResponse.message resp = "Photo uploaded successfully"
    /\ outcome (RoutesAdmin.ensure_valid_png X (payload file)) = inr png
    /\ Photo.id p = new_id
    /\ Photo.uploaded_at p = now
    /\ Photo.file_size p = Some (len png)
    /\ Photo.mime_type p = Some "image/png"
    /\ Photo.telegram_file_unique_id p = None.
Proof.
  intros Hrun.
  destruct (upload_outcomes field X svc cid file new_id now w)
    as [(err & _ & H)
       | [(e' & evs & _ & _ & H & _)
         | [(png & msg & evs & _ & _ & _ & H & _)
           | [(png & r & evs & _ & _ & _ & _ & H & _)
             | (png & r & evs & pre & d & post & _ & Hd & Hs & _ & _ & _ & H & _)]]]];
    unfold runs_to in H; rewrite H in Hrun; try discriminate Hrun.
  injection Hrun as <- _.
  destruct r as [[[url fid] size] mime].
  destruct (upload_photo_returns X svc _ _ _ _ _ _ _ Hs) as (_ & _ & -> & ->).
  exists (photo_of (url, fid, len png, "image/png") new_id now), png.
  split_hyps.
Qed.

Lemma uploaded_photo_fields_witness :
  exists p,
    uploaded_photo
      (fst (RoutesAdmin.upload_photo_before Demo.offline Demo.mock_service "c1"
              (Demo.upload "photo.png" Demo.jpeg_stream) "new" 99 Demo.world))
    = Some p
    /\ Photo.file_size p = Some 10.
Proof.
  unfold RoutesAdmin.upload_photo_before.
  destruct (RoutesAdmin.upload_photo_to "photos_before" Demo.offline Demo.mock_service
              "c1" (Demo.upload "photo.png" Demo.jpeg_stream) "new" 99 Demo.world)
    as [[e | resp] w'] eqn:Hrun; [discriminate Hrun |].
  destruct (uploaded_photo_fields _ _ _ _ _ _ _ _ _ _ Hrun)
    as (p & png & Hp & _ & _ & Hpng & _ & _ & Hsize & _).
  exists p. split; [exact Hp |].
  rewrite Hsize. injection Hpng as <-. reflexivity.
Defined.

(** ** [validate_and_read_upload], in full *)

Section FullValidation.
Context (X : Externals).

Lemma detect_mime_returns c mt w0 mt' w1 :
  FileHandler.detect_mime X c mt w0 = (inr mt', w1) ->
  (filetype_guess X = None /\ mt' = mt /\ w1 = w0)
  \/ (exists guess,
         filetype_guess X = Some guess /\ guess c = Some "image/png"
         /\ mt' = Some "image/png"
         /\ w1 = mkWorld (categories w0) (EvSniff c :: trace w0)).
Proof.
  unfold FileHandler.detect_mime, bind, emit, raise, ret.
  destruct (filetype_guess X) as [guess |]; [| intros [= <- <-]; now left].
  cbv beta. destruct (guess c) as [kind |] eqn:Hg; [| discriminate].
  rewrite mem_allowed_mime.
  destruct (String.eqb_spec kind "image/png") as [-> | _]; [| discriminate].
  intros [= <- <-]. right. now exists guess.
Qed.

(** X10.  Whatever [validate_and_read_upload] returns has passed every
    check: the content is the payload as read, of 1 byte to 10 MiB, and the
    filename is present, not empty and ends in [.png] up to case (a file
    without a name is never accepted).  The call makes no decode, storage or
    store operation and changes no document.  When [filetype] can be
    imported the returned mime type is always [image/png]. *)
Theorem validate_and_read_postcondition file w content mime name w' :
  FileHandler.validate_and_read_upload X file w = (inr (content, mime, name), w') ->
  content = payload file
  /\ 0 < len content <= FileHandler.MAX_FILE_SIZE
  /\ filename file = Some name /\ name <> ""
  /\ (exists stem, Py.lower name = stem +:+ ".png")
  /\ categories w' = categories w
  /\ (exists evs,
         trace w' = evs ++ trace w
         /\ decode_calls evs = [] /\ storage_calls evs = [] /\ db_ops evs = [])
  /\ (filetype_guess X <> None -> mime = Some "image/png").
Proof.
  unfold FileHandler.validate_and_read_upload, try_except, bind, emit, raise, ret.
  cbv beta zeta.
  destruct (Z.gtb_spec (len (payload file)) FileHandler.MAX_FILE_SIZE) as [_ | Hmax];
    [simpl; discriminate |].
  destruct (Z.eqb_spec (len (payload file)) 0) as [_ | Hnz]; [simpl; discriminate |].
  rewrite mem_allowed_extension.
  destruct (String.eqb_spec
              (FileHandler.file_ext
                 (if Py.truthy (filename file) then default "" (filename file)
                  else "unknown")) "png") as [Hext | _];
    [| simpl; discriminate].
  cbn [negb].
  assert (Hname : exists n, filename file = Some n /\ n <> ""
                            /\ FileHandler.file_ext n = "png"
                            /\ (if Py.truthy (filename file)
                                then default "" (filename file) else "unknown") = n).
  { destruct (filename file) as [n |]; [| discriminate Hext].
    destruct (Py.truthy (Some n)) eqn:Ht; [| discriminate Hext].
    exists n. apply truthy_nonempty in Ht. now repeat split. }
  destruct Hname as (n & Hfn & Hne & Hn & Hsel). rewrite Hsel. clear Hext Hsel.
  assert (Hlen : 0 < len (payload file) <= FileHandler.MAX_FILE_SIZE).
  { unfold len in *. lia. }
  apply file_ext_png in Hn.
  destruct (negb _) eqn:Hdecl.
  - destruct (FileHandler.detect_mime X (payload file) (content_type file) _)
      as [[e | mt] w1] eqn:Hdet.
    + apply (f_equal fst) in Hdet. apply detect_mime_raises in Hdet. subst e.
      simpl. discriminate.
    + intros [= <- <- <- <-].
      destruct (detect_mime_returns _ _ _ _ _ Hdet)
        as [(Hnone & -> & ->) | (guess & Hsome & _ & -> & ->)].
      * split_hyps; try apply Hlen; try (intros; congruence).
        exists [EvFileRead]. now repeat split.
      * split_hyps; try apply Hlen; try (intros; congruence).
        exists [EvSniff (payload file); EvFileRead]. now repeat split.
  - intros [= <- <- <- <-]. split_hyps; try apply Hlen.
    + exists [EvFileRead]. now repeat split.
    + intros _. apply negb_false_iff in Hdecl.
      destruct (content_type file) as [ct |]; [| discriminate Hdecl].
      rewrite mem_allowed_mime in Hdecl. apply String.eqb_eq in Hdecl. now subst.
Qed.

(** [validate_and_read_upload] on a payload of 1 byte to 10 MiB under a
    name that ends in [.png]: the declared type and, when it is not
    [image/png], the sniffed type decide. *)
Lemma validate_and_read_sized file w name :
  filename file = Some name -> name <> "" ->
  (exists stem, Py.lower name = stem +:+ ".png") ->
  0 < len (payload file) <= FileHandler.MAX_FILE_SIZE ->
  FileHandler.validate_and_read_upload X file w
  = let w1 := mkWorld (categories w) (EvFileRead :: trace w) in
    let w2 := mkWorld (categories w) (EvSniff (payload file) :: EvFileRead :: trace w) in
    let rejected := inl (HTTPException 400 "Invalid file type. Allowed: image/png") in
    if match content_type file with
       | Some ct => String.eqb ct "image/png"
       | None => false
       end
    then (inr (payload file, content_type file, name), w1)
    else match filetype_guess X with
         | None => (inr (payload file, content_type file, name), w1)
         | Some guess =>
             match guess (payload file) with
             | Some kind =>
                 if String.eqb kind "image/png"
                 then (inr (payload file, Some kind, name), w2)
                 else (rejected, w2)
             | None => (rejected, w2)
             end
         end.
Proof.
  intros Hfn Hne Hext [Hpos Hmax]. apply file_ext_png in Hext.
  unfold FileHandler.validate_and_read_upload, FileHandler.detect_mime,
    try_except, bind, emit, raise, ret.
  cbv beta zeta. rewrite Hfn.
  rewrite (proj2 (truthy_nonempty name) Hne). cbn [default from_option id].
  destruct (Z.gtb_spec (len (payload file)) FileHandler.MAX_FILE_SIZE); [lia |].
  destruct (Z.eqb_spec (len (payload file)) 0); [lia |].
  rewrite mem_allowed_extension, Hext. cbn [String.eqb negb].
  change (String.eqb "png" "png") with true. cbv iota.
  destruct (content_type file) as [ct |].
  - rewrite mem_allowed_mime. destruct (String.eqb ct "image/png"); [reflexivity |].
    cbn [negb]. destruct (filetype_guess X) as [guess |]; [| reflexivity].
    cbv beta. destruct (guess (payload file)) as [kind |]; [| reflexivity].
    rewrite mem_allowed_mime. destruct (String.eqb kind "image/png"); reflexivity.
  - cbn [negb]. destruct (filetype_guess X) as [guess |]; [| reflexivity].
    cbv beta. destruct (guess (payload file)) as [kind |]; [| reflexivity].
    rewrite mem_allowed_mime. destruct (String.eqb kind "image/png"); reflexivity.
Qed.

End FullValidation.

Lemma validate_and_read_postcondition_witness :
  FileHandler.validate_and_read_upload Scenario.sniffing
    (Demo.upload "x.png" Demo.png_stream) Demo.world
  = (inr (Demo.png_stream, Some "image/png", "x.png"),
     mkWorld (categories Demo.world) [EvFileRead])
  /\ 0 < len Demo.png_stream <= FileHandler.MAX_FILE_SIZE.
Proof.
  assert (Hrun : FileHandler.validate_and_read_upload Scenario.sniffing
                   (Demo.upload "x.png" Demo.png_stream) Demo.world
                 = (inr (Demo.png_stream, Some "image/png", "x.png"),
                    mkWorld (categories Demo.world) [EvFileRead]))
    by reflexivity.
  split; [exact Hrun |].
  destruct (validate_and_read_postcondition Scenario.sniffing _ _ _ _ _ _ Hrun)
    as (_ & Hlen & _).
  exact Hlen.
Defined.

(** X11.  When [filetype] cannot be imported, [validate_and_read_upload]
    does not check the type at all: a payload of 1 byte to 10 MiB under a
    name that ends in [.png] is returned with whatever content type the
    client declared, absent included. *)
Theorem validate_and_read_trusts_without_filetype X file w name :
  filetype_guess X = None ->
  filename file = Some name -> name <> "" ->
  (exists stem, Py.lower name = stem +:+ ".png") ->
  0 < len (payload file) <= FileHandler.MAX_FILE_SIZE ->
  runs_to (FileHandler.validate_and_read_upload X file) w
          (inr (payload file, content_type file, name)) (categories w) [EvFileRead].
Proof.
  intros Hnone Hfn Hne Hext Hlen. unfold runs_to.
  rewrite (validate_and_read_sized X file w name Hfn Hne Hext Hlen).
  cbv zeta. rewrite Hnone.
  destruct (match content_type file with
            | Some ct => String.eqb ct "image/png"
            | None => false
            end); reflexivity.
Qed.

Lemma validate_and_read_trusts_without_filetype_witness :
  fst (FileHandler.validate_and_read_upload Demo.offline
         (mkUploadFile (Some "x.png") (Some "text/html") Demo.five_bytes) Demo.world)
  = inr (Demo.five_bytes, Some "text/html", "x.png").
Proof.
  rewrite (validate_and_read_trusts_without_filetype Demo.offline
             (mkUploadFile (Some "x.png") (Some "text/html") Demo.five_bytes)
             Demo.world "x.png" eq_refl eq_refl).
  - reflexivity.
  - discriminate.
  - now exists "x".
  - split; [reflexivity | discriminate].
Defined.

(** X12.  When [filetype] can be imported, a payload of 1 byte to 10 MiB
    under a name that ends in [.png] is judged as follows: declared as
    [image/png], it is accepted and its content is never sniffed; declared
    as anything else or not declared, it is sniffed once, accepted as
    [image/png] when the content is recognised as such, rejected with 400
    "Invalid file type. Allowed: image/png" otherwise. *)
Theorem validate_and_read_sniffs_undeclared X guess file w name :
  filetype_guess X = Some guess ->
  filename file = Some name -> name <> "" ->
  (exists stem, Py.lower name = stem +:+ ".png") ->
  0 < len (payload file) <= FileHandler.MAX_FILE_SIZE ->
  let run := FileHandler.validate_and_read_upload X file in
  (content_type file = Some "image/png" ->
   runs_to run w (inr (payload file, Some "image/png", name)) (categories w)
           [EvFileRead])
  /\ (content_type file <> Some "image/png" ->
      guess (payload file) = Some "image/png" ->
      runs_to run w (inr (payload file, Some "image/png", name)) (categories w)
              [EvSniff (payload file); EvFileRead])
  /\ (content_type file <> Some "image/png" ->
      guess (payload file) <> Some "image/png" ->
      runs_to run w (inl (HTTPException 400 "Invalid file type. Allowed: image/png"))
              (categories w) [EvSniff (payload file); EvFileRead]).
Proof.
  intros Hg Hfn Hne Hext Hlen run. unfold run, runs_to.
  rewrite (validate_and_read_sized X file w name Hfn Hne Hext Hlen).
  cbv zeta. rewrite Hg.
  assert (Hdecl : content_type file <> Some "image/png" ->
                  match content_type file with
                  | Some ct => String.eqb ct "image/png"
                  | None => false
                  end = false).
  { intros Hct. destruct (content_type file) as [ct |]; [| reflexivity].
    destruct (String.eqb_spec ct "image/png"); [subst; now destruct Hct | reflexivity]. }
  split; [| split].
  - intros ->. reflexivity.
  - intros Hct Hk. rewrite (Hdecl Hct), Hk. reflexivity.
  - intros Hct Hk. rewrite (Hdecl Hct).
    destruct (guess (payload file)) as [kind |]; [| reflexivity].
    destruct (String.eqb_spec kind "image/png"); [subst; now destruct Hk | reflexivity].
Qed.

Lemma validate_and_read_sniffs_undeclared_witness :
  fst (FileHandler.validate_and_read_upload Scenario.sniffing
         (mkUploadFile (Some "x.png") (Some "text/html") Demo.png_stream) Demo.world)
  = inr (Demo.png_stream, Some "image/png", "x.png")
  /\ fst (FileHandler.validate_and_read_upload Scenario.sniffing
            (mkUploadFile (Some "x.png") None Demo.jpeg_stream) Demo.world)
     = inl (HTTPException 400 "Invalid file type. Allowed: image/png").
Proof.
  split.
  - destruct (validate_and_read_sniffs_undeclared Scenario.sniffing Scenario.toy_guess
                (mkUploadFile (Some "x.png") (Some "text/html") Demo.png_stream)
                Demo.world "x.png" eq_refl eq_refl) as (_ & H & _).
    + discriminate.
    + now exists "x".
    + split; [reflexivity | discriminate].
    + rewrite H; [reflexivity | discriminate | reflexivity].
  - destruct (validate_and_read_sniffs_undeclared Scenario.sniffing Scenario.toy_guess
                (mkUploadFile (Some "x.png") None Demo.jpeg_stream)
                Demo.world "x.png" eq_refl eq_refl) as (_ & _ & H).
    + discriminate.
    + now exists "x".
    + split; [reflexivity | discriminate].
    + rewrite H; [reflexivity | discriminate | discriminate].
Defined.

(** ** [TelegramService.validate_file] *)

Lemma mem_allowed_types m :
  Py.mem m TelegramService.allowed_types = true
  <-> In m ["image/jpeg"; "image/jpg"; "image/png"; "image/gif"; "image/webp"].
Proof.
  unfold Py.mem, TelegramService.allowed_types.
  rewrite existsb_exists. split.
  - intros (x & Hin & Heq). apply String.eqb_eq in Heq. now subst.
  - intros Hin. exists m. split; [exact Hin | apply String.eqb_refl].
Qed.

(** X13.  [validate_file] of the service accepts a file exactly when it has
    at least one byte, at most [max_size_mb] MiB, and one of the five image
    types; it then returns the empty message, and a non-empty message in
    every other case.  In particular no file is valid under a limit of zero
    or less. *)
Theorem service_validate_file_accepts_iff svc content mime max_size_mb :
  let r := TelegramService.validate_file svc content mime max_size_mb in
  (fst r = true
   <-> 0 < len content <= max_size_mb * 1024 * 1024
       /\ In mime ["image/jpeg"; "image/jpg"; "image/png"; "image/gif"; "image/webp"])
  /\ (fst r = true -> snd r = "")
  /\ (fst r = false -> snd r <> "")
  /\ (max_size_mb <= 0 -> fst r = false).
Proof.
  intros r. unfold r, TelegramService.validate_file. cbv zeta.
  assert (Hlen : 0 <= len content) by (unfold len; lia).
  destruct (Z.gtb_spec (len content) (max_size_mb * 1024 * 1024)) as [Hbig | Hfit].
  { cbn [fst snd]. repeat split; try discriminate; intros; lia. }
  destruct (Z.eqb_spec (len content) 0) as [Hz | Hnz].
  { cbn [fst snd]. repeat split; try discriminate; intros; lia. }
  destruct (Py.mem mime TelegramService.allowed_types) eqn:Hmem; cbn [negb fst snd].
  - apply mem_allowed_types in Hmem.
    repeat split; try discriminate; try lia; try exact Hmem.
  - repeat split; try discriminate; try lia.
    intros [_ Hin]. apply mem_allowed_types in Hin. congruence.
Qed.

Lemma service_validate_file_accepts_iff_witness :
  TelegramService.validate_file Demo.mock_service Demo.png_stream "image/webp" 10
  = (true, "").
Proof.
  pose proof (service_validate_file_accepts_iff Demo.mock_service Demo.png_stream
                "image/webp" 10) as (Hiff & Hmsg & _).
  cbv zeta in Hiff, Hmsg.
  assert (Hok : fst (TelegramService.validate_file Demo.mock_service Demo.png_stream
                       "image/webp" 10) = true).
  { apply Hiff. split; [split; [reflexivity | discriminate] |].
    right. right. right. right. now left. }
  specialize (Hmsg Hok).
  destruct (TelegramService.validate_file Demo.mock_service Demo.png_stream
              "image/webp" 10) as [b msg].
  cbn [fst snd] in *. now subst.
Defined.

(** X14.  The two validators agree on what the file handler lets through:
    when [filetype] can be imported, every content and mime type that
    [validate_and_read_upload] returns passes [validate_file] of the service
    under its default limit of 10 MB. *)
Theorem full_validation_implies_service_validation
    X svc file w content mime name w' :
  filetype_guess X <> None ->
  FileHandler.validate_and_read_upload X file w = (inr (content, Some mime, name), w') ->
  TelegramService.validate_file svc content mime 10 = (true, "").
Proof.
  intros Hft Hrun.
  destruct (validate_and_read_postcondition X file w content (Some mime) name w' Hrun)
    as (_ & [Hpos Hmax] & _ & _ & _ & _ & _ & Hmime).
  injection (Hmime Hft) as ->.
  unfold TelegramService.validate_file. cbv zeta.
  destruct (Z.gtb_spec (len content) (10 * 1024 * 1024)) as [Hbig | _].
  { unfold FileHandler.MAX_FILE_SIZE in Hmax. lia. }
  destruct (Z.eqb_spec (len content) 0) as [Hz | _]; [lia |].
  reflexivity.
Qed.

Lemma full_validation_implies_service_validation_witness :
  TelegramService.validate_file Demo.mock_service Demo.png_stream "image/png" 10
  = (true, "").
Proof.
  apply (full_validation_implies_service_validation Scenario.sniffing
           Demo.mock_service (Demo.upload "x.png" Demo.png_stream) Demo.world
           Demo.png_stream "image/png" "x.png"
           (mkWorld (categories Demo.world) [EvFileRead])).
  - discriminate.
  - reflexivity.
Defined.

(** ** Categories and settings *)

Section Collections.
Implicit Types (db : Database) (cid : string) (docs pre post : list Category.t).

Lemma find_first_some cid docs c :
  find_first cid docs = Some c ->
  exists pre post,
    docs = pre ++ c :: post
    /\ (forall x, In x pre -> Category.id x <> cid)
    /\ Category.id c = cid.
Proof.
  unfold find_first. induction docs as [| d rest IH]; simpl; [discriminate |].
  destruct (String.eqb_spec (Category.id d) cid) as [Heq | Hne].
  - intros [= <-]. exists [], rest. repeat split; trivial. intros x [].
  - intros Hfind. destruct (IH Hfind) as (pre & post & -> & Hpre & Hc).
    exists (d :: pre), post. repeat split; trivial.
    intros x [<- | Hx]; [exact Hne | now apply Hpre].
Qed.

Lemma find_first_none cid docs :
  find_first cid docs = None -> forall d, In d docs -> Category.id d <> cid.
Proof.
  intros Hnone.
  destruct (first_match_split cid docs) as [Hno | (pre & d & post & -> & Hpre & Hd)];
    [exact Hno |].
  rewrite find_first_split in Hnone by assumption. discriminate.
Qed.

(** Replacing a document by one of the same id changes no lookup of another
    id. *)
Lemma find_first_replace cid other pre d d' post :
  Category.id d = cid -> Category.id d' = cid -> other <> cid ->
  find_first other (pre ++ d' :: post) = find_first other (pre ++ d :: post).
Proof.
  intros Hd Hd' Hother. unfold find_first.
  induction pre as [| x pre IH]; simpl.
  - destruct (String.eqb_spec (Category.id d') other); [congruence |].
    destruct (String.eqb_spec (Category.id d) other); [congruence | reflexivity].
  - now rewrite IH.
Qed.

Lemma find_first_remove cid other pre d post :
  Category.id d = cid -> other <> cid ->
  find_first other (pre ++ post) = find_first other (pre ++ d :: post).
Proof.
  intros Hd Hother. unfold find_first.
  induction pre as [| x pre IH]; simpl.
  - destruct (String.eqb_spec (Category.id d) other); [congruence | reflexivity].
  - now rewrite IH.
Qed.

Lemma find_first_app_absent cid docs d :
  find_first cid docs = None -> Category.id d = cid ->
  find_first cid (docs ++ [d]) = Some d.
Proof.
  intros Hnone Hd. apply find_first_split; [| exact Hd].
  now apply find_first_none.
Qed.

Lemma find_first_app_other cid docs d :
  Category.id d <> cid -> find_first cid (docs ++ [d]) = find_first cid docs.
Proof.
  intros Hd. unfold find_first. induction docs as [| x docs IH]; simpl.
  - destruct (String.eqb_spec (Category.id d) cid); [contradiction | reflexivity].
  - now rewrite IH.
Qed.

(** With unique ids, every document is the one that its id finds. *)
Lemma find_first_unique docs c :
  NoDup (List.map Category.id docs) -> In c docs ->
  find_first (Category.id c) docs = Some c.
Proof.
  unfold find_first. induction docs as [| d rest IH]; simpl; [intros _ [] |].
  intros Hnd [-> | Hin].
  - now rewrite String.eqb_refl.
  - inversion Hnd as [| ? ? Hnotin Hrest]; subst.
    destruct (String.eqb_spec (Category.id d) (Category.id c)) as [Heq | _].
    + exfalso. apply Hnotin. rewrite Heq.
      apply list_elem_of_In. now apply in_map.
    + now apply IH.
Qed.

Lemma set_first_absent cid u docs :
  (forall d, In d docs -> Category.id d <> cid) -> set_first cid u docs = (docs, 0).
Proof.
  induction docs as [| d rest IH]; intros Hno; simpl; [reflexivity |].
  destruct (String.eqb_spec (Category.id d) cid) as [Heq | _].
  - exfalso. apply (Hno d); [now left | exact Heq].
  - rewrite IH; [reflexivity |]. intros x Hx. apply Hno. now right.
Qed.

Lemma set_first_split cid u pre d post :
  (forall x, In x pre -> Category.id x <> cid) ->
  Category.id d = cid ->
  set_first cid u (pre ++ d :: post) = (pre ++ apply_set u d :: post, 1).
Proof.
  intros Hpre Hd. induction pre as [| x pre IH]; simpl.
  - rewrite (proj2 (String.eqb_eq _ _) Hd). reflexivity.
  - destruct (String.eqb_spec (Category.id x) cid) as [Heq | _].
    + exfalso. apply (Hpre x); [now left | exact Heq].
    + rewrite IH; [reflexivity |]. intros y Hy. apply Hpre. now right.
Qed.

Lemma delete_first_absent cid docs :
  (forall d, In d docs -> Category.id d <> cid) -> delete_first cid docs = (docs, 0).
Proof.
  induction docs as [| d rest IH]; intros Hno; simpl; [reflexivity |].
  destruct (String.eqb_spec (Category.id d) cid) as [Heq | _].
  - exfalso. apply (Hno d); [now left | exact Heq].
  - rewrite IH; [reflexivity |]. intros x Hx. apply Hno. now right.
Qed.

Lemma delete_first_split cid pre d post :
  (forall x, In x pre -> Category.id x <> cid) ->
  Category.id d = cid ->
  delete_first cid (pre ++ d :: post) = (pre ++ post, 1).
Proof.
  intros Hpre Hd. induction pre as [| x pre IH]; simpl.
  - rewrite (proj2 (String.eqb_eq _ _) Hd). reflexivity.
  - destruct (String.eqb_spec (Category.id x) cid) as [Heq | _].
    + exfalso. apply (Hpre x); [now left | exact Heq].
    + rewrite IH; [reflexivity |]. intros y Hy. apply Hpre. now right.
Qed.

Lemma get_category_found cid db c :
  find_first cid (db_categories db) = Some c ->
  Admin.get_category cid db = (inr c, db).
Proof.
  intros Hfind. unfold Admin.get_category, db_try, db_bind, find_category.
  now rewrite Hfind.
Qed.

Lemma get_category_absent cid db :
  find_first cid (db_categories db) = None ->
  Admin.get_category cid db = (inl (HTTPException 404 "Category not found"), db).
Proof.
  intros Hfind. unfold Admin.get_category, db_try, db_bind, find_category.
  now rewrite Hfind.
Qed.

(** X15.  A category created under an id that no category has yet is
    appended to the collection with both photo arrays empty, the name and
    sentences of the request, and is what [get_category] then returns for
    that id; the replies for the other ids and the settings are unchanged. *)
Theorem create_category_then_get category new_id created_at db :
  find_first new_id (db_categories db) = None ->
  exists c db',
    Admin.create_category category new_id created_at db = (inr c, db')
    /\ db_categories db' = db_categories db ++ [c]
    /\ db_global_settings db' = db_global_settings db
    /\ Category.id c = new_id
    /\ Category.name c = CategoryCreate.name category
    /\ Category.sentences c = CategoryCreate.sentences category
    /\ Category.photos_before c = []
    /\ Category.photos_after c = []
    /\ Admin.get_category new_id db' = (inr c, db')
    /\ (forall other, other <> new_id ->
        fst (Admin.get_category other db') = fst (Admin.get_category other db)).
Proof.
  intros Hfresh.
  set (c := Category.mk new_id (CategoryCreate.name category) [] []
                        (CategoryCreate.sentences category) created_at).
  exists c, (mkDatabase (db_categories db ++ [c]) (db_global_settings db)).
  repeat split.
  - apply get_category_found. cbn [db_categories].
    now apply find_first_app_absent.
  - intros other Hother.
    unfold Admin.get_category, db_try, db_bind, find_category. cbn [db_categories].
    rewrite find_first_app_other by (cbn; congruence).
    now destruct (find_first other (db_categories db)).
Qed.

Lemma create_category_then_get_witness :
  exists c db',
    Admin.create_category (CategoryCreate.mk "Picnic" ["Yes?"]) "c3"
      "2024-03-01T00:00:00+00:00" Scenario.database = (inr c, db')
    /\ Admin.get_category "c3" db' = (inr c, db')
    /\ Category.photos_after c = [].
Proof.
  destruct (create_category_then_get (CategoryCreate.mk "Picnic" ["Yes?"]) "c3"
              "2024-03-01T00:00:00+00:00" Scenario.database eq_refl)
    as (c & db' & Hrun & _ & _ & _ & _ & _ & _ & Hafter & Hget & _).
  exists c, db'. repeat split; assumption.
Defined.

(** X16.  [get_categories] lists the first 1000 documents of the collection
    and no more.  With unique ids, a category past the thousandth is never
    listed, though [get_category] returns it. *)
Theorem get_categories_stops_at_thousand db :
  NoDup (List.map Category.id (db_categories db)) ->
  exists listed rest,
    Admin.get_categories db = (inr listed, db)
    /\ db_categories db = listed ++ rest
    /\ length listed = Nat.min 1000 (length (db_categories db))
    /\ (forall c, In c rest ->
        ~ In c listed /\ Admin.get_category (Category.id c) db = (inr c, db)).
Proof.
  intros Hnd.
  exists (List.firstn 1000 (db_categories db)), (List.skipn 1000 (db_categories db)).
  split; [reflexivity |].
  split; [symmetry; apply List.firstn_skipn |].
  split; [apply List.length_firstn |].
  intros c Hc. split.
  - intros Hlisted.
    rewrite <- (List.firstn_skipn 1000 (db_categories db)), List.map_app in Hnd.
    apply NoDup_app in Hnd. destruct Hnd as (_ & Hdisj & _).
    apply (Hdisj (Category.id c)); apply list_elem_of_In; now apply in_map.
  - apply get_category_found, find_first_unique; [exact Hnd |].
    rewrite <- (List.firstn_skipn 1000 (db_categories db)).
    apply in_or_app. now right.
Qed.

Lemma str_of_Z_inj a b : str_of_Z a = str_of_Z b -> a = b.
Proof.
  unfold str_of_Z. intros H. apply DecimalZ.to_int_inj.
  assert (Hn : forall z, Z.to_int z <> Decimal.Pos Decimal.Nil
                         /\ Z.to_int z <> Decimal.Neg Decimal.Nil).
  { intros [| p | p]; simpl; split; try discriminate;
      intros [= Hp]; now apply (DecimalPos.Unsigned.to_uint_nonnil p). }
  assert (Some (Z.to_int a) = Some (Z.to_int b)) as [= ->]; [| reflexivity].
  rewrite <- (NilZero.isi (Z.to_int a)), <- (NilZero.isi (Z.to_int b)) by apply Hn.
  now rewrite H.
Qed.

Lemma numbered_ids_unique first count :
  NoDup (List.map Category.id (List.map Scenario.numbered (List.seq first count))).
Proof.
  revert first. induction count as [| count IH]; intros first; simpl.
  - constructor.
  - constructor; [| apply IH].
    intros Hin. apply list_elem_of_In in Hin.
    apply in_map_iff in Hin. destruct Hin as (c & Hid & Hc).
    apply in_map_iff in Hc. destruct Hc as (k & <- & Hk).
    apply in_seq in Hk. cbn [Scenario.numbered Category.id] in Hid.
    apply str_of_Z_inj in Hid. lia.
Qed.

Lemma get_categories_stops_at_thousand_witness :
  exists listed,
    Admin.get_categories Scenario.crowd = (inr listed, Scenario.crowd)
    /\ length listed = 1000%nat
    /\ Admin.get_category "1000" Scenario.crowd
       = (inr (Scenario.numbered 1000), Scenario.crowd).
Proof.
  destruct (get_categories_stops_at_thousand Scenario.crowd
              (numbered_ids_unique 0 1001))
    as (listed & rest & Hrun & Hsplit & Hlen & Hrest).
  exists listed. split; [exact Hrun |].
  split; [rewrite Hlen; vm_compute; reflexivity |].
  vm_compute. reflexivity.
Defined.

(** X17.  [update_category]: an update that carries neither a name nor
    sentences is refused with 400, and one for an id that no category has
    with 404, the database unchanged in both cases.  Otherwise the first
    category of that id gets the fields that the update carries, an empty
    name or list included, and keeps its id, photos and creation time; the
    reply is that category, as [get_category] returns it from then on;
    nothing else of the database changes. *)
Theorem update_category_cases cid u db :
  Admin.update_category cid (CategoryUpdate.mk None None) db
  = (inl (HTTPException 400 "No fields to update"), db)
  /\ (u <> CategoryUpdate.mk None None ->
      find_first cid (db_categories db) = None ->
      Admin.update_category cid u db
      = (inl (HTTPException 404 "Category not found"), db))
  /\ (u <> CategoryUpdate.mk None None ->
      forall c, find_first cid (db_categories db) = Some c ->
      exists pre post c' db',
        Admin.update_category cid u db = (inr (Some c'), db')
        /\ db_categories db = pre ++ c :: post
        /\ db_categories db' = pre ++ c' :: post
        /\ db_global_settings db' = db_global_settings db
        /\ Category.id c' = cid
        /\ Category.name c' = default (Category.name c) (CategoryUpdate.name u)
        /\ Category.sentences c'
           = default (Category.sentences c) (CategoryUpdate.sentences u)
        /\ Category.photos_before c' = Category.photos_before c
        /\ Category.photos_after c' = Category.photos_after c
        /\ Category.created_at c' = Category.created_at c
        /\ Admin.get_category cid db' = (inr c', db')
        /\ (forall other, other <> cid ->
            find_first other (db_categories db')
            = find_first other (db_categories db))).
Proof.
  assert (Hfields : u <> CategoryUpdate.mk None None ->
                    Admin.no_category_fields u = false).
  { destruct u as [[name |] [sentences |]]; intros Hu; try reflexivity.
    now destruct Hu. }
  split; [reflexivity |]. split.
  - intros Hu Hfind. destruct db as [docs settings].
    unfold Admin.update_category, db_try, db_bind, set_category.
    cbn [db_categories db_global_settings] in *.
    rewrite (Hfields Hu).
    rewrite set_first_absent by now apply find_first_none.
    reflexivity.
  - intros Hu c Hfind.
    destruct (find_first_some _ _ _ Hfind) as (pre & post & Hsplit & Hpre & Hc).
    exists pre, post, (apply_set u c),
      (mkDatabase (pre ++ apply_set u c :: post) (db_global_settings db)).
    assert (Hfound : find_first cid (pre ++ apply_set u c :: post)
                     = Some (apply_set u c))
      by now apply find_first_split.
    repeat split; trivial.
    + unfold Admin.update_category, db_try, db_bind, set_category, find_category.
      rewrite (Hfields Hu), Hsplit, set_first_split by assumption.
      cbn [Z.eqb db_categories]. now rewrite Hfound.
    + now apply get_category_found.
    + intros other Hother. cbn [db_categories]. rewrite Hsplit.
      now apply (find_first_replace cid).
Qed.

Lemma update_category_cases_witness :
  exists c' db',
    Admin.update_category "c2" (CategoryUpdate.mk None (Some [])) Scenario.database
    = (inr (Some c'), db')
    /\ Category.name c' = "Trip"
    /\ Category.sentences c' = []
    /\ Category.photos_after c' = [Demo.photo7].
Proof.
  destruct (update_category_cases "c2" (CategoryUpdate.mk None (Some []))
              Scenario.database) as (_ & _ & Hok).
  destruct (Hok ltac:(discriminate) Demo.trip eq_refl)
    as (pre & post & c' & db' & Hrun & _ & _ & _ & _ & Hname & Hsent & _ & Hafter & _).
  exists c', db'. repeat split; assumption.
Defined.

(** X18.  [delete_category] answers 404 and changes nothing when no category
    has the id.  Otherwise it removes the first category of that id, with
    all its photos, and nothing else; with unique ids, a second deletion
    and [get_category] then answer 404. *)
Theorem delete_category_cases cid db :
  (find_first cid (db_categories db) = None ->
   Admin.delete_category cid db
   = (inl (HTTPException 404 "Category not found"), db))
  /\ (forall c, find_first cid (db_categories db) = Some c ->
      exists pre post db',
        Admin.delete_category cid db = (inr "Category deleted successfully", db')
        /\ db_categories db = pre ++ c :: post
        /\ db_categories db' = pre ++ post
        /\ db_global_settings db' = db_global_settings db
        /\ (forall other, other <> cid ->
            find_first other (db_categories db')
            = find_first other (db_categories db))
        /\ (NoDup (List.map Category.id (db_categories db)) ->
            Admin.get_category cid db'
            = (inl (HTTPException 404 "Category not found"), db')
            /\ Admin.delete_category cid db'
               = (inl (HTTPException 404 "Category not found"), db'))).
Proof.
  assert (Habsent : forall db0, find_first cid (db_categories db0) = None ->
            Admin.delete_category cid db0
            = (inl (HTTPException 404 "Category not found"), db0)).
  { intros [docs settings] Hfind.
    unfold Admin.delete_category, db_try, db_bind, delete_category_doc.
    cbn [db_categories db_global_settings] in *.
    rewrite delete_first_absent by now apply find_first_none.
    reflexivity. }
  split; [apply Habsent |].
  intros c Hfind.
  destruct (find_first_some _ _ _ Hfind) as (pre & post & Hsplit & Hpre & Hc).
  exists pre, post, (mkDatabase (pre ++ post) (db_global_settings db)).
  assert (Hgone : NoDup (List.map Category.id (db_categories db)) ->
                  find_first cid (pre ++ post) = None).
  { intros Hnd. apply find_first_absent. intros d Hd Hid.
    rewrite Hsplit, List.map_app in Hnd. cbn [List.map] in Hnd.
    apply NoDup_app in Hnd. destruct Hnd as (_ & _ & Hpost).
    inversion Hpost as [| ? ? Hnotin _]; subst.
    apply in_app_or in Hd. destruct Hd as [Hd | Hd].
    - now apply (Hpre d).
    - apply Hnotin. rewrite <- Hid. apply list_elem_of_In. now apply in_map. }
  repeat split; trivial.
  - unfold Admin.delete_category, db_try, db_bind, delete_category_doc.
    rewrite Hsplit, delete_first_split by assumption. reflexivity.
  - intros other Hother. cbn [db_categories]. rewrite Hsplit.
    now apply (find_first_remove cid).
  - apply get_category_absent. cbn [db_categories]. now apply Hgone.
  - apply Habsent. cbn [db_categories]. now apply Hgone.
Qed.

Lemma delete_category_cases_witness :
  exists db',
    Admin.delete_category "c1" Scenario.database
    = (inr "Category deleted successfully", db')
    /\ db_categories db' = [Demo.trip]
    /\ Admin.delete_category "c1" db'
       = (inl (HTTPException 404 "Category not found"), db').
Proof.
  destruct (delete_category_cases "c1" Scenario.database) as (_ & Hok).
  destruct (Hok Demo.wedding eq_refl)
    as (pre & post & db' & Hrun & _ & _ & _ & _ & Htwice).
  exists db'. split; [exact Hrun |].
  split.
  - vm_compute in Hrun. injection Hrun as Hdb. now rewrite <- Hdb.
  - apply Htwice. apply (bool_decide_eq_true_1 _). reflexivity.
Defined.

(** An upload to an id that no category has raises and leaves the
    collection as it was. *)
Lemma upload_to_missing_category field X svc cid file new_id now (w : World) :
  find_first cid (categories w) = None ->
  exists e evs,
    runs_to (RoutesAdmin.upload_photo_to field X svc cid file new_id now) w
            (inl e) (categories w) evs.
Proof.
  intros Hnone.
  destruct (upload_outcomes field X svc cid file new_id now w)
    as [(err & _ & H)
       | [(e' & evs & _ & _ & H & _)
         | [(png & msg & evs & _ & _ & _ & H & _)
           | [(png & r & evs & _ & _ & _ & _ & H & _)
             | (png & r & evs & pre & d & post & _ & _ & _ & Hsplit & Hpre & Hid & _)]]]].
  - exists (HTTPException 400 err), []. unfold runs_to. rewrite H. now destruct w.
  - exists e', evs. exact H.
  - eexists _, evs. exact H.
  - eexists _, _. exact H.
  - rewrite Hsplit, find_first_split in Hnone by assumption. discriminate.
Qed.

(** X19.  Once a category is deleted, its id being unique, an upload to it
    never succeeds and the database stays as the deletion left it. *)
Theorem upload_after_delete_category field X svc cid file new_id now db c :
  NoDup (List.map Category.id (db_categories db)) ->
  find_first cid (db_categories db) = Some c ->
  exists db' e,
    Admin.delete_category cid db = (inr "Category deleted successfully", db')
    /\ on_categories (RoutesAdmin.upload_photo_to field X svc cid file new_id now) db'
       = (inl e, db').
Proof.
  intros Hnd Hfind.
  destruct (delete_category_cases cid db) as (_ & Hok).
  destruct (Hok c Hfind) as (pre & post & db' & Hrun & _ & _ & _ & _ & Hgone).
  destruct (Hgone Hnd) as (Hget & _).
  assert (Hnone : find_first cid (db_categories db') = None).
  { destruct (find_first cid (db_categories db')) as [d |] eqn:Hd; [| reflexivity].
    rewrite (get_category_found _ _ _ Hd) in Hget. discriminate. }
  destruct (upload_to_missing_category field X svc cid file new_id now
              (mkWorld (db_categories db') []) Hnone) as (e & evs & Hup).
  exists db', e. split; [exact Hrun |].
  unfold on_categories. unfold runs_to in Hup. rewrite Hup.
  now destruct db'.
Qed.

Lemma upload_after_delete_category_witness :
  exists db' e,
    Admin.delete_category "c2" Scenario.database
    = (inr "Category deleted successfully", db')
    /\ on_categories
         (RoutesAdmin.upload_photo_after Demo.offline Demo.mock_service "c2"
            (Demo.upload "a.png" Demo.png_stream) "n1" 1) db'
       = (inl e, db').
Proof.
  apply (upload_after_delete_category "photos_after" Demo.offline Demo.mock_service
           "c2" (Demo.upload "a.png" Demo.png_stream) "n1" 1 Scenario.database
           Demo.trip).
  - apply (bool_decide_eq_true_1 _). reflexivity.
  - reflexivity.
Defined.

(** X20.  After a successful upload, [get_category] returns the category
    with the photo of the reply at the end of the array uploaded to, after
    the photos that it returned before; the other array, the name and the
    sentences of the category and the settings are as before. *)
Theorem upload_then_get_category field X svc cid file new_id now db resp db' :
  field = "photos_before" \/ field = "photos_after" ->
  on_categories (RoutesAdmin.upload_photo_to field X svc cid file new_id now) db
  = (inr resp, db') ->
  exists c c' p,
    Admin.get_category cid db = (inr c, db)
    /\ Admin.get_category cid db' = (inr c', db')
    /\ UploadResponse.photo resp = Some p
    /\ photos_in field c' = photos_in field c ++ [p]
    /\ (forall other, other <> field -> photos_in other c' = photos_in other c)
    /\ Category.name c' = Category.name c
    /\ Category.sentences c' = Category.sentences c
    /\ length (db_categories db') = length (db_categories db)
    /\ db_global_settings db' = db_global_settings db.
Proof.
  intros Hf Hrun. unfold on_categories in Hrun.
  destruct (upload_outcomes field X svc cid file new_id now
              (mkWorld (db_categories db) []))
    as [(err & _ & H)
       | [(e' & evs & _ & _ & H & _)
         | [(png & msg & evs & _ & _ & _ & H & _)
           | [(png & r & evs & _ & _ & _ & _ & H & _)
             | (png & r & evs & pre & d & post & _ & _ & _ & Hsplit & Hpre & Hid & H & _)]]]];
    unfold runs_to in H; rewrite H in Hrun; try discriminate Hrun.
  cbn [categories] in Hsplit, Hrun. injection Hrun as <- <-.
  set (p := photo_of r new_id now).
  exists d, (apply_update (Push field p) d), p.
  repeat split.
  - apply get_category_found. rewrite Hsplit. now apply find_first_split.
  - apply get_category_found. cbn [db_categories].
    apply find_first_split; [exact Hpre | now rewrite push_keeps_id].
  - rewrite push_photos by assumption. now rewrite String.eqb_refl.
  - intros other Hother. rewrite push_photos by assumption.
    destruct (String.eqb_spec other field); [contradiction | reflexivity].
  - destruct Hf as [-> | ->]; reflexivity.
  - destruct Hf as [-> | ->]; reflexivity.
  - cbn [db_categories]. rewrite Hsplit, !length_app. reflexivity.
Qed.

Lemma upload_then_get_category_witness :
  exists resp db' c' p,
    on_categories
      (RoutesAdmin.upload_photo_to "photos_after" Demo.offline Demo.mock_service "c2"
         (Demo.upload "a.png" Demo.png_stream) "n1" 1) Scenario.database
    = (inr resp, db')
    /\ Admin.get_category "c2" db' = (inr c', db')
    /\ Category.photos_after c' = [Demo.photo7; p].
Proof.
  destruct (on_categories
              (RoutesAdmin.upload_photo_to "photos_after" Demo.offline
                 Demo.mock_service "c2" (Demo.upload "a.png" Demo.png_stream) "n1" 1)
              Scenario.database) as [[e | resp] db'] eqn:Hrun;
    [discriminate Hrun |].
  destruct (upload_then_get_category "photos_after" Demo.offline Demo.mock_service
              "c2" _ _ _ _ _ _ (or_intror eq_refl) Hrun)
    as (c & c' & p & Hget & Hget' & _ & Hphotos & _).
  injection Hget as <-.
  exists resp, db', c', p. repeat split; assumption.
Defined.

(** *** The settings *)

Lemma find_upsert_settings u stored :
  List.find is_settings (upsert_settings u stored)
  = Some (apply_settings u (stored_settings stored)).
Proof.
  unfold stored_settings. induction stored as [| s rest IH]; [reflexivity |].
  cbn [upsert_settings List.find]. fold (is_settings s).
  destruct (is_settings s) eqn:Hs; cbn [List.find].
  - unfold is_settings at 1. cbn [apply_settings GlobalSettings.id].
    fold (is_settings s). now rewrite Hs.
  - now rewrite Hs.
Qed.

Lemma upsert_settings_twice u stored :
  upsert_settings u (upsert_settings u stored) = upsert_settings u stored.
Proof.
  assert (Hidem : forall s, apply_settings u (apply_settings u s) = apply_settings u s).
  { intros s. unfold apply_settings. cbn.
    now destruct (GlobalSettingsUpdate.before_accept_music u),
                 (GlobalSettingsUpdate.after_accept_music u). }
  induction stored as [| s rest IH]; cbn [upsert_settings].
  - cbn. now rewrite Hidem.
  - fold (is_settings s). destruct (is_settings s) eqn:Hs; cbn [upsert_settings].
    + cbn [apply_settings GlobalSettings.id]. fold (is_settings s).
      rewrite Hs. now rewrite Hidem.
    + fold (is_settings s). now rewrite Hs, IH.
Qed.

Lemma stored_settings_id stored :
  GlobalSettings.id (stored_settings stored) = "global_settings".
Proof.
  unfold stored_settings.
  destruct (List.find is_settings stored) as [s |] eqn:Hfind; [| reflexivity].
  apply List.find_some in Hfind. destruct Hfind as [_ Hs].
  now apply String.eqb_eq in Hs.
Qed.

Lemma get_global_settings_run db :
  Admin.get_global_settings db = (inr (stored_settings (db_global_settings db)), db).
Proof.
  unfold Admin.get_global_settings, db_try, db_bind, find_settings, stored_settings.
  fold is_settings.
  now destruct (List.find is_settings (db_global_settings db)).
Qed.

Lemma get_public_settings_run db :
  Public.get_public_settings db = (inr (stored_settings (db_global_settings db)), db).
Proof.
  unfold Public.get_public_settings, db_try, db_bind, find_settings, stored_settings.
  fold is_settings.
  now destruct (List.find is_settings (db_global_settings db)).
Qed.

Lemma update_global_settings_run u db :
  u <> GlobalSettingsUpdate.mk None None ->
  Admin.update_global_settings u db
  = (inr (apply_settings u (stored_settings (db_global_settings db))),
     mkDatabase (db_categories db) (upsert_settings u (db_global_settings db))).
Proof.
  intros Hu.
  assert (Hfields : Admin.no_settings_fields u = false).
  { destruct u as [[b |] [a |]]; try reflexivity. now destruct Hu. }
  unfold Admin.update_global_settings, db_try, db_bind, upsert_settings_doc,
    find_settings.
  rewrite Hfields. cbn [db_global_settings]. fold is_settings.
  now rewrite find_upsert_settings.
Qed.

(** X21.  A settings update that carries a field succeeds, also when no
    settings were stored yet.  Its reply has the id "global_settings", the
    fields of the update where it carries them, and elsewhere the fields
    that [get_global_settings] returned before; it is what the admin and the
    public settings handlers return from then on; the same update again
    gives the same reply and changes nothing; the categories are
    untouched. *)
Theorem update_settings_then_get u db :
  u <> GlobalSettingsUpdate.mk None None ->
  exists old s db',
    Admin.get_global_settings db = (inr old, db)
    /\ Admin.update_global_settings u db = (inr s, db')
    /\ GlobalSettings.id s = "global_settings"
    /\ GlobalSettings.before_accept_music s
       = match GlobalSettingsUpdate.before_accept_music u with
         | Some v => Some v
         | None => GlobalSettings.before_accept_music old
         end
    /\ GlobalSettings.after_accept_music s
       = match GlobalSettingsUpdate.after_accept_music u with
         | Some v => Some v
         | None => GlobalSettings.after_accept_music old
         end
    /\ Admin.get_global_settings db' = (inr s, db')
    /\ Public.get_public_settings db' = (inr s, db')
    /\ Admin.update_global_settings u db' = (inr s, db')
    /\ db_categories db' = db_categories db.
Proof.
  intros Hu.
  set (old := stored_settings (db_global_settings db)).
  set (db' := mkDatabase (db_categories db) (upsert_settings u (db_global_settings db))).
  assert (Hstored : stored_settings (db_global_settings db') = apply_settings u old).
  { unfold stored_settings at 1. cbn [db' db_global_settings].
    now rewrite find_upsert_settings. }
  exists old, (apply_settings u old), db'.
  split; [apply get_global_settings_run |].
  split; [now apply update_global_settings_run |].
  split; [apply stored_settings_id |].
  split; [reflexivity |]. split; [reflexivity |].
  split; [now rewrite get_global_settings_run, Hstored |].
  split; [now rewrite get_public_settings_run, Hstored |].
  split; [| reflexivity].
  rewrite update_global_settings_run, Hstored by exact Hu.
  cbn [db' db_categories db_global_settings]. rewrite upsert_settings_twice.
  f_equal. f_equal. unfold apply_settings. cbn.
  now destruct (GlobalSettingsUpdate.before_accept_music u),
               (GlobalSettingsUpdate.after_accept_music u).
Qed.

Lemma update_settings_then_get_witness :
  exists s db',
    Admin.update_global_settings
      (GlobalSettingsUpdate.mk None (Some "https://youtu.be/after")) Scenario.database
    = (inr s, db')
    /\ GlobalSettings.before_accept_music s = Some "https://youtu.be/before"
    /\ GlobalSettings.after_accept_music s = Some "https://youtu.be/after"
    /\ Public.get_public_settings db' = (inr s, db').
Proof.
  destruct (update_settings_then_get
              (GlobalSettingsUpdate.mk None (Some "https://youtu.be/after"))
              Scenario.database ltac:(discriminate))
    as (old & s & db' & Hold & Hrun & _ & Hbefore & Hafter & _ & Hpublic & _).
  injection Hold as <-.
  exists s, db'. repeat split; assumption.
Defined.

(** X22.  No settings update removes a music URL.  An update without fields
    is refused with 400 and changes nothing; after any update, accepted or
    not, each URL that the settings had is still set, to the old or to a new
    value. *)
Theorem update_settings_never_clears u db :
  Admin.update_global_settings (GlobalSettingsUpdate.mk None None) db
  = (inl (HTTPException 400 "No fields to update"), db)
  /\ exists old new,
       Admin.get_global_settings db = (inr old, db)
       /\ (let db' := snd (Admin.update_global_settings u db) in
           Admin.get_global_settings db' = (inr new, db'))
       /\ (GlobalSettings.before_accept_music old <> None ->
           GlobalSettings.before_accept_music new <> None)
       /\ (GlobalSettings.after_accept_music old <> None ->
           GlobalSettings.after_accept_music new <> None).
Proof.
  split; [reflexivity |].
  exists (stored_settings (db_global_settings db)),
    (stored_settings (db_global_settings (snd (Admin.update_global_settings u db)))).
  split; [apply get_global_settings_run |].
  split; [apply get_global_settings_run |].
  assert (Hnew : u <> GlobalSettingsUpdate.mk None None ->
            stored_settings
              (db_global_settings (snd (Admin.update_global_settings u db)))
            = apply_settings u (stored_settings (db_global_settings db))).
  { intros Hu. rewrite update_global_settings_run by exact Hu.
    cbn [snd db_global_settings]. unfold stored_settings at 1.
    now rewrite find_upsert_settings. }
  destruct u as [[b |] [a |]].
  - rewrite Hnew by discriminate. cbn. split; discriminate.
  - rewrite Hnew by discriminate. cbn. split; [discriminate | trivial].
  - rewrite Hnew by discriminate. cbn. split; [trivial | discriminate].
  - cbn [snd]. split; trivial.
Qed.

(** X23.  [get_random_proposal] draws nothing at random: with no category
    stored it answers 404 "No categories found"; otherwise it returns the
    categories that [get_categories] lists, all of them up to the first
    1000, with the two music URLs that [get_public_settings] returns, and
    changes nothing. *)
Theorem random_proposal_lists_everything db :
  (db_categories db = [] ->
   Public.get_random_proposal db
   = (inl (HTTPException 404 "No categories found"), db))
  /\ (db_categories db <> [] ->
      exists p listed s,
        Public.get_random_proposal db = (inr p, db)
        /\ Admin.get_categories db = (inr listed, db)
        /\ Public.get_public_settings db = (inr s, db)
        /\ Public.proposal_categories p = listed
        /\ listed = List.firstn 1000 (db_categories db)
        /\ Public.music_before p = GlobalSettings.before_accept_music s
        /\ Public.music_after p = GlobalSettings.after_accept_music s).
Proof.
  split.
  - intros Hempty.
    unfold Public.get_random_proposal, db_try, db_bind, find_to_list.
    now rewrite Hempty.
  - intros Hsome.
    unfold Public.get_random_proposal, db_try, db_bind, find_to_list, find_settings.
    fold is_settings.
    destruct (db_categories db) as [| c rest] eqn:Hdocs; [now destruct Hsome |].
    rewrite get_public_settings_run. unfold stored_settings.
    unfold Admin.get_categories, db_try, find_to_list. rewrite Hdocs.
    change (List.firstn 1000 (c :: rest)) with (c :: List.firstn 999 rest).
    destruct (List.find is_settings (db_global_settings db)) as [s |] eqn:Hfind.
    + exists (Public.mkProposal (c :: List.firstn 999 rest)
                (GlobalSettings.before_accept_music s)
                (GlobalSettings.after_accept_music s)),
        (c :: List.firstn 999 rest), s.
      repeat split. now rewrite Hfind.
    + exists (Public.mkProposal (c :: List.firstn 999 rest) None None),
        (c :: List.firstn 999 rest), GlobalSettings.defaults.
      repeat split. now rewrite Hfind.
Qed.

Lemma random_proposal_lists_everything_witness :
  exists p,
    Public.get_random_proposal Scenario.database = (inr p, Scenario.database)
    /\ Public.proposal_categories p = [Demo.wedding; Demo.trip]
    /\ Public.music_before p = Some "https://youtu.be/before".
Proof.
  destruct (random_proposal_lists_everything Scenario.database) as (_ & Hsome).
  destruct (Hsome ltac:(discriminate))
    as (p & listed & s & Hrun & _ & Hs & Hcats & Hlisted & Hbefore & _).
  exists p. split; [exact Hrun |].
  injection Hs as <-.
  split; [now rewrite Hcats, Hlisted | exact Hbefore].
Defined.

End Collections.

(** ** [format_file_size] *)

Lemma shiftl_one n : 0 <= n -> Z.shiftl 1 n = 2 ^ n.
Proof. intros Hn. now rewrite Z.shiftl_mul_pow2, Z.mul_1_l. Qed.

(** An integer of at most 53 bits is a float. *)
Lemma float_of_int_exact n :
  Z.abs n < 2 ^ 53 -> PyNum.float_of_int n = inr n.
Proof.
  intros Hn. unfold PyNum.float_of_int. cbv zeta.
  assert (Hshift : Z.log2 (Z.abs n) + 1 - 53 <= 0).
  { destruct (Z.eq_dec (Z.abs n) 0) as [-> | Hnz]; [cbn; lia |].
    assert (Z.log2 (Z.abs n) < 53) by (apply Z.log2_lt_pow2; lia). lia. }
  destruct (Z.leb_spec (Z.log2 (Z.abs n) + 1 - 53) 0) as [_ | Hbad]; [| lia].
  rewrite shiftl_one by lia.
  destruct (Z.leb_spec (2 ^ 1024) (Z.abs n)) as [Hbig | _].
  - assert (2 ^ 53 < 2 ^ 1024) by (apply Z.pow_lt_mono_r; lia). lia.
  - f_equal. lia.
Qed.

Lemma append_assoc (a b c : string) : (a +:+ b) +:+ c = a +:+ (b +:+ c).
Proof.
  induction a as [| ch a IH]; [reflexivity |].
  change (String ch ((a +:+ b) +:+ c) = String ch (a +:+ (b +:+ c))).
  now rewrite IH.
Qed.

(** A whole number of units is shown with [.0]. *)
Lemma format_1f_whole q den :
  0 <= q -> 0 < den -> PyNum.format_1f (q * den) den = str_of_Z q +:+ ".0".
Proof.
  intros Hq Hden. unfold PyNum.format_1f. cbv zeta.
  replace (Z.abs (q * den) * 10) with (q * 10 * den) by nia.
  rewrite Z.div_mul, Z.mod_mul by lia.
  replace (den <? 2 * 0) with false by (symmetry; apply Z.ltb_ge; lia).
  replace (2 * 0 =? den) with false by (symmetry; apply Z.eqb_neq; lia).
  cbn [orb andb].
  rewrite Z.div_mul, Z.mod_mul by lia.
  replace (q * den <? 0) with false by (symmetry; apply Z.ltb_ge; nia).
  reflexivity.
Qed.

(** What [FileHandler.format_file_size] computes for an integer of at most 53 bits. *)
Lemma format_file_size_run n :
  0 <= n < 2 ^ 53 ->
  FileHandler.format_file_size n
  = inr (if n <? 1024 then PyNum.format_1f n 1 +:+ " B"
         else if n <? 1048576 then PyNum.format_1f n 1024 +:+ " KB"
         else if n <? 1073741824 then PyNum.format_1f n 1048576 +:+ " MB"
         else if n <? 1099511627776 then PyNum.format_1f n 1073741824 +:+ " GB"
         else PyNum.format_1f n 1099511627776 +:+ " TB").
Proof.
  intros Hn.
  assert (Hexact : PyNum.float_of_int n = inr n)
    by (apply float_of_int_exact; lia).
  unfold FileHandler.format_file_size, FileHandler.format_units, PyNum.lt_1024, PyNum.format,
    PyNum.div_1024.
  rewrite Hexact.
  change (1024 * 1024) with 1048576.
  change (1048576 * 1024) with 1073741824.
  change (1073741824 * 1024) with 1099511627776.
  change (1024 * 1048576) with 1073741824.
  change (1024 * 1073741824) with 1099511627776.
  destruct (n <? 1024); [reflexivity |].
  destruct (n <? 1048576); [reflexivity |].
  destruct (n <? 1073741824); [reflexivity |].
  destruct (n <? 1099511627776); reflexivity.
Qed.

(** X24.  [format_file_size] shows a whole number of units with [.0]: a size
    below 1024 as that many B, and 1 to 1023 times 1024, 1024^2, 1024^3 or
    1024^4 bytes as that many KB, MB, GB or TB. *)
Theorem format_file_size_whole q :
  0 <= q < 1024 ->
  FileHandler.format_file_size q = inr (str_of_Z q +:+ ".0 B")
  /\ (1 <= q ->
      FileHandler.format_file_size (q * 1024) = inr (str_of_Z q +:+ ".0 KB")
      /\ FileHandler.format_file_size (q * 1024 ^ 2) = inr (str_of_Z q +:+ ".0 MB")
      /\ FileHandler.format_file_size (q * 1024 ^ 3) = inr (str_of_Z q +:+ ".0 GB")
      /\ FileHandler.format_file_size (q * 1024 ^ 4) = inr (str_of_Z q +:+ ".0 TB")).
Proof.
  intros Hq.
  assert (H53 : 2 ^ 53 = 9007199254740992) by reflexivity.
  split; [| intros Hpos; repeat split].
  - rewrite format_file_size_run by lia.
    destruct (Z.ltb_spec q 1024); [| lia].
    rewrite <- (Z.mul_1_r q) at 1. rewrite format_1f_whole by lia.
    now rewrite append_assoc.
  - rewrite format_file_size_run by lia.
    destruct (Z.ltb_spec (q * 1024) 1024); [lia |].
    destruct (Z.ltb_spec (q * 1024) 1048576); [| lia].
    rewrite format_1f_whole by lia. now rewrite append_assoc.
  - change (1024 ^ 2) with 1048576.
    rewrite format_file_size_run by lia.
    destruct (Z.ltb_spec (q * 1048576) 1024); [lia |].
    destruct (Z.ltb_spec (q * 1048576) 1048576); [lia |].
    destruct (Z.ltb_spec (q * 1048576) 1073741824); [| lia].
    rewrite format_1f_whole by lia. now rewrite append_assoc.
  - change (1024 ^ 3) with 1073741824.
    rewrite format_file_size_run by lia.
    destruct (Z.ltb_spec (q * 1073741824) 1024); [lia |].
    destruct (Z.ltb_spec (q * 1073741824) 1048576); [lia |].
    destruct (Z.ltb_spec (q * 1073741824) 1073741824); [lia |].
    destruct (Z.ltb_spec (q * 1073741824) 1099511627776); [| lia].
    rewrite format_1f_whole by lia. now rewrite append_assoc.
  - change (1024 ^ 4) with 1099511627776.
    rewrite format_file_size_run by lia.
    destruct (Z.ltb_spec (q * 1099511627776) 1024); [lia |].
    destruct (Z.ltb_spec (q * 1099511627776) 1048576); [lia |].
    destruct (Z.ltb_spec (q * 1099511627776) 1073741824); [lia |].
    destruct (Z.ltb_spec (q * 1099511627776) 1099511627776); [lia |].
    rewrite format_1f_whole by lia. now rewrite append_assoc.
Qed.

Lemma format_file_size_whole_witness :
  FileHandler.format_file_size 512 = inr "512.0 B"
  /\ FileHandler.format_file_size (10 * 1024 ^ 2) = inr "10.0 MB".
Proof.
  destruct (format_file_size_whole 512 ltac:(lia)) as (Hb & _).
  destruct (format_file_size_whole 10 ltac:(lia)) as (_ & Hrest).
  destruct (Hrest ltac:(lia)) as (_ & Hmb & _).
  split; [exact Hb | exact Hmb].
Defined.


(** Rounding to one decimal, ties to even, when the value is within 0.05 of
    [whole]. *)
Lemma format_1f_rounds_up n den whole :
  0 < den -> 0 < whole ->
  (20 * whole - 1) * den <= 20 * n < 20 * whole * den ->
  Z.odd (10 * whole - 1) = true ->
  PyNum.format_1f n den = str_of_Z whole +:+ ".0".
Proof.
  intros Hden Hwhole Hn Hodd. unfold PyNum.format_1f. cbv zeta.
  assert (Hpos : 0 <= n) by nia.
  rewrite Z.abs_eq by exact Hpos.
  assert (Hq : n * 10 / den = 10 * whole - 1).
  { symmetry. apply (Z.div_unique _ _ _ (n * 10 - (10 * whole - 1) * den)); nia. }
  assert (Hr : (n * 10) mod den = n * 10 - (10 * whole - 1) * den).
  { rewrite Z.mod_eq by lia. rewrite Hq. lia. }
  rewrite Hq, Hr, Hodd.
  assert (Htenths :
    (if (den <? 2 * (n * 10 - (10 * whole - 1) * den))
        || ((2 * (n * 10 - (10 * whole - 1) * den) =? den) && true)
     then 10 * whole - 1 + 1 else 10 * whole - 1) = whole * 10).
  { destruct (Z.ltb_spec den (2 * (n * 10 - (10 * whole - 1) * den))); cbn [orb];
      [lia |].
    destruct (Z.eqb_spec (2 * (n * 10 - (10 * whole - 1) * den)) den); cbn [andb];
      lia. }
  rewrite Htenths, Z.div_mul, Z.mod_mul by lia.
  replace (n <? 0) with false by (symmetry; apply Z.ltb_ge; lia).
  reflexivity.
Qed.

(** X25.  [format_file_size] chooses the unit before it rounds: a size that
    is at most a twentieth of a unit below 1024 KB, MB or GB is shown as
    1024.0 of that unit, not as 1.0 of the next. *)
Theorem format_file_size_just_below_unit n :
  (20479 * 1024 <= 20 * n -> n < 1024 ^ 2 ->
   FileHandler.format_file_size n = inr "1024.0 KB")
  /\ (20479 * 1024 ^ 2 <= 20 * n -> n < 1024 ^ 3 ->
      FileHandler.format_file_size n = inr "1024.0 MB")
  /\ (20479 * 1024 ^ 3 <= 20 * n -> n < 1024 ^ 4 ->
      FileHandler.format_file_size n = inr "1024.0 GB").
Proof.
  assert (H53 : 2 ^ 53 = 9007199254740992) by reflexivity.
  change (1024 ^ 2) with 1048576. change (1024 ^ 3) with 1073741824.
  change (1024 ^ 4) with 1099511627776.
  repeat split; intros Hlow Hhigh.
  - rewrite format_file_size_run by lia.
    destruct (Z.ltb_spec n 1024); [lia |].
    destruct (Z.ltb_spec n 1048576); [| lia].
    rewrite (format_1f_rounds_up n 1024 1024) by (try reflexivity; lia).
    reflexivity.
  - rewrite format_file_size_run by lia.
    destruct (Z.ltb_spec n 1024); [lia |].
    destruct (Z.ltb_spec n 1048576); [lia |].
    destruct (Z.ltb_spec n 1073741824); [| lia].
    rewrite (format_1f_rounds_up n 1048576 1024) by (try reflexivity; lia).
    reflexivity.
  - rewrite format_file_size_run by lia.
    destruct (Z.ltb_spec n 1024); [lia |].
    destruct (Z.ltb_spec n 1048576); [lia |].
    destruct (Z.ltb_spec n 1073741824); [lia |].
    destruct (Z.ltb_spec n 1099511627776); [| lia].
    rewrite (format_1f_rounds_up n 1073741824 1024) by (try reflexivity; lia).
    reflexivity.
Qed.

Lemma format_file_size_just_below_unit_witness :
  FileHandler.format_file_size 1048575 = inr "1024.0 KB".
Proof.
  destruct (format_file_size_just_below_unit 1048575) as (Hkb & _).
  apply Hkb; [lia | reflexivity].
Defined.


(** From [2 ^ 1024] on, an integer has no float. *)
Lemma float_of_int_overflow n :
  2 ^ 1024 <= Z.abs n ->
  PyNum.float_of_int n = inl (Exception "int too large to convert to float").
Proof.
  intros Hn. unfold PyNum.float_of_int. cbv zeta.
  set (a := Z.abs n) in *.
  assert (Hpos : 0 < a).
  { assert (0 < 2 ^ 1024) by (apply Z.pow_pos_nonneg; lia). lia. }
  assert (Hlog : 1024 <= Z.log2 a) by (apply Z.log2_le_pow2; lia).
  set (shift := Z.log2 a + 1 - 53).
  assert (Hshift : 0 < shift) by (unfold shift; lia).
  destruct (Z.leb_spec shift 0) as [Hbad | _]; [lia |].
  rewrite shiftl_one by lia.
  rewrite Z.shiftr_div_pow2, Z.shiftl_mul_pow2 by lia.
  assert (Hp : 0 < 2 ^ shift) by (apply Z.pow_pos_nonneg; lia).
  assert (Hq : 2 ^ 52 <= a / 2 ^ shift).
  { apply Z.div_le_lower_bound; [exact Hp |].
    rewrite Z.mul_comm, <- Z.pow_add_r by lia.
    replace (52 + shift) with (Z.log2 a) by (unfold shift; lia).
    apply Z.log2_spec. exact Hpos. }
  assert (Hfloor : 2 ^ 1024 <= a / 2 ^ shift * 2 ^ shift).
  { apply Z.le_trans with (2 ^ 52 * 2 ^ shift).
    - rewrite <- Z.pow_add_r by lia. apply Z.pow_le_mono_r; unfold shift; lia.
    - apply Z.mul_le_mono_nonneg_r; lia. }
  match goal with
  | |- (if 2 ^ 1024 <=? ?r then _ else _) = _ =>
      assert (Hr : 2 ^ 1024 <= r)
  end.
  { destruct (_ || _); nia. }
  destruct (Z.leb_spec (2 ^ 1024)
              ((if (Z.shiftl 1 (shift - 1) <? Z.land a (Z.ones shift))
                    || ((Z.land a (Z.ones shift) =? Z.shiftl 1 (shift - 1))
                        && Z.odd (a / 2 ^ shift))
                then a / 2 ^ shift + 1 else a / 2 ^ shift) * 2 ^ shift));
    [reflexivity | lia].
Qed.

(** X26.  [format_file_size] returns a text for every size of at most 53
    bits, negative ones included, and raises [OverflowError] for a size of
    absolute value [2 ^ 1024] or more, which has no float. *)
Theorem format_file_size_raises_when_huge n :
  (2 ^ 1024 <= Z.abs n ->
   FileHandler.format_file_size n = inl (Exception "int too large to convert to float"))
  /\ (Z.abs n < 2 ^ 53 -> exists text, FileHandler.format_file_size n = inr text).
Proof.
  split.
  - intros Hn. pose proof (float_of_int_overflow n Hn) as Hover.
    unfold FileHandler.format_file_size, FileHandler.format_units, PyNum.lt_1024, PyNum.format,
      PyNum.div_1024.
    rewrite Hover. now destruct (n <? 1024).
  - intros Hn. pose proof (float_of_int_exact n Hn) as Hexact.
    assert (H53 : 2 ^ 53 = 9007199254740992) by reflexivity.
    destruct (Z.lt_ge_cases n 0) as [Hneg | Hpos].
    + unfold FileHandler.format_file_size, FileHandler.format_units, PyNum.lt_1024, PyNum.format.
      rewrite Hexact.
      destruct (Z.ltb_spec n 1024); [| lia]. eauto.
    + rewrite format_file_size_run by lia. eauto.
Qed.

Lemma format_file_size_raises_when_huge_witness :
  FileHandler.format_file_size (2 ^ 1024)
  = inl (Exception "int too large to convert to float")
  /\ exists text, FileHandler.format_file_size (-5) = inr text.
Proof.
  destruct (format_file_size_raises_when_huge (2 ^ 1024)) as (Hhuge & _).
  destruct (format_file_size_raises_when_huge (-5)) as (_ & Hsmall).
  split.
  - apply Hhuge. rewrite Z.abs_eq; [lia | apply Z.pow_nonneg; lia].
  - apply Hsmall. reflexivity.
Defined.


(** ** What deleting a photo leaves alone *)

(** X27.  Whatever its arguments, the delete handler makes no call to the
    storage service and no HTTP request, and at most one update of the
    collection: the file of a deleted photo stays where the upload has put
    it. *)
Theorem delete_photo_leaves_storage_alone cid pid photo_type w :
  exists r docs evs,
    runs_to (RoutesAdmin.delete_photo cid pid photo_type) w r docs evs
    /\ storage_calls evs = []
    /\ http_calls evs = []
    /\ (length (db_ops evs) <= 1)%nat.
Proof.
  destruct (Py.mem photo_type ["before"; "after"]) eqn:Hmem.
  - apply mem_photo_type in Hmem.
    pose proof (delete_photo_run cid pid photo_type w Hmem) as Hrun.
    cbv zeta in Hrun.
    eexists _, _, _. split; [exact Hrun |].
    repeat split. cbn. lia.
  - exists (inl (HTTPException 400 "photo_type must be 'before' or 'after'")),
      (categories w), [].
    split; [| repeat split; cbn; lia].
    unfold runs_to, RoutesAdmin.delete_photo, try_except. rewrite Hmem.
    now destruct w.
Qed.
